(** * Smart-sheet: the finance arithmetic, the goal planner, the audit log,
      the CSV transcoder, the dashboard and the handlers of the expense
      sheet, embedded from the TypeScript sources.

    Numbers are JavaScript numbers, that is IEEE 754 binary64 values: they
    are embedded as Rocq's primitive floats, so [+], [*], [/] and the
    comparisons below round and treat NaN exactly as the program does.
    Strings are sequences of 8-bit code units.  Built-ins of the JavaScript
    runtime whose text is not part of the repository (number formatting,
    [parseFloat], the clock, [Date]) are the fields of the class
    [Builtins]. *)

From Stdlib Require Import Bool List Arith ZArith Lia Permutation Sorted.
From Stdlib Require Import Ascii String DecimalString.
From Stdlib Require Import PrimFloat SpecFloat FloatOps FloatAxioms.
Import ListNotations.

Set Warnings "-inexact-float".

Local Open Scope string_scope.
Local Open Scope float_scope.
Local Open Scope bool_scope.

(* ================================================================== *)
(** ** JavaScript values and operators used by the sources *)

Module JS.

Definition number := float.

Definition NaN : number := nan.

(** [isNaN(x)] on a number. *)
Definition isNaN (x : number) : bool := is_nan x.

(** ToBoolean on a number: [0], [-0] and [NaN] are falsy. *)
Definition truthy (x : number) : bool := negb (is_nan x || (x =? 0)).

(** ToBoolean on a string: only the empty string is falsy. *)
Definition truthyS (s : string) : bool := negb (s =? "")%string.

(** [x || d] where [x] may be [undefined] (a missing property). *)
Definition orNum (x : option number) (d : number) : number :=
  match x with
  | Some v => if truthy v then v else d
  | None => d
  end.

Definition orStr (x : option string) (d : string) : string :=
  match x with
  | Some v => if truthyS v then v else d
  | None => d
  end.

(** [Math.min(a, b)]: NaN if either argument is NaN, [-0] below [+0]. *)
Definition Math_min (a b : number) : number :=
  if is_nan a || is_nan b then NaN
  else if is_zero a && is_zero b
       then (if get_sign a || get_sign b then neg_zero else zero)
  else if b <? a then b else a.

(** [Math.max(a, b)]: NaN if either argument is NaN, [+0] above [-0]. *)
Definition Math_max (a b : number) : number :=
  if is_nan a || is_nan b then NaN
  else if is_zero a && is_zero b
       then (if get_sign a && get_sign b then neg_zero else zero)
  else if a <? b then b else a.

(** [xs.reduce((acc, x) => f(acc, x), init)]. *)
Definition reduce {A B : Type} (f : B -> A -> B) (init : B) (xs : list A) : B :=
  fold_left f xs init.

(** Lookup of an own property in an object used as a dictionary. *)
Fixpoint prop {V : Type} (o : list (string * V)) (k : string) : option V :=
  match o with
  | [] => None
  | (k', v) :: o' => if (k' =? k)%string then Some v else prop o' k
  end.

(** The names that every plain object answers to without owning them,
    the members of [Object.prototype]: functions, and under [__proto__]
    the prototype itself. *)
Definition inheritedNames : list string :=
  [ "constructor"; "hasOwnProperty"; "isPrototypeOf"; "propertyIsEnumerable";
    "toLocaleString"; "toString"; "valueOf"; "__proto__";
    "__defineGetter__"; "__defineSetter__";
    "__lookupGetter__"; "__lookupSetter__" ]%string.

Definition ownName (k : string) : bool :=
  negb (existsb (String.eqb k) inheritedNames).

(** What [o[k]] yields on an object literal with the entries [o]: the own
    property, else the member that the object inherits under that name,
    else [undefined]. *)
Inductive Member (V : Type) : Type :=
| Own (v : V)
| Inherited
| Undefined.

Arguments Own {V} v.
Arguments Inherited {V}.
Arguments Undefined {V}.

Definition get {V : Type} (o : list (string * V)) (k : string) : Member V :=
  match prop o k with
  | Some v => Own v
  | None => if ownName k then Undefined else Inherited
  end.

(** [o[k] || d] as a factor or a divisor, on an object of numbers.  An
    inherited member is a function or an object: it is truthy, so [||]
    keeps it, and the arithmetic makes NaN of it. *)
Definition memberOr (m : Member number) (d : number) : number :=
  match m with
  | Own v => if truthy v then v else d
  | Inherited => NaN
  | Undefined => d
  end.

End JS.

Import JS.

(** Completion of a statement sequence: normal, or an exception thrown. *)
Inductive completion (A : Type) : Type :=
| Normal (a : A)
| Throw (e : string).

Arguments Normal {A} a.
Arguments Throw {A} e.

Definition bind {A B : Type} (c : completion A) (k : A -> completion B)
  : completion B :=
  match c with
  | Normal a => k a
  | Throw e => Throw e
  end.

Notation "x <- c ;; k" := (bind c (fun x => k))
  (at level 61, c at next level, right associativity).

(** [try { c } catch { h }]. *)
Definition tryCatch {A : Type} (c : completion A) (h : A) : A :=
  match c with
  | Normal a => a
  | Throw _ => h
  end.

(* ================================================================== *)
(** ** types.ts *)

Module Expense.
Record t := mk {
  id : string;
  name : string;
  amount : number;
  category : string;
  date : string;
  currency : option string
}.
End Expense.

Record Income := {
  grossAnnualSalary : number;
  otherIncome : number
}.

Module SavingsGoal.
Record t := mk {
  id : string;
  name : string;
  targetAmount : number;
  savedAmount : number;
  deadline : string;
  category : string;
  icon : string;
  color : string
}.
End SavingsGoal.

Module FinancialProfile.
Record t := mk {
  income : Income;
  expenses : list Expense.t;
  currency : string;
  language : string;
  budgets : list (string * number);
  categories : list string;
  goals : list SavingsGoal.t
}.
End FinancialProfile.

(* ================================================================== *)
(** ** constants.ts *)

Module Constants.

Definition EXCHANGE_RATES_TO_USD : list (string * number) :=
  [ ("USD", 1); ("EUR", 1.08); ("GBP", 1.27); ("INR", 0.012);
    ("JPY", 0.0067); ("CAD", 0.74); ("AUD", 0.66); ("CNY", 0.14);
    ("SGD", 0.74); ("CHF", 1.13); ("HKD", 0.13); ("NZD", 0.61);
    ("SEK", 0.096); ("KRW", 0.00075); ("MXN", 0.059); ("BRL", 0.20);
    ("RUB", 0.011); ("ZAR", 0.053); ("TRY", 0.031); ("AED", 0.27);
    ("SAR", 0.27) ].

Definition convertCurrency (amount : number) (fromCurrency toCurrency : string)
  : number :=
  if (fromCurrency =? toCurrency)%string then amount
  else
    let fromRate := memberOr (get EXCHANGE_RATES_TO_USD fromCurrency) 1 in
    let toRate := memberOr (get EXCHANGE_RATES_TO_USD toCurrency) 1 in
    let inUSD := amount * fromRate in
    inUSD / toRate.

Definition DEFAULT_INCOME : Income :=
  {| grossAnnualSalary := 60000; otherIncome := 0 |}.

Definition EXPENSE_CATEGORIES : list string :=
  [ "Housing"; "Food"; "Transport"; "Utilities"; "Entertainment";
    "Health"; "Debt"; "Other" ]%string.

Definition MOCK_EXPENSES : list Expense.t :=
  [ Expense.mk "1" "Rent" 1500 "Housing" "2023-10-01" (Some "USD"%string);
    Expense.mk "2" "Groceries" 400 "Food" "2023-10-05" (Some "USD"%string);
    Expense.mk "3" "Car Loan" 350 "Debt" "2023-10-10" (Some "USD"%string);
    Expense.mk "4" "Netflix" 15 "Entertainment" "2023-10-15" (Some "USD"%string) ].

End Constants.

Import Constants.

(* ================================================================== *)
(** ** Built-ins of the runtime *)

(** What [new Date(..)] exposes to the program: the local calendar year
    and the zero-based local month, both JavaScript numbers (NaN for an
    invalid date). *)
Record JSDate := {
  getFullYear : number;
  getMonth : number
}.

(** The readings of the clock taken by one event handler. *)
Record Clock := {
  today : JSDate;              (* new Date() *)
  toISOString : string;        (* new Date().toISOString() *)
  Date_now : string            (* Date.now().toString() *)
}.

Class Builtins := {
  (** ToString of a number, as applied by [Array.prototype.join]. *)
  Number_toString : number -> string;
  parseFloat : string -> number;
  (** [new Date(s)] for a string [s]. *)
  newDate : string -> JSDate
}.

(* ================================================================== *)
(** ** services/auditService.ts *)

Module AuditService.

Record AuditLogEntry := {
  timestamp : string;
  action : string;
  details : option string
}.

(** The text under [STORAGE_KEY], as [JSON.parse] takes it. *)
Inductive Item :=
| NoItem                                (* no text, or the empty one *)
| LogArray (logs : list AuditLogEntry)  (* the text of an array of entries *)
| Unparsable.                           (* a text that the parser rejects *)

(** Local storage, as the three functions meet it: the text under the
    key; whether the browser refuses access to the storage, every method
    then throwing; and the arrays whose text it refuses to write, the
    quota being exceeded.  (A text that parses to something other than an
    array of entries is left out.) *)
Record Storage := {
  item : Item;
  denied : bool;
  rejects : list AuditLogEntry -> bool
}.

Definition getItem (store : Storage) : completion Item :=
  if denied store then Throw "SecurityError" else Normal (item store).

Definition setItem (logs : list AuditLogEntry) (store : Storage)
  : completion Storage :=
  if denied store then Throw "SecurityError"
  else if rejects store logs then Throw "QuotaExceededError"
  else Normal {| item := LogArray logs;
                 denied := denied store;
                 rejects := rejects store |}.

Definition removeItem (store : Storage) : completion Storage :=
  if denied store then Throw "SecurityError"
  else Normal {| item := NoItem;
                 denied := denied store;
                 rejects := rejects store |}.

(** [raw ? JSON.parse(raw) : []]. *)
Definition parseLogs (raw : Item) : completion (list AuditLogEntry) :=
  match raw with
  | NoItem => Normal []
  | LogArray logs => Normal logs
  | Unparsable => Throw "SyntaxError"
  end.

(** [xs.slice(0, n)]. *)
Definition slice0 {A : Type} (n : nat) (xs : list A) : list A := firstn n xs.

(** The [catch] branch only writes to the console: the store is then as
    it was. *)
Definition logAction (now : Clock) (action : string) (details : option string)
  (store : Storage) : Storage :=
  tryCatch
    (existingLogsRaw <- getItem store ;;
     logs <- parseLogs existingLogsRaw ;;
     let newEntry := {| timestamp := toISOString now;
                        action := action;
                        details := details |} in
     let updatedLogs := slice0 100 (newEntry :: logs) in
     setItem updatedLogs store)
    store.

Definition getAuditLogs (store : Storage) : list AuditLogEntry :=
  tryCatch (logs <- getItem store ;; parseLogs logs) [].

Definition clearAuditLogs (store : Storage) : Storage :=
  tryCatch (removeItem store) store.

(** A storage without a log, and one that holds [logs]; both allow
    access and accept every write. *)
Definition emptyStorage : Storage :=
  {| item := NoItem; denied := false; rejects := fun _ => false |}.

Definition holding (logs : list AuditLogEntry) : Storage :=
  {| item := LogArray logs; denied := false; rejects := fun _ => false |}.

(** The storage lets [logAction] through: access is allowed, the text
    under the key parses, and no write is refused. *)
Definition working (store : Storage) : Prop :=
  denied store = false
  /\ item store <> Unparsable
  /\ forall logs, rejects store logs = false.

End AuditService.

(* ================================================================== *)
(** ** components/Dashboard.tsx *)

Module Dashboard.
Import FinancialProfile.

Definition totalMonthlyExpenses (profile : FinancialProfile.t) : number :=
  reduce (fun acc curr =>
            let amountInBase :=
              convertCurrency (Expense.amount curr)
                (orStr (Expense.currency curr) (currency profile))
                (currency profile) in
            acc + amountInBase)
         0 (expenses profile).

Definition monthlyGross (profile : FinancialProfile.t) : number :=
  (grossAnnualSalary (income profile) / 12) + (otherIncome (income profile) / 12).

Definition monthlySavings (profile : FinancialProfile.t) : number :=
  monthlyGross profile - totalMonthlyExpenses profile.

Definition savingsRate (profile : FinancialProfile.t) : number :=
  if 0 <? monthlyGross profile
  then (monthlySavings profile / monthlyGross profile) * 100 else 0.

Definition spent (profile : FinancialProfile.t) (category : string) : number :=
  reduce (fun sum e =>
            sum + convertCurrency (Expense.amount e)
                    (orStr (Expense.currency e) (currency profile))
                    (currency profile))
         0 (filter (fun e => (Expense.category e =? category)%string)
                   (expenses profile)).

Definition budget (profile : FinancialProfile.t) (category : string) : number :=
  orNum (prop (budgets profile) category) 0.

Definition percentage (profile : FinancialProfile.t) (category : string) : number :=
  if 0 <? budget profile category
  then (spent profile category / budget profile category) * 100 else 0.

Definition isOverBudget (profile : FinancialProfile.t) (category : string) : bool :=
  100 <? percentage profile category.

End Dashboard.

(* ================================================================== *)
(** ** components/PlanningTools.tsx *)

Module PlanningTools.
Import FinancialProfile.

Definition GOAL_CATEGORIES : list (string * (string * string)) :=
  [ ("Emergency", ("Emergency Fund", "bg-red-500"));
    ("Travel", ("Travel", "bg-blue-500"));
    ("Home", ("Housing", "bg-indigo-500"));
    ("Vehicle", ("Car/Vehicle", "bg-orange-500"));
    ("Education", ("Education", "bg-green-500"));
    ("Gadget", ("Tech/Gadgets", "bg-purple-500"));
    ("Investment", ("Investment", "bg-teal-500"));
    ("Other", ("Other", "bg-gray-500")) ]%string.

(** [GOAL_CATEGORIES.find(c => c.id === id) || GOAL_CATEGORIES[7]]. *)
Definition categoryDef (id : string) : string * string :=
  match prop GOAL_CATEGORIES id with
  | Some d => d
  | None => ("Other", "bg-gray-500")%string
  end.

(** *** SIP inputs *)

Definition monthlyGross (profile : FinancialProfile.t) : number :=
  (grossAnnualSalary (income profile) / 12) + (otherIncome (income profile) / 12).

Definition totalMonthlyExpenses (profile : FinancialProfile.t) : number :=
  reduce (fun acc curr => acc + Expense.amount curr) 0 (expenses profile).

Definition monthlySavings (profile : FinancialProfile.t) : number :=
  Math_max 0 (monthlyGross profile - totalMonthlyExpenses profile).

Definition sipAmount (profile : FinancialProfile.t) : number :=
  monthlySavings profile * 0.5.

Definition investedAmount (profile : FinancialProfile.t) : number :=
  sipAmount profile * (10 * 12).

(** *** Tax estimator *)

Record TaxInput := {
  salary : number;
  other : number
}.

Definition simulatedAnnualIncome (taxInput : TaxInput) : number :=
  orNum (Some (salary taxInput)) 0 + orNum (Some (other taxInput)) 0.

(** The three [if] statements over the mutable [tax] and
    [remainingIncome], in program order. *)
Definition tax (simulatedAnnualIncome : number) : number :=
  let tax := 0 in
  let remainingIncome := simulatedAnnualIncome in
  let '(tax, remainingIncome) :=
    if 80000 <? remainingIncome
    then (tax + (remainingIncome - 80000) * 0.30, 80000)
    else (tax, remainingIncome) in
  let '(tax, remainingIncome) :=
    if 40000 <? remainingIncome
    then (tax + (remainingIncome - 40000) * 0.20, 40000)
    else (tax, remainingIncome) in
  if 10000 <? remainingIncome
  then tax + (remainingIncome - 10000) * 0.10
  else tax.

Definition netAnnual (simulatedAnnualIncome : number) : number :=
  simulatedAnnualIncome - tax simulatedAnnualIncome.

Definition effectiveRate (simulatedAnnualIncome : number) : number :=
  if 0 <? simulatedAnnualIncome
  then (tax simulatedAnnualIncome / simulatedAnnualIncome) * 100 else 0.

(** *** Goals *)

(** The form state [newGoal]: every field is present in each value the
    component ever stores in it. *)
Record NewGoal := {
  name : string;
  targetAmount : number;
  savedAmount : number;
  deadline : string;
  category : string
}.

Definition emptyGoal : NewGoal :=
  {| name := ""; targetAmount := 0; savedAmount := 0;
     deadline := ""; category := "Other" |}.

(** The state the goal handlers read and write: the profile owned by the
    parent, the form, and the audit log in local storage. *)
Record State := {
  profile : FinancialProfile.t;
  newGoal : NewGoal;
  isAddingGoal : bool;
  auditLog : AuditService.Storage
}.

Definition setGoals (gs : list SavingsGoal.t) (prev : FinancialProfile.t)
  : FinancialProfile.t :=
  FinancialProfile.mk (income prev) (expenses prev) (currency prev)
    (language prev) (budgets prev) (categories prev) gs.

(** [setProfile] is an optional property of the component: [hasSetProfile]
    tells whether the parent passed it. *)
Definition handleAddGoal (hasSetProfile : bool) (now : Clock) (st : State) : State :=
  let g := newGoal st in
  if negb (truthyS (name g)) || negb (truthy (targetAmount g)) || negb hasSetProfile
  then st
  else
    let def := categoryDef (category g) in
    let goal :=
      SavingsGoal.mk (Date_now now) (name g) (targetAmount g)
        (orNum (Some (savedAmount g)) 0)
        (orStr (Some (deadline g)) "")
        (category g)
        (orStr (Some (category g)) "Other")
        (snd def) in
    {| profile := setGoals (goals (profile st) ++ [goal]) (profile st);
       newGoal := emptyGoal;
       isAddingGoal := false;
       auditLog := AuditService.logAction now "GOAL_ADDED"
                     (Some ("Added goal: " ++ SavingsGoal.name goal)%string)
                     (auditLog st) |}.

Definition handleDeleteGoal (hasSetProfile : bool) (now : Clock) (id : string)
  (st : State) : State :=
  if negb hasSetProfile then st
  else
    {| profile := setGoals
                    (filter (fun g => negb (SavingsGoal.id g =? id)%string)
                            (goals (profile st)))
                    (profile st);
       newGoal := newGoal st;
       isAddingGoal := isAddingGoal st;
       auditLog := AuditService.logAction now "GOAL_DELETED"
                     (Some ("Deleted goal ID: " ++ id)%string) (auditLog st) |}.

Definition handleUpdateGoalProgress (hasSetProfile : bool) (id : string)
  (amount : number) (st : State) : State :=
  if negb hasSetProfile then st
  else
    {| profile :=
         setGoals
           (map (fun g =>
                   if (SavingsGoal.id g =? id)%string
                   then SavingsGoal.mk (SavingsGoal.id g) (SavingsGoal.name g)
                          (SavingsGoal.targetAmount g) amount
                          (SavingsGoal.deadline g) (SavingsGoal.category g)
                          (SavingsGoal.icon g) (SavingsGoal.color g)
                   else g)
                (goals (profile st)))
           (profile st);
       newGoal := newGoal st;
       isAddingGoal := isAddingGoal st;
       auditLog := auditLog st |}.

(** The two quick-add buttons of a goal card: [+100] and [+500]. *)
Definition quickAdd (hasSetProfile : bool) (goal : SavingsGoal.t) (step : number)
  (st : State) : State :=
  handleUpdateGoalProgress hasSetProfile (SavingsGoal.id goal)
    (SavingsGoal.savedAmount goal + step) st.

Definition quickAddSteps : list number := [100; 500].

Definition calculateMonthlyNeed `{Builtins} (now : Clock)
  (target saved : number) (deadline : string) : number :=
  if negb (truthyS deadline) then 0
  else
    let today := today now in
    let end_ := newDate deadline in
    let months := (getFullYear end_ - getFullYear today) * 12
                  + (getMonth end_ - getMonth today) in
    if months <=? 0 then 0
    else
      let remaining := Math_max 0 (target - saved) in
      remaining / months.

Definition progress (goal : SavingsGoal.t) : number :=
  Math_min ((SavingsGoal.savedAmount goal / SavingsGoal.targetAmount goal) * 100) 100.

Definition monthlyNeed `{Builtins} (now : Clock) (goal : SavingsGoal.t) : number :=
  calculateMonthlyNeed now (SavingsGoal.targetAmount goal)
    (SavingsGoal.savedAmount goal) (SavingsGoal.deadline goal).

End PlanningTools.

(* ================================================================== *)
(** ** String methods and the statement-level behaviour of JavaScript *)

Module Str.

Definition quote : ascii := ascii_of_nat 34.
Definition comma : ascii := ","%char.
Definition LF : ascii := ascii_of_nat 10.

(** White space removed by [String.prototype.trim] among 8-bit code
    units: TAB, LF, VT, FF, CR, SPACE and NBSP. *)
Definition isWhiteSpace (c : ascii) : bool :=
  let n := nat_of_ascii c in
  ((9 <=? n) && (n <=? 13) || (n =? 32) || (n =? 160))%nat.

Definition isEmpty (s : string) : bool :=
  match s with
  | EmptyString => true
  | String _ _ => false
  end.

Fixpoint trimStart (s : string) : string :=
  match s with
  | EmptyString => EmptyString
  | String c r => if isWhiteSpace c then trimStart r else s
  end.

Fixpoint trimEnd (s : string) : string :=
  match s with
  | EmptyString => EmptyString
  | String c r =>
      let r' := trimEnd r in
      if isWhiteSpace c && isEmpty r' then EmptyString else String c r'
  end.

Definition trim (s : string) : string := trimEnd (trimStart s).

(** [s.split(sep)] for a one-character separator. *)
Fixpoint split (sep : ascii) (s : string) : list string :=
  match s with
  | EmptyString => [EmptyString]
  | String c r =>
      if Ascii.eqb c sep then EmptyString :: split sep r
      else match split sep r with
           | h :: t => String c h :: t
           | [] => [String c EmptyString]
           end
  end.

(** [xs.join(sep)] on an array of strings. *)
Fixpoint join (sep : string) (xs : list string) : string :=
  match xs with
  | [] => EmptyString
  | x :: rest =>
      match rest with
      | [] => x
      | _ :: _ => (x ++ sep ++ join sep rest)%string
      end
  end.

Definition lowerChar (c : ascii) : ascii :=
  let n := nat_of_ascii c in
  if ((65 <=? n) && (n <=? 90)
      || (192 <=? n) && (n <=? 222) && negb (n =? 215))%nat
  then ascii_of_nat (n + 32) else c.

Fixpoint toLowerCase (s : string) : string :=
  match s with
  | EmptyString => EmptyString
  | String c r => String (lowerChar c) (toLowerCase r)
  end.

(** [s.includes(pat)]. *)
Fixpoint includes (pat s : string) : bool :=
  String.prefix pat s
  || match s with
     | EmptyString => false
     | String _ r => includes pat r
     end.

Fixpoint countQuotes (s : string) : nat :=
  match s with
  | EmptyString => 0
  | String c r => if Ascii.eqb c quote then S (countQuotes r) else countQuotes r
  end.

(** [s.split(re)] for the regular expression of the importers, a comma
    with a look-ahead: pairs of (non-quotes, quote), then non-quotes, up
    to the end of the input.  The look-ahead accepts exactly when the rest
    of the string holds an even number of double quotes, so the string is
    cut at every comma with that property. *)
Fixpoint splitCsv (s : string) : list string :=
  match s with
  | EmptyString => [EmptyString]
  | String c r =>
      if Ascii.eqb c comma && Nat.even (countQuotes r)
      then EmptyString :: splitCsv r
      else match splitCsv r with
           | h :: t => String c h :: t
           | [] => [String c EmptyString]
           end
  end.

Definition stripLeadingQuote (s : string) : string :=
  match s with
  | EmptyString => EmptyString
  | String c r => if Ascii.eqb c quote then r else s
  end.

Fixpoint stripTrailingQuote (s : string) : string :=
  match s with
  | EmptyString => EmptyString
  | String c r =>
      match r with
      | EmptyString => if Ascii.eqb c quote then EmptyString else s
      | String _ _ => String c (stripTrailingQuote r)
      end
  end.

(** [s.replace(re, '')] where [re] is: a quote at the start, or a quote at
    the end, globally.  One quote comes off the front, then one off the
    end of what is left. *)
Definition unquote (s : string) : string :=
  stripTrailingQuote (stripLeadingQuote s).

(** [s.replace(re, q)] where [re] is two quotes, globally, and [q] one
    quote: pairs are replaced from left to right. *)
Fixpoint unescapeQuotes (s : string) : string :=
  match s with
  | EmptyString => EmptyString
  | String c1 r1 =>
      match r1 with
      | EmptyString => s
      | String c2 r2 =>
          if Ascii.eqb c1 quote && Ascii.eqb c2 quote
          then String quote (unescapeQuotes r2)
          else String c1 (unescapeQuotes r1)
      end
  end.

(** [s.replace(re, qq)] where [re] is one quote, globally, and [qq] two
    quotes. *)
Fixpoint escapeQuotes (s : string) : string :=
  match s with
  | EmptyString => EmptyString
  | String c r =>
      if Ascii.eqb c quote
      then String quote (String quote (escapeQuotes r))
      else String c (escapeQuotes r)
  end.

(** The decimal digits of an array length. *)
Definition ofLength (n : nat) : string :=
  NilEmpty.string_of_uint (Nat.to_uint n).

End Str.

(** [xs[i]]: [undefined] out of range. *)
Definition at_ {A : Type} (xs : list A) (i : nat) : option A := nth_error xs i.

(** [o.m(..)]: calling a method on [undefined] throws a TypeError. *)
Definition call {A B : Type} (o : option A) (m : A -> B) : completion B :=
  match o with
  | Some a => Normal (m a)
  | None => Throw "TypeError: Cannot read properties of undefined"
  end.

(** [o?.m(..)]. *)
Definition optCall {A B : Type} (o : option A) (m : A -> B) : option B :=
  option_map m o.

(* ================================================================== *)
(** ** components/ExpensesSheet.tsx *)

Module ExpensesSheet.
Import FinancialProfile Str.

(** What the handlers of the sheet read and write: the profile, the
    audit log, and the text of the last [alert]. *)
Record State := {
  profile : FinancialProfile.t;
  auditLog : AuditService.Storage;
  alert : option string
}.

Definition setExpenses (es : list Expense.t) (prev : FinancialProfile.t)
  : FinancialProfile.t :=
  FinancialProfile.mk (income prev) es (currency prev)
    (language prev) (budgets prev) (categories prev) (goals prev).

(** *** Budget manager *)

Definition spent (profile : FinancialProfile.t) (cat : string) : number :=
  reduce (fun sum e => sum + Expense.amount e)
         0 (filter (fun e => (Expense.category e =? cat)%string)
                   (expenses profile)).

Definition budget (profile : FinancialProfile.t) (cat : string) : number :=
  orNum (prop (budgets profile) cat) 0.

Definition percentage (profile : FinancialProfile.t) (cat : string) : number :=
  if 0 <? budget profile cat
  then (spent profile cat / budget profile cat) * 100 else 0.

Definition isOverBudget (profile : FinancialProfile.t) (cat : string) : bool :=
  100 <? percentage profile cat.

Definition isWarning (profile : FinancialProfile.t) (cat : string) : bool :=
  (80 <? percentage profile cat) && negb (isOverBudget profile cat).

(** *** Export *)

Definition headers : list string :=
  ["Date"; "Description"; "Category"; "Amount"; "Currency"]%string.

Definition exportRow `{Builtins} (profile : FinancialProfile.t) (e : Expense.t)
  : list string :=
  [ Expense.date e;
    String quote (escapeQuotes (Expense.name e) ++ String quote EmptyString)%string;
    Expense.category e;
    Number_toString (Expense.amount e);
    orStr (Expense.currency e) (currency profile) ].

Definition csvContent `{Builtins} (profile : FinancialProfile.t) : string :=
  let rows := map (exportRow profile) (expenses profile) in
  join (String LF EmptyString) (join "," headers :: map (join ",") rows).

(** The handler hands [csvContent] to the browser as a download and
    records the export. *)
Definition handleExport `{Builtins} (now : Clock) (st : State) : string * State :=
  (csvContent (profile st),
   {| profile := profile st;
      auditLog := AuditService.logAction now "DATA_EXPORT"
                    (Some "Exported transactions via Sheet"%string) (auditLog st);
      alert := alert st |}).

(** *** Import *)

(** The body of the [for] loop for one line: [None] when the line adds
    nothing to [newExpenses]. *)
Definition importLine `{Builtins} (profile : FinancialProfile.t)
  (id : string) (rawLine : string) : completion (option Expense.t) :=
  let line := trim rawLine in
  if negb (truthyS line) then Normal None
  else
    let parts := splitCsv line in
    if (4 <=? List.length parts)%nat then
      date <- call (at_ parts 0) trim ;;
      name <- call (at_ parts 1)
                (fun s => trim (unescapeQuotes (unquote s))) ;;
      category <- call (at_ parts 2) trim ;;
      let amount :=
        match at_ parts 3 with
        | Some s => parseFloat s
        | None => NaN
        end in
      let currency := orStr (optCall (at_ parts 4) trim) (currency profile) in
      if negb (isNaN amount) && truthyS date then
        Normal (Some (Expense.mk id name amount
                        (orStr (Some category) "Other") date (Some currency)))
      else Normal None
    else Normal None.

(** The loop from index [i] on; [freshId i] is the identifier drawn from
    the clock and the random generator in iteration [i]. *)
Fixpoint importLoop `{Builtins} (profile : FinancialProfile.t)
  (freshId : nat -> string) (i : nat) (lines : list string)
  (newExpenses : list Expense.t) : completion (list Expense.t) :=
  match lines with
  | [] => Normal newExpenses
  | l :: rest =>
      r <- importLine profile (freshId i) l ;;
      importLoop profile freshId (S i) rest
        (match r with
         | Some e => newExpenses ++ [e]
         | None => newExpenses
         end)
  end.

(** The rows read from [text], before they are stored. *)
Definition parseCsv `{Builtins} (profile : FinancialProfile.t)
  (freshId : nat -> string) (text : string) : completion (list Expense.t) :=
  let lines := split LF text in
  let startIndex :=
    match optCall (at_ lines 0) (fun l => includes "date" (toLowerCase l)) with
    | Some true => 1%nat
    | _ => 0%nat
    end in
  importLoop profile freshId startIndex (skipn startIndex lines) [].

(** The [onload] callback of the file reader, given the text read. *)
Definition handleImport `{Builtins} (now : Clock) (freshId : nat -> string)
  (text : string) (st : State) : completion State :=
  if negb (truthyS text) then Normal st
  else
    newExpenses <- parseCsv (profile st) freshId text ;;
    if (0 <? List.length newExpenses)%nat then
      Normal
        {| profile := setExpenses (newExpenses ++ expenses (profile st)) (profile st);
           auditLog :=
             AuditService.logAction now "DATA_IMPORT"
               (Some ("Imported " ++ ofLength (List.length newExpenses)
                        ++ " records via Sheet")%string)
               (auditLog st);
           alert := Some ("Successfully imported "
                            ++ ofLength (List.length newExpenses)
                            ++ " transactions.")%string |}
    else
      Normal
        {| profile := profile st;
           auditLog := auditLog st;
           alert := Some "No valid transactions found in file."%string |}.

End ExpensesSheet.

(* ================================================================== *)
(** ** App.tsx: the export and import of the settings menu *)

Module App.
Import FinancialProfile Str.

(** The profile of a first start, when local storage holds none. *)
Definition defaultProfile : FinancialProfile.t :=
  FinancialProfile.mk DEFAULT_INCOME MOCK_EXPENSES "USD" "en-US" []
    EXPENSE_CATEGORIES [].

Definition headers : list string :=
  ["Date"; "Description"; "Category"; "Amount"]%string.

Definition exportRow `{Builtins} (e : Expense.t) : list string :=
  [ Expense.date e;
    String quote (escapeQuotes (Expense.name e) ++ String quote EmptyString)%string;
    Expense.category e;
    Number_toString (Expense.amount e) ].

Definition csvContent `{Builtins} (profile : FinancialProfile.t) : string :=
  let rows := map exportRow (expenses profile) in
  join (String LF EmptyString) (join "," headers :: map (join ",") rows).

Definition importLine `{Builtins} (id : string) (rawLine : string)
  : completion (option Expense.t) :=
  let line := trim rawLine in
  if negb (truthyS line) then Normal None
  else
    let parts := splitCsv line in
    if (4 <=? List.length parts)%nat then
      date <- call (at_ parts 0) trim ;;
      name <- call (at_ parts 1)
                (fun s => trim (unescapeQuotes (unquote s))) ;;
      category <- call (at_ parts 2) trim ;;
      let amount :=
        match at_ parts 3 with
        | Some s => parseFloat s
        | None => NaN
        end in
      if negb (isNaN amount) && truthyS date then
        Normal (Some (Expense.mk id name amount
                        (orStr (Some category) "Other") date None))
      else Normal None
    else Normal None.

Fixpoint importLoop `{Builtins} (freshId : nat -> string) (i : nat)
  (lines : list string) (newExpenses : list Expense.t)
  : completion (list Expense.t) :=
  match lines with
  | [] => Normal newExpenses
  | l :: rest =>
      r <- importLine (freshId i) l ;;
      importLoop freshId (S i) rest
        (match r with
         | Some e => newExpenses ++ [e]
         | None => newExpenses
         end)
  end.

Definition parseCsv `{Builtins} (freshId : nat -> string) (text : string)
  : completion (list Expense.t) :=
  let lines := split LF text in
  let startIndex :=
    match optCall (at_ lines 0) (fun l => includes "date" (toLowerCase l)) with
    | Some true => 1%nat
    | _ => 0%nat
    end in
  importLoop freshId startIndex (skipn startIndex lines) [].

End App.

(* ================================================================== *)
(** ** The built-ins, computed

    Number formatting and [parseFloat] follow the ECMAScript rules: the
    shortest decimal that reads back as the same double, and the longest
    prefix that is a decimal literal, rounded to the nearest double. *)

Module Runtime.
Import Str.
Local Open Scope Z_scope.

(** The double nearest to [m * 10 ^ e], ties to even. *)
Definition ofDecimal (m e : Z) : number :=
  if m =? 0 then zero
  else if 0 <=? e then
    if 400 <? e then infinity
    else SF2Prim (binary_normalize prec emax (m * 10 ^ e) 0 false)
  else
    let d := 10 ^ (- e) in
    let s := Z.max 0 (Z.log2 d - Z.log2 m + 70) in
    if 1200 <? Z.log2 d - Z.log2 m then zero
    else
      let q := (m * 2 ^ s) / d in
      let sticky := if (m * 2 ^ s) mod d =? 0 then 0 else 1 in
      SF2Prim (binary_normalize prec emax (2 * q + sticky) (- s - 1) false).

Definition isDigit (c : ascii) : bool :=
  let n := nat_of_ascii c in ((48 <=? n) && (n <=? 57))%nat.

Definition digitVal (c : ascii) : Z := Z.of_nat (nat_of_ascii c) - 48.

(** The longest run of decimal digits at the front of [s]: its value
    after [acc], how many digits it has, and what follows. *)
Fixpoint digits (acc : Z) (n : Z) (s : string) : Z * Z * string :=
  match s with
  | String c r =>
      if isDigit c then digits (acc * 10 + digitVal c) (n + 1) r
      else (acc, n, s)
  | EmptyString => (acc, n, s)
  end.

Definition exponentPart (s : string) : Z :=
  match s with
  | String c r =>
      if (Ascii.eqb c "e" || Ascii.eqb c "E")%char then
        let '(neg, r') :=
          match r with
          | String c' r'' =>
              if Ascii.eqb c' "-" then (true, r'')
              else if Ascii.eqb c' "+" then (false, r'')
              else (false, r)
          | EmptyString => (false, r)
          end in
        let '(v, n, _) := digits 0 0 r' in
        if n =? 0 then 0 else if neg then - v else v
      else 0
  | EmptyString => 0
  end.

Definition parseFloat (input : string) : number :=
  let s := trimStart input in
  let '(neg, s) :=
    match s with
    | String c r =>
        if Ascii.eqb c "-" then (true, r)
        else if Ascii.eqb c "+" then (false, r)
        else (false, s)
    | EmptyString => (false, s)
    end in
  let signed (x : number) := if neg then (- x)%float else x in
  if String.prefix "Infinity" s then signed infinity
  else
    let '(ip, ni, r1) := digits 0 0 s in
    let '(m, nf, r2) :=
      match r1 with
      | String c r =>
          if Ascii.eqb c "." then digits ip 0 r else (ip, 0, r1)
      | EmptyString => (ip, 0, r1)
      end in
    if (ni =? 0) && (nf =? 0) then nan
    else signed (ofDecimal m (exponentPart r2 - nf)).

(** The exact value of a positive finite double as [m * 2 ^ e]. *)
Definition exact (x : number) : Z * Z :=
  match Prim2SF x with
  | S754_finite _ m e => (Zpos m, e)
  | _ => (0, 0)
  end.

(** [m * 2 ^ e * 10 ^ p] as a fraction. *)
Definition scaled (m e p : Z) : Z * Z :=
  (m * 2 ^ (Z.max e 0) * 10 ^ (Z.max p 0),
   2 ^ (Z.max (- e) 0) * 10 ^ (Z.max (- p) 0)).

(** The decimal exponent [n] with [10 ^ (n - 1) <= m * 2 ^ e < 10 ^ n]. *)
Definition decimalExponent (m e : Z) : Z :=
  let n0 := ((Z.log2 m + e) * 30103) / 100000 - 1 in
  let below (n : Z) := let '(a, b) := scaled m e (- n) in a <? b in
  if below n0 then n0
  else if below (n0 + 1) then n0 + 1
  else if below (n0 + 2) then n0 + 2
  else n0 + 3.

(** The shortest digit string [s] (of [k] digits) and exponent [n] with
    [s * 10 ^ (n - k)] rounding to [x]; [k] runs upwards from [k0]. *)
Fixpoint shortest (fuel : nat) (x : number) (m e n k : Z) : Z * Z * Z :=
  let '(a, b) := scaled m e (k - n) in
  let lo := a / b in
  let hi := lo + 1 in
  let ok (s : Z) := (ofDecimal s (n - k) =? x)%float in
  let okLo := (10 ^ (k - 1) <=? lo) && ok lo in
  let okHi := ok hi in
  let hiOut := if hi =? 10 ^ k then (1, 1, n + 1) else (hi, k, n) in
  let nearHi := (* hi - a/b against a/b - lo *)
    match (2 * a) ?= (lo + hi) * b with
    | Gt => true
    | Lt => false
    | Eq => Z.even hi
    end in
  if okLo && okHi then (if nearHi then hiOut else (lo, k, n))
  else if okLo then (lo, k, n)
  else if okHi then hiOut
  else match fuel with
       | O => (lo, k, n)
       | S fuel' => shortest fuel' x m e n (k + 1)
       end.

Definition showZ (z : Z) : string := NilZero.string_of_uint (N.to_uint (Z.to_N z)).

Fixpoint zeros (n : nat) : string :=
  match n with
  | O => EmptyString
  | S n' => String "0" (zeros n')
  end.

Definition Number_toString (x : number) : string :=
  if is_nan x then "NaN"
  else if is_zero x then "0"
  else if is_infinity x then (if get_sign x then "-Infinity" else "Infinity")
  else
    let sign := if get_sign x then "-" else "" in
    let '(m, e) := exact x in
    let '(s, k, n) := shortest 17 (abs x) m e (decimalExponent m e) 1 in
    let ds := showZ s in
    let body :=
      if (k <=? n) && (n <=? 21) then ds ++ zeros (Z.to_nat (n - k))
      else if (0 <? n) && (n <=? 21) then
        substring 0 (Z.to_nat n) ds ++ "."
          ++ substring (Z.to_nat n) (Z.to_nat (k - n)) ds
      else if (-6 <? n) && (n <=? 0) then
        "0." ++ zeros (Z.to_nat (- n)) ++ ds
      else
        let ex := (if 0 <=? n - 1 then "+" else "-") ++ showZ (Z.abs (n - 1)) in
        if k =? 1 then ds ++ "e" ++ ex
        else substring 0 1 ds ++ "." ++ substring 1 (Z.to_nat (k - 1)) ds
               ++ "e" ++ ex
    in sign ++ body.


(** *** Dates *)

(** The number of the day [d] of month [m] (from 1) of year [y], counted
    from 1 January 1970, in the Gregorian calendar; a [d] beyond the end
    of the month counts on into the next one. *)
Definition dayNumber (y m d : Z) : Z :=
  let y' := if m <=? 2 then y - 1 else y in
  let era := y' / 400 in
  let yoe := y' - era * 400 in
  let mp := (m + 9) mod 12 in
  let doy := (153 * mp + 2) / 5 + d - 1 in
  let doe := yoe * 365 + yoe / 4 - yoe / 100 + doy in
  era * 146097 + doe - 719468.

(** The year and the month (from 1) that day number [n] falls in. *)
Definition yearMonth (n : Z) : Z * Z :=
  let z := n + 719468 in
  let era := z / 146097 in
  let doe := z - era * 146097 in
  let yoe := (doe - doe / 1460 + doe / 36524 - doe / 146096) / 365 in
  let doy := doe - (365 * yoe + yoe / 4 - yoe / 100) in
  let mp := (5 * doy + 2) / 153 in
  let m := if mp <? 10 then mp + 3 else mp - 9 in
  (if m <=? 2 then yoe + era * 400 + 1 else yoe + era * 400, m).

Definition ofInt (z : Z) : number :=
  if z <? 0 then (- ofDecimal (- z) 0)%float else ofDecimal z 0.

(** A run of exactly [n] digits at the front of [s], and what follows. *)
Definition fixedDigits (n : Z) (s : string) : option (Z * string) :=
  let '(v, k, r) := digits 0 0 s in
  if k =? n then Some (v, r) else None.

(** A character [c], then exactly [n] digits. *)
Definition after (c : ascii) (n : Z) (s : string) : option (Z * string) :=
  match s with
  | String c' r => if Ascii.eqb c' c then fixedDigits n r else None
  | EmptyString => None
  end.

(** The year of the date format: four digits, or a sign and six. *)
Definition yearPart (s : string) : option (Z * string) :=
  match s with
  | String c r =>
      if Ascii.eqb c "+" then fixedDigits 6 r
      else if Ascii.eqb c "-" then
        match fixedDigits 6 r with
        | Some (v, r') => if v =? 0 then None else Some (- v, r')
        | None => None
        end
      else fixedDigits 4 s
  | EmptyString => None
  end.

(** The date of the format: a year, then a month and a day if written;
    the month within 1 to 12 and the day within 1 to 31. *)
Definition datePart (s : string) : option (Z * Z * Z * string) :=
  match yearPart s with
  | None => None
  | Some (y, r1) =>
      match after "-" 2 r1 with
      | None => Some (y, 1, 1, r1)
      | Some (mo, r2) =>
          if (1 <=? mo) && (mo <=? 12) then
            match after "-" 2 r2 with
            | None => Some (y, mo, 1, r2)
            | Some (d, r3) =>
                if (1 <=? d) && (d <=? 31) then Some (y, mo, d, r3) else None
            end
          else None
      end
  end.

(** The offset of the format, in minutes: [Z], or a sign, two digits, a
    colon and two digits; [None] in the result when none is written. *)
Definition offsetPart (s : string) : option (option Z) :=
  match s with
  | EmptyString => Some None
  | String c r =>
      if Ascii.eqb c "Z" then (if isEmpty r then Some (Some 0) else None)
      else if Ascii.eqb c "+" || Ascii.eqb c "-" then
        match fixedDigits 2 r with
        | Some (h, r1) =>
            match after ":" 2 r1 with
            | Some (mi, r2) =>
                if isEmpty r2 && (h <=? 23) && (mi <=? 59)
                then Some (Some (if Ascii.eqb c "-" then - (h * 60 + mi)
                                 else h * 60 + mi))
                else None
            | None => None
            end
        | None => None
        end
      else None
  end.

(** The time of the format after the letter T: hours and minutes, then
    seconds and a fraction of them if written, then the offset; the
    minutes since midnight and the offset written.  Hour 24 stands for
    the end of the day and takes no minutes or seconds. *)
Definition timePart (s : string) : option (Z * option Z) :=
  match fixedDigits 2 s with
  | None => None
  | Some (h, r1) =>
      match after ":" 2 r1 with
      | None => None
      | Some (mi, r2) =>
          let '(sec, frac, okSec, r3) :=
            match after ":" 2 r2 with
            | Some (sec, r3) =>
                match r3 with
                | String c r4 =>
                    if Ascii.eqb c "." then
                      let '(f, k, r5) := digits 0 0 r4 in (sec, f, 1 <=? k, r5)
                    else (sec, 0, true, r3)
                | EmptyString => (sec, 0, true, r3)
                end
            | None => (0, 0, true, r2)
            end in
          if okSec && (mi <=? 59) && (sec <=? 59)
             && ((h <=? 23)
                 || ((h =? 24) && (mi =? 0) && (sec =? 0) && (frac =? 0)))
          then match offsetPart r3 with
               | Some off => Some (h * 60 + mi, off)
               | None => None
               end
          else None
      end
  end.

(** [new Date(s)] for a text in the date-time format of the language, in
    a time zone [zone] minutes east of UTC.  A date alone stands for
    midnight UTC, a date with a time for local time unless an offset is
    written.  A day up to 31 that the month lacks counts on into the next
    month, as V8 reads it.  Texts of any other form are read by rules
    that the language leaves to each engine, and are invalid dates
    here; the deadline of a goal is the value of a date input, which is
    empty or a full date of the format. *)
Definition newDate (zone : Z) (s : string) : JSDate :=
  let invalid := {| getFullYear := nan; getMonth := nan |} in
  match datePart s with
  | None => invalid
  | Some (y, mo, d, r) =>
      let day := dayNumber y mo d in
      let localMinutes :=
        match r with
        | EmptyString => Some (day * 1440 + zone)
        | String c r' =>
            if Ascii.eqb c "T" then
              match timePart r' with
              | Some (t, Some off) => Some (day * 1440 + t - off + zone)
              | Some (t, None) => Some (day * 1440 + t)
              | None => None
              end
            else None
        end in
      match localMinutes with
      | None => invalid
      | Some lm =>
          if Z.abs (lm - zone) <=? 144000000000 then
            let '(y', m') := yearMonth (lm / 1440) in
            {| getFullYear := ofInt y'; getMonth := ofInt (m' - 1) |}
          else invalid
      end
  end.

(** The built-ins as the ECMAScript specification defines them, on the
    inputs described above, in a time zone [zone] minutes east of UTC. *)
Definition builtinsAt (zone : Z) : Builtins :=
  Build_Builtins Number_toString parseFloat (newDate zone).

(** The same in a runtime whose local time is UTC. *)
Definition builtins : Builtins := builtinsAt 0.

End Runtime.

(* ================================================================== *)
(** ** The specification's own terms *)

Module Spec.
Import FinancialProfile.

(** The rate of a currency code: the entry of the rate table, and 1 for a
    code the table does not hold. *)
Definition rateOf (code : string) : number :=
  match prop EXCHANGE_RATES_TO_USD code with
  | Some r => r
  | None => 1
  end.

(** The amount of a transaction in the display currency of the profile:
    converted from its own currency, or from the profile's when it has
    none. *)
Definition normalized (profile : FinancialProfile.t) (e : Expense.t) : number :=
  convertCurrency (Expense.amount e)
    (match Expense.currency e with
     | Some c => if Str.isEmpty c then currency profile else c
     | None => currency profile
     end)
    (currency profile).

(** The sum, in list order and starting from 0, of the normalized
    amounts of the given transactions. *)
Fixpoint sumNormalized (profile : FinancialProfile.t) (acc : number)
  (es : list Expense.t) : number :=
  match es with
  | [] => acc
  | e :: rest => sumNormalized profile (acc + normalized profile e) rest
  end.

Definition categorySpend (profile : FinancialProfile.t) (category : string) : number :=
  sumNormalized profile 0
    (filter (fun e => (Expense.category e =? category)%string) (expenses profile)).

Definition totalSpend (profile : FinancialProfile.t) : number :=
  sumNormalized profile 0 (expenses profile).

(** The whole calendar months from [today] to [end_]: the difference of
    their year * 12 + month positions, the day of the month playing no
    part. *)
Definition monthsRemaining (today end_ : JSDate) : number :=
  (getFullYear end_ - getFullYear today) * 12
  + (getMonth end_ - getMonth today).

(** What a round trip through CSV is asked to keep of a transaction: the
    description, the category, the amount and the currency, which is the
    profile's for a transaction without one. *)
Definition kept (profile : FinancialProfile.t) (e : Expense.t)
  : string * string * number * string :=
  (Expense.name e, Expense.category e, Expense.amount e,
   orStr (Expense.currency e) (currency profile)).

End Spec.

(* ================================================================== *)
(** ** Profiles and clocks of the examples *)

Module Scenario.
Import FinancialProfile.

(** A profile in US dollars with one purchase made in euros and a food
    budget of 105. *)
Definition travelProfile : FinancialProfile.t :=
  FinancialProfile.mk DEFAULT_INCOME
    [ Expense.mk "5" "Dinner in Lyon" 100 "Food" "2023-10-20" (Some "EUR"%string) ]
    "USD" "en-US" [("Food"%string, 105); ("Housing"%string, 0)]
    EXPENSE_CATEGORIES [].

(** The default profile with limits on two categories. *)
Definition budgetedProfile : FinancialProfile.t :=
  FinancialProfile.mk DEFAULT_INCOME MOCK_EXPENSES "USD" "en-US"
    [("Food"%string, 500); ("Housing"%string, 0)]
    EXPENSE_CATEGORIES [].

(** A travel goal of 5000 with 1000 saved, due on [deadline]. *)
Definition trip (deadline : string) : SavingsGoal.t :=
  SavingsGoal.mk "g2" "Europe Trip" 5000 1000 deadline "Travel" "Travel"
    "bg-blue-500".

(** Noon of 3 November 2026. *)
Definition november2026 : Clock :=
  {| today := {| getFullYear := 2026; getMonth := 10 |};
     toISOString := "2026-11-03T12:00:00.000Z";
     Date_now := "1793707200000" |}.

End Scenario.

(* ================================================================== *)
(** ** The goal planner as a transition system *)

Module Planner.
Import PlanningTools.

Definition editForm (g : NewGoal) (st : State) : State :=
  {| profile := profile st; newGoal := g;
     isAddingGoal := isAddingGoal st; auditLog := auditLog st |}.

(** One user action on the goals section: typing into the form, saving
    the form, deleting a goal, or pressing a quick-add button of a goal
    that is on display. *)
Inductive step (hasSetProfile : bool) : State -> State -> Prop :=
| step_edit (g : NewGoal) (st : State) :
    step hasSetProfile st (editForm g st)
| step_add (now : Clock) (st : State) :
    step hasSetProfile st (handleAddGoal hasSetProfile now st)
| step_delete (now : Clock) (id : string) (st : State) :
    step hasSetProfile st (handleDeleteGoal hasSetProfile now id st)
| step_quickAdd (goal : SavingsGoal.t) (k : number) (st : State) :
    In goal (FinancialProfile.goals (profile st)) ->
    In k quickAddSteps ->
    step hasSetProfile st (quickAdd hasSetProfile goal k st).

Inductive reachable (hasSetProfile : bool) (init : State) : State -> Prop :=
| reach_init : reachable hasSetProfile init init
| reach_step (st st' : State) :
    reachable hasSetProfile init st ->
    step hasSetProfile st st' ->
    reachable hasSetProfile init st'.

(** The divisor of the progress computation is a number other than zero. *)
Definition divisible (goal : SavingsGoal.t) : Prop :=
  (SavingsGoal.targetAmount goal =? 0) = false
  /\ is_nan (SavingsGoal.targetAmount goal) = false.

End Planner.

(* ================================================================== *)
(** ** Sequences of audit-log insertions *)

Module AuditTrail.
Import AuditService.

(** One call of [logAction]: the clock it reads and its arguments. *)
Record Insertion := {
  at_time : Clock;
  tag : string;
  detail : option string
}.

Definition entryOf (c : Insertion) : AuditLogEntry :=
  {| timestamp := toISOString (at_time c);
     action := tag c;
     details := detail c |}.

Definition insert (store : Storage) (c : Insertion) : Storage :=
  logAction (at_time c) (tag c) (detail c) store.

(** The calls of [cs], first to last, on the stored log [store]. *)
Definition replay (cs : list Insertion) (store : Storage) : Storage :=
  fold_left insert cs store.

End AuditTrail.

(* ================================================================== *)
(** ** What each line of an imported file contributes *)

Module ImportSpec.
Import ExpensesSheet.

(** The rows a line adds to [newExpenses]: the one the loop body pushes,
    or none. *)
Definition contribution `{Builtins} (profile : FinancialProfile.t)
  (id : string) (rawLine : string) : list Expense.t :=
  match importLine profile id rawLine with
  | Normal (Some e) => [e]
  | _ => []
  end.

Fixpoint contributions `{Builtins} (profile : FinancialProfile.t)
  (freshId : nat -> string) (i : nat) (lines : list string) : list Expense.t :=
  match lines with
  | [] => []
  | l :: rest =>
      contribution profile (freshId i) l
        ++ contributions profile freshId (S i) rest
  end.

(** The lines after the header, if the first line is taken for one. *)
Definition dataLines (text : string) : nat * list string :=
  let lines := Str.split Str.LF text in
  match lines with
  | first :: rest =>
      if Str.includes "date" (Str.toLowerCase first) then (1%nat, rest)
      else (0%nat, lines)
  | [] => (0%nat, [])
  end.

End ImportSpec.

(* ================================================================== *)
(** ** A file to import *)

Module Sample.
Import Str.

Definition q : string := String quote EmptyString.

(** A header, a row with a quoted description that holds a comma and a
    quoted word, a row whose amount is not a number, a row without a
    date, a blank line, a row of three fields, and a row without a
    currency whose amount has trailing text. *)
Definition csvLines : list string :=
  [ "Date,Description,Category,Amount,Currency";
    "2024-01-05," ++ q ++ "Coffee, " ++ q ++ q ++ "large" ++ q ++ q ++ q
      ++ ",Food,4.5,EUR";
    "2024-01-06,Lunch,Food,abc,USD";
    ",Parking,Transport,3,USD";
    "   ";
    "2024-01-07,Cinema,12";
    " 2024-01-08 , Bus ,,12abc" ]%string.

Definition csvText : string := join (String LF EmptyString) csvLines.

Definition freshId (i : nat) : string := ("row-" ++ ofLength i)%string.

Definition sheet : ExpensesSheet.State :=
  {| ExpensesSheet.profile := App.defaultProfile;
     ExpensesSheet.auditLog := AuditService.emptyStorage;
     ExpensesSheet.alert := None |}.

End Sample.

(* ================================================================== *)
(** ** Export followed by import *)

Module RoundTrip.
Import Str.

Fixpoint allChars (p : ascii -> bool) (s : string) : bool :=
  match s with
  | EmptyString => true
  | String c r => p c && allChars p r
  end.

Definition noComma (s : string) : bool :=
  allChars (fun c => negb (Ascii.eqb c comma)) s.

Definition noQuote (s : string) : bool :=
  allChars (fun c => negb (Ascii.eqb c quote)) s.

(** No line feed: the text stays on one line of the file. *)
Definition oneLine (s : string) : bool :=
  allChars (fun c => negb (Ascii.eqb c LF)) s.

(** Free of the three characters the file format gives a meaning to. *)
Definition plain (s : string) : bool := noComma s && noQuote s && oneLine s.

(** No white space at either end. *)
Definition trimmed (s : string) : bool :=
  String.eqb (trimStart s) s && String.eqb (trimEnd s) s.

(** The transactions that the file format can carry: a date and a
    category that are plain, trimmed and not empty; a description on one
    line without white space around it; a currency that is plain and
    trimmed; an amount other than NaN whose decimal text is plain and
    reads back as the same number. *)
Definition exportable `{Builtins} (profile : FinancialProfile.t) (e : Expense.t)
  : bool :=
  let cur := orStr (Expense.currency e) (FinancialProfile.currency profile) in
  let txt := Number_toString (Expense.amount e) in
  plain (Expense.date e) && trimmed (Expense.date e)
  && negb (isEmpty (Expense.date e))
  && oneLine (Expense.name e) && trimmed (Expense.name e)
  && plain (Expense.category e) && trimmed (Expense.category e)
  && negb (isEmpty (Expense.category e))
  && plain txt && Leibniz.eqb (parseFloat txt) (Expense.amount e)
  && negb (isNaN (Expense.amount e))
  && plain cur && trimmed cur.

(** The description as a row holds it: quotes doubled, and one quote on
    each side. *)
Definition quoted (name : string) : string :=
  String quote (escapeQuotes name ++ String quote EmptyString).

(** The transaction read back from the row of [e]: a fresh identifier,
    and the currency written out. *)
Definition readBack (profile : FinancialProfile.t) (id : string) (e : Expense.t)
  : Expense.t :=
  Expense.mk id (Expense.name e) (Expense.amount e) (Expense.category e)
    (Expense.date e)
    (Some (orStr (Expense.currency e) (FinancialProfile.currency profile))).

Fixpoint readBackAll (profile : FinancialProfile.t) (freshId : nat -> string)
  (i : nat) (es : list Expense.t) : list Expense.t :=
  match es with
  | [] => []
  | e :: rest =>
      readBack profile (freshId i) e :: readBackAll profile freshId (S i) rest
  end.

(** The statement of the round trip for the export and the import of the
    sheet: the file written for the profile reads back as rows that keep,
    one for one, what [Spec.kept] names. *)
Definition roundTrips `{Builtins} (profile : FinancialProfile.t)
  (freshId : nat -> string) : Prop :=
  exists rows,
    ExpensesSheet.parseCsv profile freshId (ExpensesSheet.csvContent profile)
    = Normal rows
    /\ map (Spec.kept profile) rows
       = map (Spec.kept profile) (FinancialProfile.expenses profile).

End RoundTrip.

(* ================================================================== *)
(** ** Profiles to export *)

Module Ledger.

(** Descriptions with a comma and with quoted words, an amount with a
    fraction, and a transaction without a currency of its own. *)
Definition quotedProfile : FinancialProfile.t :=
  FinancialProfile.mk DEFAULT_INCOME
    [ Expense.mk "7"
        ("Coffee, " ++ Sample.q ++ "large" ++ Sample.q ++ ", to go")%string
        4.5 "Food" "2024-01-05" (Some "EUR"%string);
      Expense.mk "8" (Sample.q ++ "Rent" ++ Sample.q)%string
        1500 "Housing" "2024-01-01" None;
      Expense.mk "9" "Train Lyon - Paris" 89.99 "Transport" "2024-01-09"
        (Some "EUR"%string) ]
    "USD" "en-US" [] EXPENSE_CATEGORIES [].

(** A description typed with a space after it. *)
Definition paddedProfile : FinancialProfile.t :=
  FinancialProfile.mk DEFAULT_INCOME
    [ Expense.mk "10" "Rent " 1500 "Housing" "2024-01-01" (Some "USD"%string) ]
    "USD" "en-US" [] EXPENSE_CATEGORIES [].

End Ledger.

(* ================================================================== *)
(** ** More of the runtime: objects, sets, sorting *)

Module JSObj.

(** [{...o, [k]: v}]: the own property [k] is replaced where it stands,
    or added after the others.  (The order of the keys is not observed by
    the programs below, which only look properties up.) *)
Fixpoint setProp {V : Type} (o : list (string * V)) (k : string) (v : V)
  : list (string * V) :=
  match o with
  | [] => [(k, v)]
  | (k', v') :: o' =>
      if (k' =? k)%string then (k, v) :: o' else (k', v') :: setProp o' k v
  end.

(** A [Set] of strings, in insertion order. *)
Definition Set_has (s : list string) (x : string) : bool :=
  existsb (String.eqb x) s.

Definition Set_add (s : list string) (x : string) : list string :=
  if Set_has s x then s else (s ++ [x])%list.

Definition Set_delete (s : list string) (x : string) : list string :=
  filter (fun y => negb (String.eqb x y)) s.

(** [new Set(xs)]. *)
Definition Set_of (xs : list string) : list string :=
  fold_left Set_add xs [].

(** [xs.sort(cmp)].  The language asks for a stable sort, so for a
    comparator that is a consistent ordering the result is the one of
    any stable algorithm; this is insertion, an element going after the
    elements [y] with [cmp(x, y) > 0] only. *)
Fixpoint insertSorted {A : Type} (cmp : A -> A -> number) (x : A) (l : list A)
  : list A :=
  match l with
  | [] => [x]
  | y :: r => if 0 <? cmp x y then y :: insertSorted cmp x r else x :: l
  end.

Fixpoint sort {A : Type} (cmp : A -> A -> number) (l : list A) : list A :=
  match l with
  | [] => []
  | x :: r => insertSorted cmp x (sort cmp r)
  end.

(** Two neighbours of a sorted array: the comparator does not ask for the
    second to come before the first. *)
Definition inOrder {A : Type} (cmp : A -> A -> number) (a b : A) : Prop :=
  (0 <? cmp a b) = false.

(** The number that is the length of an array. *)
Definition lengthOf {A : Type} (l : list A) : number :=
  Runtime.ofDecimal (Z.of_nat (List.length l)) 0.

End JSObj.

(* ================================================================== *)
(** ** components/Dashboard.tsx: budgets, chart data, health *)

Module DashboardView.
Import FinancialProfile JSObj.

Definition setBudgets (bs : list (string * number)) (prev : FinancialProfile.t)
  : FinancialProfile.t :=
  FinancialProfile.mk (income prev) (expenses prev) (currency prev)
    (language prev) bs (categories prev) (goals prev).

Definition handleBudgetChange `{Builtins} (category value : string)
  (prev : FinancialProfile.t) : FinancialProfile.t :=
  let numValue := parseFloat value in
  setBudgets (setProp (budgets prev) category
                (if isNaN numValue then 0 else numValue)) prev.

(** The state of the chart: the index of the active slice and the set of
    hidden categories. *)
Record ChartState := {
  activeIndex : nat;
  hiddenCategories : list string
}.

Definition toggleCategory (name : string) (st : ChartState) : ChartState :=
  let newHidden := hiddenCategories st in
  let newHidden :=
    if Set_has newHidden name then Set_delete newHidden name
    else Set_add newHidden name in
  {| activeIndex := 0; hiddenCategories := newHidden |}.

Definition usedCategories (profile : FinancialProfile.t) : list string :=
  Set_of (map Expense.category (expenses profile)).

Definition allCategories (profile : FinancialProfile.t) : list string :=
  Set_of (categories profile ++ usedCategories profile).

Record ChartItem := {
  name : string;
  value : number
}.

Definition allChartData (profile : FinancialProfile.t) : list ChartItem :=
  sort (fun a b => value b - value a)
    (filter (fun item => 0 <? value item)
       (map (fun cat => {| name := cat; value := Dashboard.spent profile cat |})
            (allCategories profile))).

Definition visibleChartData (profile : FinancialProfile.t) (st : ChartState)
  : list ChartItem :=
  filter (fun item => negb (Set_has (hiddenCategories st) (name item)))
         (allChartData profile).

Definition averageExpense (profile : FinancialProfile.t) (st : ChartState) : number :=
  let visible := visibleChartData profile st in
  if (0 <? List.length visible)%nat
  then reduce (fun a b => a + value b) 0 visible / lengthOf visible
  else 0.

Definition expenseRatio (profile : FinancialProfile.t) : number :=
  if 0 <? Dashboard.monthlyGross profile
  then (Dashboard.totalMonthlyExpenses profile / Dashboard.monthlyGross profile) * 100
  else 0.

(** The label of [healthStatus]. *)
Definition healthLabel (profile : FinancialProfile.t) : string :=
  let expenseRatio := expenseRatio profile in
  if 100 <? expenseRatio then "Critical"
  else if 85 <? expenseRatio then "Vulnerable"
  else if 60 <? expenseRatio then "Healthy"
  else "Excellent".

End DashboardView.

(* ================================================================== *)
(** ** The months of the trend charts *)

Module Calendar.
Local Open Scope Z_scope.

(** What a [Date] object shows in local time: [getFullYear()],
    [getMonth()] (from 0) and [getDate()]. *)
Record LocalDate := {
  year : Z;
  month : Z;
  day : Z
}.

Definition isLeapYear (y : Z) : bool :=
  (y mod 4 =? 0) && (negb (y mod 100 =? 0) || (y mod 400 =? 0)).

Definition daysInMonth (y m : Z) : Z :=
  if m =? 1 then (if isLeapYear y then 29 else 28)
  else if (m =? 3) || (m =? 5) || (m =? 8) || (m =? 10) then 30
  else 31.

(** [d.setMonth(m)]: the month may lie outside 0..11 and is carried into
    the year; a day of the month that the target month does not have
    runs over into the month after it. *)
Definition setMonth (d : LocalDate) (m : Z) : LocalDate :=
  let y1 := year d + m / 12 in
  let m1 := m mod 12 in
  let len := daysInMonth y1 m1 in
  if day d <=? len then {| year := y1; month := m1; day := day d |}
  else if m1 =? 11 then {| year := y1 + 1; month := 0; day := day d - len |}
  else {| year := y1; month := m1 + 1; day := day d - len |}.

Definition showInt (z : Z) : string :=
  if z <? 0 then ("-" ++ Runtime.showZ (- z))%string else Runtime.showZ z.

(** [s.padStart(2, '0')]. *)
Definition padStart2 (s : string) : string :=
  match String.length s with
  | O => "00"%string
  | S O => ("0" ++ s)%string
  | _ => s
  end.

(** The key of a month: the year, a dash, and the month from 01 to 12. *)
Definition monthKey (d : LocalDate) : string :=
  (showInt (year d) ++ "-" ++ padStart2 (showInt (month d + 1)))%string.

(** The dates behind [last6Months]: for [i] from 0 to 5, today with its
    month set back by [5 - i]. *)
Definition last6Dates (today : LocalDate) : list LocalDate :=
  map (fun i => setMonth today (month today - (5 - i))) [0; 1; 2; 3; 4; 5].

Definition last6Months (today : LocalDate) : list string :=
  map monthKey (last6Dates today).

(** The month that lies [k] months before the month of [d]. *)
Definition monthsBefore (d : LocalDate) (k : Z) : LocalDate :=
  let n := year d * 12 + month d - k in
  {| year := n / 12; month := n mod 12; day := day d |}.

End Calendar.

(* ================================================================== *)
(** ** components/ExpensesSheet.tsx: the forms and the category manager *)

Module NewExpense.

(** The form for a new expense.  Its first state and every update of it
    hold all five fields. *)
Record t := mk {
  name : string;
  amount : number;
  category : string;
  date : string;
  currency : string
}.

End NewExpense.

Module SheetView.
Import FinancialProfile Str JSObj.

Inductive SortKey :=
| Key_id | Key_name | Key_amount | Key_category | Key_date | Key_currency.

Inductive SortDirection := asc | desc.

Record SortConfig := {
  key : SortKey;
  direction : SortDirection
}.

(** The state that the handlers of the sheet read and write. *)
Record State := {
  profile : FinancialProfile.t;
  auditLog : AuditService.Storage;
  newExpense : NewExpense.t;
  newCategory : string;
  categoryError : string;
  sortConfig : SortConfig
}.

Definition setProfile (f : FinancialProfile.t -> FinancialProfile.t) (st : State)
  : State :=
  {| profile := f (profile st); auditLog := auditLog st;
     newExpense := newExpense st; newCategory := newCategory st;
     categoryError := categoryError st; sortConfig := sortConfig st |}.

Definition setNewExpense (f : NewExpense.t -> NewExpense.t) (st : State) : State :=
  {| profile := profile st; auditLog := auditLog st;
     newExpense := f (newExpense st); newCategory := newCategory st;
     categoryError := categoryError st; sortConfig := sortConfig st |}.

Definition setNewCategory (s : string) (st : State) : State :=
  {| profile := profile st; auditLog := auditLog st;
     newExpense := newExpense st; newCategory := s;
     categoryError := categoryError st; sortConfig := sortConfig st |}.

Definition setCategoryError (s : string) (st : State) : State :=
  {| profile := profile st; auditLog := auditLog st;
     newExpense := newExpense st; newCategory := newCategory st;
     categoryError := s; sortConfig := sortConfig st |}.

Definition setSortConfig (f : SortConfig -> SortConfig) (st : State) : State :=
  {| profile := profile st; auditLog := auditLog st;
     newExpense := newExpense st; newCategory := newCategory st;
     categoryError := categoryError st; sortConfig := f (sortConfig st) |}.

Definition logged (now : Clock) (action details : string) (st : State) : State :=
  {| profile := profile st;
     auditLog := AuditService.logAction now action (Some details) (auditLog st);
     newExpense := newExpense st; newCategory := newCategory st;
     categoryError := categoryError st; sortConfig := sortConfig st |}.

Definition withIncome (i : Income) (prev : FinancialProfile.t) : FinancialProfile.t :=
  FinancialProfile.mk i (expenses prev) (currency prev)
    (language prev) (budgets prev) (categories prev) (goals prev).

Definition withCurrency (c : string) (prev : FinancialProfile.t)
  : FinancialProfile.t :=
  FinancialProfile.mk (income prev) (expenses prev) c
    (language prev) (budgets prev) (categories prev) (goals prev).

Definition withCategories (cs : list string) (prev : FinancialProfile.t)
  : FinancialProfile.t :=
  FinancialProfile.mk (income prev) (expenses prev) (currency prev)
    (language prev) (budgets prev) cs (goals prev).

(** *** Income and currency *)

(** [keyof Income]. *)
Inductive IncomeField := Field_grossAnnualSalary | Field_otherIncome.

Definition handleIncomeChange `{Builtins} (field : IncomeField) (value : string)
  (st : State) : State :=
  let numValue := orNum (Some (parseFloat value)) 0 in
  setProfile
    (fun prev =>
       withIncome
         match field with
         | Field_grossAnnualSalary =>
             {| grossAnnualSalary := numValue;
                otherIncome := otherIncome (income prev) |}
         | Field_otherIncome =>
             {| grossAnnualSalary := grossAnnualSalary (income prev);
                otherIncome := numValue |}
         end prev) st.

Definition handleCurrencyChange (now : Clock) (currency : string) (st : State)
  : State :=
  logged now "PROFILE_UPDATE" ("Currency changed to " ++ currency)
    (setNewExpense
       (fun prev => NewExpense.mk (NewExpense.name prev) (NewExpense.amount prev)
                      (NewExpense.category prev) (NewExpense.date prev) currency)
       (setProfile (withCurrency currency) st)).

(** *** New expense *)

(** [new Date().toISOString().split('T')[0]]. *)
Definition isoDay (now : Clock) : string :=
  match split "T"%char (toISOString now) with
  | d :: _ => d
  | [] => EmptyString
  end.

(** [profile.categories[0] || 'Other']. *)
Definition firstCategory (profile : FinancialProfile.t) : string :=
  orStr (at_ (categories profile) 0) "Other".

Definition blankExpense (now : Clock) (profile : FinancialProfile.t)
  : NewExpense.t :=
  NewExpense.mk "" 0 (firstCategory profile) (isoDay now) (currency profile).

(** The state of the sheet when it is first shown for [profile]. *)
Definition initialState (now : Clock) (profile : FinancialProfile.t)
  (log : AuditService.Storage) : State :=
  {| profile := profile;
     auditLog := log;
     newExpense := blankExpense now profile;
     newCategory := "";
     categoryError := "";
     sortConfig := {| key := Key_date; direction := desc |} |}.

Definition addExpense (now : Clock) (st : State) : State :=
  let form := newExpense st in
  if negb (truthyS (NewExpense.name form)) || negb (truthy (NewExpense.amount form))
  then st
  else
    let expense :=
      Expense.mk (Date_now now)
        (NewExpense.name form)
        (NewExpense.amount form)
        (orStr (Some (NewExpense.category form)) "Other")
        (orStr (Some (NewExpense.date form)) (isoDay now))
        (Some (orStr (Some (NewExpense.currency form)) (currency (profile st)))) in
    setNewExpense (fun _ => blankExpense now (profile st))
      (setProfile
         (fun prev => ExpensesSheet.setExpenses (expense :: expenses prev) prev)
         st).

(** *** Category manager *)

(** The class of the regular expression of [validateCategory]: a Latin
    letter, a digit or white space. *)
Definition isCategoryChar (c : ascii) : bool :=
  let n := nat_of_ascii c in
  ((97 <=? n) && (n <=? 122) || (65 <=? n) && (n <=? 90)
   || (48 <=? n) && (n <=? 57))%nat
  || isWhiteSpace c.

Fixpoint everyChar (p : ascii -> bool) (s : string) : bool :=
  match s with
  | EmptyString => true
  | String c r => p c && everyChar p r
  end.

(** [re.test(name)] for that expression: one character of the class or
    more, from the start of [name] to its end. *)
Definition testCategoryName (name : string) : bool :=
  truthyS name && everyChar isCategoryChar name.

(** [xs.includes(x)] on an array of strings. *)
Definition Array_includes (xs : list string) (x : string) : bool :=
  existsb (String.eqb x) xs.

Definition validateCategory (profile : FinancialProfile.t) (name : string)
  : string :=
  if negb (truthyS (trim name)) then "Category name cannot be empty"
  else if negb (testCategoryName name) then "Only letters and numbers allowed"
  else if Array_includes (categories profile) (trim name)
       then "Category already exists"
  else "".

Definition addCategory (now : Clock) (st : State) : State :=
  let error := validateCategory (profile st) (newCategory st) in
  if truthyS error then setCategoryError error st
  else if truthyS (newCategory st) then
    logged now "PROFILE_UPDATE" ("Added category: " ++ newCategory st)
      (setCategoryError ""
         (setNewCategory ""
            (setProfile
               (fun prev =>
                  withCategories (categories prev ++ [trim (newCategory st)]) prev)
               st)))
  else st.

Definition removeCategory (now : Clock) (catToRemove : string) (st : State)
  : State :=
  logged now "PROFILE_UPDATE" ("Removed category: " ++ catToRemove)
    (setProfile
       (fun prev =>
          withCategories
            (filter (fun c => negb (c =? catToRemove)%string) (categories prev))
            prev)
       st).

(** *** Reordering the categories by drag and drop *)

(** The position that [splice] starts from, for a first argument that is
    an integer or NaN ([None]) and an array of length [len]. *)
Definition spliceStart (start : option Z) (len : nat) : nat :=
  match start with
  | None => 0%nat
  | Some z =>
      if (z <? 0)%Z then Z.to_nat (Z.max (Z.of_nat len + z) 0)
      else Nat.min (Z.to_nat z) len
  end.

(** [xs.splice(start, 1)]: the elements removed and the array left. *)
Definition spliceOne {A : Type} (start : option Z) (xs : list A)
  : list A * list A :=
  let i := spliceStart start (List.length xs) in
  (firstn 1 (skipn i xs), (firstn i xs ++ skipn (S i) xs)%list).

(** [xs.splice(start, 0, x)]: the array after the insertion. *)
Definition spliceInsert {A : Type} (start : option Z) (x : A) (xs : list A)
  : list A :=
  let i := spliceStart start (List.length xs) in
  (firstn i xs ++ x :: skipn i xs)%list.

(** The array that [handleDrop] stores, [None] when it returns without
    storing one.  [dragIndex] is what [parseInt] made of the data of the
    drag; an entry [None] of the array is [undefined]. *)
Definition handleDrop (categories : list string) (dragIndex : option Z)
  (dropIndex : nat) : option (list (option string)) :=
  if match dragIndex with
     | Some z => (z =? Z.of_nat dropIndex)%Z
     | None => false
     end
  then None
  else
    let newCategories := map Some categories in
    let (removed, rest) := spliceOne dragIndex newCategories in
    let draggedItem := match removed with d :: _ => d | [] => None end in
    Some (spliceInsert (Some (Z.of_nat dropIndex)) draggedItem rest).

(** *** Sorting the table *)

(** [===] on two keys. *)
Definition sameKey (a b : SortKey) : bool :=
  match a, b with
  | Key_id, Key_id | Key_name, Key_name | Key_amount, Key_amount
  | Key_category, Key_category | Key_date, Key_date
  | Key_currency, Key_currency => true
  | _, _ => false
  end.

Definition handleSort (k : SortKey) (st : State) : State :=
  setSortConfig
    (fun current =>
       {| key := k;
          direction :=
            if sameKey (key current) k
               && match direction current with asc => true | desc => false end
            then desc else asc |}) st.

(** [a[key] < b[key]] for two expenses: strings compare by their code
    units, numbers as numbers, and nothing is below or above
    [undefined]. *)
Definition fieldLt (k : SortKey) (a b : Expense.t) : bool :=
  match k with
  | Key_id => String.ltb (Expense.id a) (Expense.id b)
  | Key_name => String.ltb (Expense.name a) (Expense.name b)
  | Key_amount => Expense.amount a <? Expense.amount b
  | Key_category => String.ltb (Expense.category a) (Expense.category b)
  | Key_date => String.ltb (Expense.date a) (Expense.date b)
  | Key_currency =>
      match Expense.currency a, Expense.currency b with
      | Some x, Some y => String.ltb x y
      | _, _ => false
      end
  end.

(** The rows that the column [k] orders: a row whose amount is NaN, or
    that has no currency, is neither below nor above any other row in
    that column, and the comparator is then no ordering. *)
Definition hasKey (k : SortKey) (e : Expense.t) : bool :=
  match k with
  | Key_amount => negb (isNaN (Expense.amount e))
  | Key_currency =>
      match Expense.currency e with Some _ => true | None => false end
  | _ => true
  end.

(** The comparator of [processedExpenses]. *)
Definition compareRows (cfg : SortConfig) (a b : Expense.t) : number :=
  if fieldLt (key cfg) a b
  then match direction cfg with asc => -1 | desc => 1 end
  else if fieldLt (key cfg) b a
  then match direction cfg with asc => 1 | desc => -1 end
  else 0.

End SheetView.

(* ================================================================== *)
(** ** A session on the sheet *)

Module SheetSession.
Import FinancialProfile SheetView.

(** [handleCategoryInputChange] for the text [val] of the input. *)
Definition handleCategoryInputChange (val : string) (st : State) : State :=
  setCategoryError
    (if truthyS val then validateCategory (profile st) val else "")
    (setNewCategory val st).

(** The import of the sheet on its state; the alert is shown and not
    kept. *)
Definition handleImport `{Builtins} (now : Clock) (freshId : nat -> string)
  (text : string) (st : State) : completion State :=
  r <- ExpensesSheet.handleImport now freshId text
         {| ExpensesSheet.profile := profile st;
            ExpensesSheet.auditLog := auditLog st;
            ExpensesSheet.alert := None |} ;;
  Normal {| profile := ExpensesSheet.profile r;
            auditLog := ExpensesSheet.auditLog r;
            newExpense := newExpense st;
            newCategory := newCategory st;
            categoryError := categoryError st;
            sortConfig := sortConfig st |}.

(** One user action on the sheet.  A drag starts on a category that the
    manager shows and ends on one, so both indices are positions of the
    list. *)
Inductive step `{Builtins} : State -> State -> Prop :=
| step_form (form : NewExpense.t) (st : State) :
    step st (setNewExpense (fun _ => form) st)
| step_income (field : IncomeField) (value : string) (st : State) :
    step st (handleIncomeChange field value st)
| step_currency (now : Clock) (currency : string) (st : State) :
    step st (handleCurrencyChange now currency st)
| step_budget (category value : string) (st : State) :
    step st (setProfile (DashboardView.handleBudgetChange category value) st)
| step_addExpense (now : Clock) (st : State) :
    step st (addExpense now st)
| step_categoryInput (val : string) (st : State) :
    step st (handleCategoryInputChange val st)
| step_addCategory (now : Clock) (st : State) :
    step st (addCategory now st)
| step_removeCategory (now : Clock) (catToRemove : string) (st : State) :
    step st (removeCategory now catToRemove st)
| step_drop (dragIndex dropIndex : nat) (stored : list string) (st : State) :
    (dragIndex < List.length (categories (profile st)))%nat ->
    (dropIndex < List.length (categories (profile st)))%nat ->
    handleDrop (categories (profile st)) (Some (Z.of_nat dragIndex)) dropIndex
    = Some (map Some stored) ->
    step st (setProfile (withCategories stored) st)
| step_sort (k : SortKey) (st : State) :
    step st (handleSort k st)
| step_import (now : Clock) (freshId : nat -> string) (text : string)
    (st st' : State) :
    handleImport now freshId text st = Normal st' ->
    step st st'.

Inductive reachable `{Builtins} (init : State) : State -> Prop :=
| reach_init : reachable init init
| reach_step (st st' : State) :
    reachable init st -> step st st' -> reachable init st'.

(** What the sheet keeps true of a profile: the categories are distinct;
    every expense has a number for its amount and a category that is not
    empty; the two incomes and every budget limit are numbers. *)
Definition wellFormed (profile : FinancialProfile.t) : Prop :=
  NoDup (categories profile)
  /\ (forall e, In e (expenses profile) ->
                isNaN (Expense.amount e) = false
                /\ Expense.category e <> EmptyString)
  /\ isNaN (grossAnnualSalary (income profile)) = false
  /\ isNaN (otherIncome (income profile)) = false
  /\ (forall category limit, In (category, limit) (budgets profile) ->
                             isNaN limit = false).

End SheetSession.

(* ================================================================== *)
(** ** The two importers and the export of the settings menu *)

Module Backup.
Import Str RoundTrip.

(** A row as the import of the settings menu builds it: no currency. *)
Definition withoutCurrency (e : Expense.t) : Expense.t :=
  Expense.mk (Expense.id e) (Expense.name e) (Expense.amount e)
    (Expense.category e) (Expense.date e) None.

(** The transactions that the four columns of the menu's export can
    carry: as [exportable], with the amount's text at the end of the
    line. *)
Definition exportable `{Builtins} (e : Expense.t) : bool :=
  let txt := Number_toString (Expense.amount e) in
  plain (Expense.date e) && trimmed (Expense.date e)
  && negb (isEmpty (Expense.date e))
  && oneLine (Expense.name e) && trimmed (Expense.name e)
  && plain (Expense.category e) && trimmed (Expense.category e)
  && negb (isEmpty (Expense.category e))
  && plain txt && trimmed txt
  && Leibniz.eqb (parseFloat txt) (Expense.amount e)
  && negb (isNaN (Expense.amount e)).

(** The row read back by the sheet from the four columns written for
    [e]: a fresh identifier and the currency of the profile. *)
Definition reread (profile : FinancialProfile.t) (id : string) (e : Expense.t)
  : Expense.t :=
  Expense.mk id (Expense.name e) (Expense.amount e) (Expense.category e)
    (Expense.date e) (Some (FinancialProfile.currency profile)).

Fixpoint rereadAll (profile : FinancialProfile.t) (freshId : nat -> string)
  (i : nat) (es : list Expense.t) : list Expense.t :=
  match es with
  | [] => []
  | e :: rest => reread profile (freshId i) e :: rereadAll profile freshId (S i) rest
  end.

End Backup.

(* ================================================================== *)
(** ** services/geminiService.ts: the figures handed to the advisor *)

Module GeminiService.
Import FinancialProfile.

Definition totalMonthlyExpenses (profile : FinancialProfile.t) : number :=
  reduce (fun acc curr => acc + Expense.amount curr) 0 (expenses profile).

Definition monthlyGross (profile : FinancialProfile.t) : number :=
  (grossAnnualSalary (income profile) / 12) + (otherIncome (income profile) / 12).

Definition netSavings (profile : FinancialProfile.t) : number :=
  monthlyGross profile - totalMonthlyExpenses profile.

Definition annualIncome (profile : FinancialProfile.t) : number :=
  grossAnnualSalary (income profile) + otherIncome (income profile).

Definition savingsRate (profile : FinancialProfile.t) : number :=
  if 0 <? monthlyGross profile
  then (netSavings profile / monthlyGross profile) * 100 else 0.

End GeminiService.

(* ================================================================== *)
(** * Properties *)

(** ** Numbers *)

Lemma truthy_nonzero (x : number) :
  truthy x = true -> (x =? 0) = false /\ is_nan x = false.
Proof.
  unfold truthy. intros H. apply negb_true_iff, orb_false_iff in H.
  tauto.
Qed.

Lemma truthy_not_zero (x : number) : truthy x = true -> x <> zero /\ x <> neg_zero.
Proof.
  intros H. split; intros ->; vm_compute in H; discriminate.
Qed.

(** ** constants.ts *)

(** Every rate of the table is a truthy number, so [|| 1] keeps it. *)
Lemma rates_truthy :
  forallb (fun kv => truthy (snd kv)) EXCHANGE_RATES_TO_USD = true.
Proof. vm_compute. reflexivity. Qed.

Lemma prop_In {V : Type} (o : list (string * V)) (k : string) (v : V) :
  prop o k = Some v -> In (k, v) o.
Proof.
  induction o as [|[k' v'] o IH]; simpl; [discriminate|].
  destruct (String.eqb_spec k' k) as [->|_].
  - intros [= ->]. now left.
  - intros H. right. auto.
Qed.






(** The rate that [convertCurrency] takes for a code that is no inherited
    name: the entry of the table, and 1 without one. *)
Lemma memberOr_rate (code : string) :
  ownName code = true ->
  memberOr (get EXCHANGE_RATES_TO_USD code) 1 = Spec.rateOf code.
Proof.
  intros H. unfold Spec.rateOf, get, memberOr. rewrite H.
  destruct (prop EXCHANGE_RATES_TO_USD code) as [r|] eqn:E; [|reflexivity].
  apply prop_In in E.
  pose proof rates_truthy as T. rewrite forallb_forall in T.
  specialize (T _ E). simpl in T. now rewrite T.
Qed.





(** ** The tax estimator *)

Example tax_below_first_threshold : PlanningTools.tax 10000 = 0.
Proof. reflexivity. Qed.

Example tax_100000 : PlanningTools.tax 100000 = 6000 + 8000 + 3000.
Proof. reflexivity. Qed.

(** C3, as the estimator computes it.  For an annual income of 50000 the
    brackets tax the slice above 40000 at 20% and the slice from 10000 to
    40000 at 10%: the estimated tax is 2000 + 3000 = 5000 and the
    effective rate is 10%. *)
Theorem tax_50000 :
  PlanningTools.simulatedAnnualIncome
    {| PlanningTools.salary := 50000; PlanningTools.other := 0 |} = 50000
  /\ PlanningTools.tax 50000 = 5000
  /\ PlanningTools.effectiveRate 50000 = 10
  /\ PlanningTools.netAnnual 50000 = 45000.
Proof. repeat split; reflexivity. Qed.

(** C3, as stated, fails: the estimate for 50000 is not 10000 at 20%. *)
Lemma tax_50000_not_10000 :
  ~ (PlanningTools.tax 50000 = 10000 /\ PlanningTools.effectiveRate 50000 = 20).
Proof.
  intros [H _].
  apply (f_equal (fun x => x =? 10000)) in H.
  vm_compute in H. discriminate.
Qed.

(** ** Budget usage *)

Lemma SFcompare_finite_refl (s : bool) (m : positive) (e : Z) :
  SFcompare (S754_finite s m e) (S754_finite s m e) = Some Eq.
Proof.
  simpl. rewrite Z.compare_refl, Pos.compare_refl. now destruct s.
Qed.

(** A number above zero is neither NaN nor zero. *)
Lemma positive_truthy (x : number) : (0 <? x) = true -> truthy x = true.
Proof.
  intros H. unfold truthy, is_nan.
  rewrite ltb_spec in H. rewrite !eqb_spec.
  change (Prim2SF 0) with (S754_zero false) in *.
  unfold SFltb in H. unfold SFeqb.
  destruct (Prim2SF x) as [s| [|] | |[|] m e]; simpl in H; try discriminate.
  - reflexivity.
  - rewrite SFcompare_finite_refl. reflexivity.
Qed.

Lemma zero_falsy (x : number) : (x =? 0) = true -> truthy x = false.
Proof.
  intros H. unfold truthy. rewrite H, orb_true_r. reflexivity.
Qed.

(** C7. In the dashboard and in the budget manager of the sheet, the
    usage percentage of a category is [spend / limit * 100] when the
    monthly limit configured for it is greater than 0, and exactly 0 when
    that limit is 0, whatever has been spent. *)
Theorem budget_percentage (profile : FinancialProfile.t) (category : string)
  (limit : number) :
  prop (FinancialProfile.budgets profile) category = Some limit ->
  ((0 <? limit) = true ->
     Dashboard.percentage profile category
       = Dashboard.spent profile category / limit * 100
     /\ ExpensesSheet.percentage profile category
       = ExpensesSheet.spent profile category / limit * 100)
  /\ ((limit =? 0) = true ->
        Dashboard.percentage profile category = 0
        /\ ExpensesSheet.percentage profile category = 0).
Proof.
  intros Hl. split; intros H.
  - unfold Dashboard.percentage, Dashboard.budget,
      ExpensesSheet.percentage, ExpensesSheet.budget.
    rewrite Hl. unfold orNum. rewrite (positive_truthy _ H), H. now split.
  - unfold Dashboard.percentage, Dashboard.budget,
      ExpensesSheet.percentage, ExpensesSheet.budget.
    rewrite Hl. unfold orNum. rewrite (zero_falsy _ H). now split.
Qed.

(** Without a configured limit the percentage is 0 as well. *)
Lemma budget_percentage_unset (profile : FinancialProfile.t) (category : string) :
  prop (FinancialProfile.budgets profile) category = None ->
  Dashboard.percentage profile category = 0
  /\ ExpensesSheet.percentage profile category = 0.
Proof.
  intros Hl.
  unfold Dashboard.percentage, Dashboard.budget,
    ExpensesSheet.percentage, ExpensesSheet.budget.
  rewrite Hl. now split.
Qed.

Lemma budget_percentage_witness :
  Dashboard.percentage Scenario.budgetedProfile "Food" = 400 / 500 * 100
  /\ ExpensesSheet.percentage Scenario.budgetedProfile "Food" = 400 / 500 * 100
  /\ Dashboard.percentage Scenario.budgetedProfile "Housing" = 0
  /\ ExpensesSheet.percentage Scenario.budgetedProfile "Housing" = 0.
Proof.
  destruct (@budget_percentage Scenario.budgetedProfile "Food" 500 eq_refl)
    as [Hpos _].
  destruct (@budget_percentage Scenario.budgetedProfile "Housing" 0 eq_refl)
    as [_ Hzero].
  destruct (Hpos eq_refl) as [D S]. destruct (Hzero eq_refl) as [D0 S0].
  refine (conj _ (conj _ (conj D0 S0))).
  - rewrite D. reflexivity.
  - rewrite S. reflexivity.
Defined.

(** ** Savings goals *)

Lemma Math_min_100 (x : number) : (100 <? Math_min x 100) = false.
Proof.
  unfold Math_min.
  change (is_nan 100) with false. change (is_zero 100) with false.
  rewrite orb_false_r, andb_false_r.
  destruct (is_nan x); [reflexivity|].
  destruct (100 <? x) eqn:E; [reflexivity|exact E].
Qed.

Lemma quickAdd_goals (goal : SavingsGoal.t) (step : number)
  (st : PlanningTools.State) :
  FinancialProfile.goals (PlanningTools.profile (PlanningTools.quickAdd true goal step st))
  = map (fun g =>
           if (SavingsGoal.id g =? SavingsGoal.id goal)%string
           then SavingsGoal.mk (SavingsGoal.id g) (SavingsGoal.name g)
                  (SavingsGoal.targetAmount g)
                  (SavingsGoal.savedAmount goal + step)
                  (SavingsGoal.deadline g) (SavingsGoal.category g)
                  (SavingsGoal.icon g) (SavingsGoal.color g)
           else g)
        (FinancialProfile.goals (PlanningTools.profile st)).
Proof.
  reflexivity.
Qed.

Lemma is_nan_eq (x : number) : is_nan x = true -> x = nan.
Proof.
  intros H. apply Prim2SF_inj. change (Prim2SF nan) with S754_nan.
  unfold is_nan in H. apply negb_true_iff in H. rewrite eqb_spec in H.
  unfold SFeqb in H.
  destruct (Prim2SF x) as [[|]|[|]| |s m e]; try reflexivity; try discriminate.
  rewrite SFcompare_finite_refl in H. discriminate.
Qed.

(** [Math.min(x, 100)], case by case. *)
Lemma Math_min_100_cases (x : number) :
  ((100 <? x) = true -> Math_min x 100 = 100)
  /\ (is_nan x = false -> (100 <? x) = false -> Math_min x 100 = x)
  /\ (is_nan x = true -> Math_min x 100 = NaN).
Proof.
  unfold Math_min.
  change (is_nan 100) with false. change (is_zero 100) with false.
  rewrite orb_false_r, andb_false_r.
  destruct (is_nan x) eqn:N.
  - apply is_nan_eq in N. subst x.
    split; [intros H; vm_compute in H; discriminate|].
    split; [discriminate|reflexivity].
  - split; [intros H; now rewrite H|].
    split; [intros _ H; now rewrite H|discriminate].
Qed.

(** C6. The progress shown for a goal is [saved / target * 100] as long
    as that figure is a number not above 100, and exactly 100 as soon as
    it is above 100, so it never exceeds 100, also when more was saved
    than the target (a figure that is NaN, as 0 / 0 is, is shown as
    NaN); the stored [savedAmount] is not clamped: a quick-add on a goal
    of the list replaces it, at its position, by the previous value plus
    the step, and leaves the target as it was. *)
Theorem goal_progress_clamped_saved_not :
  (forall goal : SavingsGoal.t,
      let ratio :=
        SavingsGoal.savedAmount goal / SavingsGoal.targetAmount goal * 100 in
      ((100 <? ratio) = true -> PlanningTools.progress goal = 100)
      /\ (is_nan ratio = false -> (100 <? ratio) = false ->
          PlanningTools.progress goal = ratio)
      /\ (is_nan ratio = true -> PlanningTools.progress goal = NaN)
      /\ (100 <? PlanningTools.progress goal) = false)
  /\ (forall (st : PlanningTools.State) (i : nat) (goal : SavingsGoal.t) (step : number),
         nth_error (FinancialProfile.goals (PlanningTools.profile st)) i = Some goal ->
         exists goal',
           nth_error (FinancialProfile.goals
                        (PlanningTools.profile (PlanningTools.quickAdd true goal step st))) i
           = Some goal'
           /\ SavingsGoal.savedAmount goal' = SavingsGoal.savedAmount goal + step
           /\ SavingsGoal.targetAmount goal' = SavingsGoal.targetAmount goal
           /\ SavingsGoal.id goal' = SavingsGoal.id goal).
Proof.
  split.
  - intros goal ratio. unfold PlanningTools.progress. fold ratio.
    destruct (Math_min_100_cases ratio) as (A & B & C).
    split; [exact A|]. split; [exact B|]. split; [exact C|].
    apply Math_min_100.
  - intros st i goal step Hi.
    rewrite quickAdd_goals, nth_error_map, Hi. simpl.
    rewrite String.eqb_refl. eexists. split; [reflexivity|]. now simpl.
Qed.

Lemma goal_progress_clamped_saved_not_witness :
  let goal := SavingsGoal.mk "g1" "Laptop" 1000 950 "" "Gadget" "Gadget" "bg-purple-500" in
  let st := {| PlanningTools.profile :=
                 PlanningTools.setGoals [goal] App.defaultProfile;
               PlanningTools.newGoal := PlanningTools.emptyGoal;
               PlanningTools.isAddingGoal := false;
               PlanningTools.auditLog := AuditService.emptyStorage |} in
  PlanningTools.progress goal = 95
  /\ exists goal',
       nth_error (FinancialProfile.goals
                    (PlanningTools.profile (PlanningTools.quickAdd true goal 100 st))) 0
       = Some goal'
       /\ SavingsGoal.savedAmount goal' = 1050
       /\ SavingsGoal.targetAmount goal' = 1000
       /\ PlanningTools.progress goal' = 100.
Proof.
  intros goal st.
  destruct goal_progress_clamped_saved_not as [P H].
  split.
  - destruct (P goal) as (_ & Below & _).
    rewrite Below; reflexivity.
  - destruct (H st 0%nat goal 100 eq_refl) as (goal' & Hn & Hs & Ht & _).
    exists goal'. refine (conj Hn (conj _ (conj Ht _))).
    + rewrite Hs. reflexivity.
    + destruct (P goal') as (Above & _).
      apply Above. rewrite Hs, Ht. reflexivity.
Defined.

(** ** Monthly need *)

Lemma truthyS_nonempty (s : string) : s <> EmptyString -> truthyS s = true.
Proof.
  intros H. unfold truthyS. destruct (String.eqb_spec s ""); [contradiction|reflexivity].
Qed.

(** ** Adding a goal *)

Lemma handleAddGoal_cases (hasSetProfile : bool) (now : Clock)
  (st : PlanningTools.State) :
  let st' := PlanningTools.handleAddGoal hasSetProfile now st in
  st' = st
  \/ exists goal,
      FinancialProfile.goals (PlanningTools.profile st')
      = (FinancialProfile.goals (PlanningTools.profile st) ++ [goal])%list
      /\ SavingsGoal.name goal = PlanningTools.name (PlanningTools.newGoal st)
      /\ SavingsGoal.targetAmount goal
         = PlanningTools.targetAmount (PlanningTools.newGoal st)
      /\ truthyS (SavingsGoal.name goal) = true
      /\ truthy (SavingsGoal.targetAmount goal) = true.
Proof.
  unfold PlanningTools.handleAddGoal.
  destruct (truthyS (PlanningTools.name (PlanningTools.newGoal st))) eqn:Hn;
    [|now left].
  destruct (truthy (PlanningTools.targetAmount (PlanningTools.newGoal st))) eqn:Ht;
    [|now left].
  destruct hasSetProfile; [|now left].
  right. simpl. eexists. split; [reflexivity|]. simpl. auto.
Qed.

(** A goal of the list after [handleAddGoal] was there before, or it is
    the one just appended, whose target passed the guard. *)
Lemma handleAddGoal_appended (hasSetProfile : bool) (now : Clock)
  (st : PlanningTools.State) (goal : SavingsGoal.t) :
  In goal (FinancialProfile.goals
             (PlanningTools.profile (PlanningTools.handleAddGoal hasSetProfile now st))) ->
  In goal (FinancialProfile.goals (PlanningTools.profile st))
  \/ (Planner.divisible goal
      /\ SavingsGoal.targetAmount goal <> zero
      /\ SavingsGoal.targetAmount goal <> neg_zero).
Proof.
  intros Hin.
  destruct (handleAddGoal_cases hasSetProfile now st)
    as [E|(g & Hg & _ & _ & _ & Ht)].
  - left. now rewrite <- E.
  - rewrite Hg in Hin. apply in_app_or in Hin. destruct Hin as [Hin|[<-|[]]].
    + now left.
    + right. destruct (truthy_nonzero _ Ht) as [Hz Hn].
      destruct (truthy_not_zero _ Ht) as [Hp Hm].
      repeat split; assumption.
Qed.

(** C10. With an empty name, or a target amount that is 0 or NaN, in the
    form, [handleAddGoal] returns with the state (the goals list with
    it) as it was; a goal that it does append has a target amount that is
    neither zero nor NaN, so the division of the progress computation is
    not a division by zero for it. *)
Theorem handleAddGoal_guard (hasSetProfile : bool) (now : Clock)
  (st : PlanningTools.State) :
  let form := PlanningTools.newGoal st in
  let st' := PlanningTools.handleAddGoal hasSetProfile now st in
  (PlanningTools.name form = EmptyString
   \/ (PlanningTools.targetAmount form =? 0) = true
   \/ is_nan (PlanningTools.targetAmount form) = true ->
   st' = st)
  /\ (forall goal : SavingsGoal.t,
         In goal (FinancialProfile.goals (PlanningTools.profile st')) ->
         In goal (FinancialProfile.goals (PlanningTools.profile st))
         \/ (Planner.divisible goal
             /\ SavingsGoal.targetAmount goal <> zero
             /\ SavingsGoal.targetAmount goal <> neg_zero
             /\ PlanningTools.progress goal
                = Math_min (SavingsGoal.savedAmount goal
                            / SavingsGoal.targetAmount goal * 100) 100)).
Proof.
  intros form st'. split.
  - intros H. unfold st', PlanningTools.handleAddGoal. fold form.
    destruct H as [H|[H|H]].
    + rewrite H. reflexivity.
    + unfold truthy. rewrite H, orb_true_r. simpl. now rewrite orb_true_r.
    + unfold truthy. rewrite H. simpl. now rewrite orb_true_r.
  - intros goal Hin.
    destruct (handleAddGoal_appended hasSetProfile now st goal Hin)
      as [Hold|(Hd & Hp & Hm)]; [now left|right].
    repeat split; try assumption; apply Hd.
Qed.

Lemma handleAddGoal_guard_witness :
  let blank := {| PlanningTools.profile := App.defaultProfile;
                  PlanningTools.newGoal := PlanningTools.emptyGoal;
                  PlanningTools.isAddingGoal := true;
                  PlanningTools.auditLog := AuditService.emptyStorage |} in
  let unparsed := Planner.editForm
                    {| PlanningTools.name := "Europe Trip";
                       PlanningTools.targetAmount := NaN;
                       PlanningTools.savedAmount := 0;
                       PlanningTools.deadline := "";
                       PlanningTools.category := "Travel" |} blank in
  PlanningTools.handleAddGoal true Scenario.november2026 blank = blank
  /\ PlanningTools.handleAddGoal true Scenario.november2026 unparsed = unparsed.
Proof.
  intros blank unparsed. split.
  - apply (handleAddGoal_guard true Scenario.november2026 blank).
    left. reflexivity.
  - apply (handleAddGoal_guard true Scenario.november2026 unparsed).
    right. right. reflexivity.
Defined.

(** The target of every goal stays a usable divisor along any sequence
    of actions on the goals section. *)
Lemma step_divisible (b : bool) (st st' : PlanningTools.State) :
  Planner.step b st st' ->
  Forall Planner.divisible (FinancialProfile.goals (PlanningTools.profile st)) ->
  Forall Planner.divisible (FinancialProfile.goals (PlanningTools.profile st')).
Proof.
  intros Hs Hinv. destruct Hs as [g st|now st|now id st|goal k st Hin Hk].
  - exact Hinv.
  - rewrite Forall_forall in *. intros goal Hg.
    destruct (handleAddGoal_appended b now st goal Hg) as [Hold|[Hd _]]; auto.
  - unfold PlanningTools.handleDeleteGoal. destruct b; simpl; [|exact Hinv].
    rewrite Forall_forall in *. intros goal Hg.
    apply filter_In in Hg. apply Hinv, Hg.
  - unfold PlanningTools.quickAdd, PlanningTools.handleUpdateGoalProgress.
    destruct b; simpl; [|exact Hinv].
    rewrite Forall_forall in *. intros g Hg.
    apply in_map_iff in Hg. destruct Hg as (g0 & <- & Hg0).
    specialize (Hinv g0 Hg0).
    destruct (SavingsGoal.id g0 =? SavingsGoal.id goal)%string; exact Hinv.
Qed.

Lemma reachable_divisible (b : bool) (init st : PlanningTools.State) :
  Planner.reachable b init st ->
  Forall Planner.divisible (FinancialProfile.goals (PlanningTools.profile init)) ->
  Forall Planner.divisible (FinancialProfile.goals (PlanningTools.profile st)).
Proof.
  intros Hr Hinit. induction Hr as [|st st' _ IH Hs]; [exact Hinit|].
  eapply step_divisible; eauto.
Qed.

(** ** The audit log *)

(** On a working storage [logAction] puts the new entry in front and
    keeps at most 99 of the others; the storage stays a working one. *)
Lemma logAction_stored (now : Clock) (a : string) (d : option string)
  (store : AuditService.Storage) :
  AuditService.working store ->
  AuditService.getAuditLogs (AuditService.logAction now a d store)
  = AuditService.Build_AuditLogEntry (toISOString now) a d
      :: firstn 99 (AuditService.getAuditLogs store)
  /\ AuditService.working (AuditService.logAction now a d store).
Proof.
  destruct store as [it dn rj]. intros (Hd & Hi & Hr). cbn in Hd, Hi, Hr. subst dn.
  unfold AuditService.logAction, AuditService.getAuditLogs,
    AuditService.getItem, AuditService.setItem, AuditService.working.
  cbn [AuditService.denied AuditService.item AuditService.rejects bind].
  destruct it as [|logs|]; [| |now elim Hi];
    cbn [AuditService.parseLogs bind]; rewrite Hr;
    cbn [tryCatch AuditService.denied AuditService.item AuditService.rejects
         bind AuditService.parseLogs AuditService.slice0 firstn];
    (split; [reflexivity|]); (split; [reflexivity|]); (split; [discriminate|exact Hr]).
Qed.

(** Where the storage refuses access, the text under the key does not
    parse, or the write is refused, [logAction] leaves the store as it
    is. *)
Lemma logAction_failed (now : Clock) (a : string) (d : option string)
  (store : AuditService.Storage) :
  AuditService.denied store = true
  \/ AuditService.item store = AuditService.Unparsable
  \/ AuditService.rejects store
       (firstn 100 (AuditService.Build_AuditLogEntry (toISOString now) a d
                      :: AuditService.getAuditLogs store)) = true ->
  AuditService.logAction now a d store = store.
Proof.
  destruct store as [it dn rj].
  unfold AuditService.logAction, AuditService.getAuditLogs,
    AuditService.getItem, AuditService.setItem.
  cbn [AuditService.denied AuditService.item AuditService.rejects].
  destruct dn; [reflexivity|]. cbn [bind].
  intros [H|[H|H]]; [discriminate|now rewrite H|].
  destruct it as [|logs|]; [| |reflexivity];
    cbn [AuditService.parseLogs bind tryCatch] in *;
    unfold AuditService.slice0; now rewrite H.
Qed.

Lemma replay_snoc (cs : list AuditTrail.Insertion) (c : AuditTrail.Insertion)
  (store : AuditService.Storage) :
  AuditTrail.replay (cs ++ [c]) store
  = AuditTrail.insert (AuditTrail.replay cs store) c.
Proof.
  unfold AuditTrail.replay. now rewrite fold_left_app.
Qed.

Lemma insert_logs (store : AuditService.Storage) (c : AuditTrail.Insertion) :
  AuditService.working store ->
  AuditService.getAuditLogs (AuditTrail.insert store c)
  = AuditTrail.entryOf c :: firstn 99 (AuditService.getAuditLogs store).
Proof.
  intros W. unfold AuditTrail.insert. now apply logAction_stored.
Qed.

Lemma replay_working (cs : list AuditTrail.Insertion)
  (store : AuditService.Storage) :
  AuditService.working store ->
  AuditService.working (AuditTrail.replay cs store).
Proof.
  revert store. induction cs as [|c cs IH]; intros store W; [exact W|].
  cbn. apply IH. unfold AuditTrail.insert. now apply logAction_stored.
Qed.

Lemma insert_length (store : AuditService.Storage) (c : AuditTrail.Insertion) :
  AuditService.working store ->
  (List.length (AuditService.getAuditLogs (AuditTrail.insert store c)) <= 100)%nat.
Proof.
  intros W. rewrite (insert_logs _ _ W), length_cons.
  pose proof (firstn_le_length 99 (AuditService.getAuditLogs store)). lia.
Qed.

(** A sequence of calls on a storage that refuses access, or whose text
    does not parse, changes nothing. *)
Lemma replay_failed (cs : list AuditTrail.Insertion)
  (store : AuditService.Storage) :
  AuditService.denied store = true
  \/ AuditService.item store = AuditService.Unparsable ->
  AuditTrail.replay cs store = store.
Proof.
  intros H. induction cs as [|c cs IH]; [reflexivity|].
  cbn. unfold AuditTrail.insert at 2. rewrite logAction_failed; [exact IH|tauto].
Qed.

(** C8. On a storage that allows access and accepts the writes, whatever
    log it holds at the start (none, or an array of any length), after a
    sequence of [logAction] calls the stored log holds at most 100
    entries and the entry of the last call is at index 0: the new entry
    is put in front of the previous log and what lies beyond the first
    100 is dropped.  On a storage that refuses access, or whose text does
    not parse, no call changes anything, and the log read is empty. *)
Theorem auditLog_capped_newest_first (init : AuditService.Storage)
  (earlier : list AuditTrail.Insertion) (last : AuditTrail.Insertion) :
  let before := AuditService.getAuditLogs (AuditTrail.replay earlier init) in
  let after := AuditService.getAuditLogs (AuditTrail.replay (earlier ++ [last]) init) in
  (AuditService.working init ->
   (List.length after <= 100)%nat
   /\ nth_error after 0 = Some (AuditTrail.entryOf last)
   /\ after = firstn 100 (AuditTrail.entryOf last :: before))
  /\ (AuditService.denied init = true
      \/ AuditService.item init = AuditService.Unparsable ->
      AuditTrail.replay (earlier ++ [last]) init = init /\ after = []).
Proof.
  intros before after. split.
  - intros W. pose proof (replay_working earlier init W) as W'.
    unfold after. rewrite replay_snoc.
    split; [now apply insert_length|].
    rewrite (insert_logs _ _ W'). fold before.
    split; [reflexivity|now rewrite firstn_cons].
  - intros H. unfold after. rewrite (replay_failed _ _ H).
    split; [reflexivity|].
    unfold AuditService.getAuditLogs, AuditService.getItem.
    destruct (AuditService.denied init); [reflexivity|].
    destruct H as [H|H]; [discriminate|now rewrite H].
Qed.

Lemma auditLog_capped_newest_first_witness :
  let old := AuditService.Build_AuditLogEntry "2026-01-01T00:00:00.000Z"
               "LOGIN_SUCCESS" None in
  let a := AuditTrail.Build_Insertion Scenario.november2026 "DATA_EXPORT" None in
  let b := AuditTrail.Build_Insertion Scenario.november2026 "LOGOUT"
             (Some "User logged out"%string) in
  let after :=
    AuditService.getAuditLogs
      (AuditTrail.replay ([a] ++ [b]) (AuditService.holding (repeat old 120))) in
  List.length after = 100%nat
  /\ nth_error after 0 = Some (AuditTrail.entryOf b)
  /\ nth_error after 1 = Some (AuditTrail.entryOf a).
Proof.
  intros old a b after.
  destruct (auditLog_capped_newest_first
              (AuditService.holding (repeat old 120)) [a] b) as [H _].
  destruct H as (_ & N & _).
  - split; [reflexivity|]. split; [discriminate|reflexivity].
  - split; [reflexivity|]. split; [exact N|reflexivity].
Defined.

(** C8 as stated, from any stored state, fails where the stored text does
    not parse: [logAction] then catches the error and inserts nothing. *)
Lemma auditLog_unparsable_not_logged :
  ~ (forall (init : AuditService.Storage) (earlier : list AuditTrail.Insertion)
            (last : AuditTrail.Insertion),
        nth_error
          (AuditService.getAuditLogs (AuditTrail.replay (earlier ++ [last]) init)) 0
        = Some (AuditTrail.entryOf last)).
Proof.
  intros H.
  specialize (H {| AuditService.item := AuditService.Unparsable;
                   AuditService.denied := false;
                   AuditService.rejects := fun _ => false |}
                []
                (AuditTrail.Build_Insertion Scenario.november2026 "DATA_EXPORT" None)).
  discriminate H.
Qed.

(** The log of a state that any number of insertions has produced, one
    at least, never grows past the cap again. *)
Lemma auditLog_capped_all (init : AuditService.Storage)
  (cs : list AuditTrail.Insertion) :
  AuditService.working init ->
  cs <> [] ->
  (List.length (AuditService.getAuditLogs (AuditTrail.replay cs init)) <= 100)%nat.
Proof.
  intros W Hne. destruct (exists_last Hne) as (earlier & last & ->).
  rewrite replay_snoc. apply insert_length. now apply replay_working.
Qed.

Example auditLog_evicts_oldest :
  let old := AuditService.Build_AuditLogEntry "2026-01-01T00:00:00.000Z" "LOGIN_SUCCESS" None in
  let full := AuditService.holding (repeat old 100) in
  let c := AuditTrail.Build_Insertion Scenario.november2026 "DATA_EXPORT" None in
  AuditService.getAuditLogs (AuditTrail.replay [c] full)
  = AuditTrail.entryOf c :: repeat old 99.
Proof. reflexivity. Qed.

(** A write that the storage refuses is lost: the log stays as it was. *)
Example auditLog_quota_exceeded :
  let old := AuditService.Build_AuditLogEntry "2026-01-01T00:00:00.000Z" "LOGIN_SUCCESS" None in
  let full := {| AuditService.item := AuditService.LogArray [old];
                 AuditService.denied := false;
                 AuditService.rejects := fun logs => (1 <? List.length logs)%nat |} in
  let c := AuditTrail.Build_Insertion Scenario.november2026 "DATA_EXPORT" None in
  AuditService.getAuditLogs (AuditTrail.replay [c] full) = [old].
Proof. reflexivity. Qed.

(** ** Spend totals *)

Lemma orStr_normalized (c : option string) (d : string) :
  orStr c d = match c with
              | Some c => if Str.isEmpty c then d else c
              | None => d
              end.
Proof. destruct c as [[|a s]|]; reflexivity. Qed.

Lemma reduce_sumNormalized (profile : FinancialProfile.t) (es : list Expense.t)
  (acc : number) :
  reduce (fun sum e =>
            sum + convertCurrency (Expense.amount e)
                    (orStr (Expense.currency e) (FinancialProfile.currency profile))
                    (FinancialProfile.currency profile)) acc es
  = Spec.sumNormalized profile acc es.
Proof.
  unfold reduce. revert acc. induction es as [|e es IH]; intros acc; simpl.
  - reflexivity.
  - rewrite IH. unfold Spec.normalized. now rewrite orStr_normalized.
Qed.

(** The dashboard sums normalized amounts, per category and in total. *)
Lemma Dashboard_spend_normalized (profile : FinancialProfile.t) :
  (forall category, Dashboard.spent profile category = Spec.categorySpend profile category)
  /\ Dashboard.totalMonthlyExpenses profile = Spec.totalSpend profile.
Proof.
  split; [intros category|]; apply reduce_sumNormalized.
Qed.

(** C1, at a profile in US dollars holding one purchase of 100 euros.
    The normalized spend on food is 108 and the dashboard reports it; the
    budget manager of the sheet and the planner add up the raw amounts
    and report 100, so the same limit of 105 is exceeded on the dashboard
    and not in the sheet, and the planner's savings differ from the
    dashboard's. *)
Theorem spend_totals_on_mixed_currencies :
  let p := Scenario.travelProfile in
  Spec.categorySpend p "Food" = 108
  /\ Dashboard.spent p "Food" = 108
  /\ ExpensesSheet.spent p "Food" = 100
  /\ Dashboard.isOverBudget p "Food" = true
  /\ ExpensesSheet.isOverBudget p "Food" = false
  /\ Spec.totalSpend p = 108
  /\ Dashboard.totalMonthlyExpenses p = 108
  /\ PlanningTools.totalMonthlyExpenses p = 100
  /\ Dashboard.monthlySavings p = 4892
  /\ PlanningTools.monthlySavings p = 4900.
Proof. vm_compute. repeat split; reflexivity. Qed.

Lemma sheet_spend_not_normalized :
  ~ (forall profile category,
        ExpensesSheet.spent profile category = Spec.categorySpend profile category).
Proof.
  intros H. specialize (H Scenario.travelProfile "Food"%string).
  apply (f_equal (fun x => x =? 108)) in H. vm_compute in H. discriminate.
Qed.

Lemma planner_total_not_normalized :
  ~ (forall profile,
        PlanningTools.totalMonthlyExpenses profile = Spec.totalSpend profile).
Proof.
  intros H. specialize (H Scenario.travelProfile).
  apply (f_equal (fun x => x =? 108)) in H. vm_compute in H. discriminate.
Qed.

(** ** CSV import: no exception, bad rows dropped, a count reported *)

Lemma truthyS_isEmpty (s : string) : truthyS s = negb (Str.isEmpty s).
Proof. destruct s; reflexivity. Qed.

(** The loop body on a line that splits into at least four fields. *)
Lemma importLine_fields (rt : Builtins) (profile : FinancialProfile.t)
  (id rawLine d n c a : string) (rest : list string) :
  Str.trim rawLine <> EmptyString ->
  Str.splitCsv (Str.trim rawLine) = d :: n :: c :: a :: rest ->
  ExpensesSheet.importLine profile id rawLine
  = if negb (isNaN (parseFloat a)) && truthyS (Str.trim d)
    then Normal (Some (Expense.mk id
                         (Str.trim (Str.unescapeQuotes (Str.unquote n)))
                         (parseFloat a)
                         (orStr (Some (Str.trim c)) "Other")
                         (Str.trim d)
                         (Some (orStr (optCall (at_ rest 0) Str.trim)
                                  (FinancialProfile.currency profile)))))
    else Normal None.
Proof.
  intros Hne Hparts. unfold ExpensesSheet.importLine.
  rewrite (truthyS_nonempty _ Hne), Hparts. reflexivity.
Qed.

(** The guard on the number of fields keeps every member access of the
    loop body defined: the body completes normally on every line. *)
Lemma importLine_normal (rt : Builtins) (profile : FinancialProfile.t)
  (id rawLine : string) :
  exists r, ExpensesSheet.importLine profile id rawLine = Normal r.
Proof.
  unfold ExpensesSheet.importLine.
  destruct (negb (truthyS (Str.trim rawLine))); [eauto|].
  destruct (Str.splitCsv (Str.trim rawLine)) as [|d [|n [|c [|a rest]]]];
    simpl; eauto.
  destruct (negb (isNaN (parseFloat a)) && truthyS (Str.trim d)); eauto.
Qed.

Lemma importLoop_contributions (rt : Builtins) (profile : FinancialProfile.t)
  (freshId : nat -> string) (lines : list string) :
  forall (i : nat) (acc : list Expense.t),
    ExpensesSheet.importLoop profile freshId i lines acc
    = Normal (acc ++ ImportSpec.contributions profile freshId i lines)%list.
Proof.
  induction lines as [|l rest IH]; intros i acc; simpl.
  - now rewrite app_nil_r.
  - unfold ImportSpec.contribution.
    destruct (importLine_normal rt profile (freshId i) l) as [r ->]. simpl.
    rewrite IH. destruct r as [e|]; [|reflexivity].
    now rewrite <- app_assoc.
Qed.

Lemma split_cons (sep : ascii) (s : string) :
  exists h t, Str.split sep s = h :: t.
Proof.
  destruct s as [|c r]; simpl; [eauto|].
  destruct (Ascii.eqb c sep); [eauto|].
  destruct (Str.split sep r); eauto.
Qed.

Lemma parseCsv_contributions (rt : Builtins) (profile : FinancialProfile.t)
  (freshId : nat -> string) (text : string) :
  ExpensesSheet.parseCsv profile freshId text
  = Normal (ImportSpec.contributions profile freshId
              (fst (ImportSpec.dataLines text)) (snd (ImportSpec.dataLines text))).
Proof.
  unfold ExpensesSheet.parseCsv, ImportSpec.dataLines.
  destruct (split_cons Str.LF text) as (h & t & ->).
  cbn [at_ nth_error optCall option_map].
  destruct (Str.includes "date" (Str.toLowerCase h)); cbn [skipn fst snd];
    now rewrite importLoop_contributions.
Qed.

(** A line with at least four fields whose amount field does not parse,
    or whose date field is empty, contributes no row. *)
Lemma contribution_bad_row (rt : Builtins) (profile : FinancialProfile.t)
  (id rawLine d n c a : string) (rest : list string) :
  Str.splitCsv (Str.trim rawLine) = d :: n :: c :: a :: rest ->
  isNaN (parseFloat a) = true \/ Str.trim d = EmptyString ->
  ImportSpec.contribution profile id rawLine = [].
Proof.
  intros Hparts Hbad. unfold ImportSpec.contribution.
  destruct (Str.trim rawLine) as [|c0 l0] eqn:Hl.
  - unfold ExpensesSheet.importLine. rewrite Hl. reflexivity.
  - rewrite (importLine_fields rt profile id rawLine d n c a rest);
      [|rewrite Hl; discriminate|now rewrite Hl].
    destruct Hbad as [-> | ->]; [reflexivity|].
    now rewrite andb_false_r.
Qed.

(** Every row that a line contributes carries a parsed amount and a
    non-empty date. *)
Lemma contribution_good_row (rt : Builtins) (profile : FinancialProfile.t)
  (id rawLine : string) (e : Expense.t) :
  In e (ImportSpec.contribution profile id rawLine) ->
  isNaN (Expense.amount e) = false /\ Expense.date e <> EmptyString.
Proof.
  unfold ImportSpec.contribution, ExpensesSheet.importLine.
  destruct (negb (truthyS (Str.trim rawLine))); [intros []|].
  destruct (Str.splitCsv (Str.trim rawLine)) as [|d [|n [|c [|a rest]]]];
    simpl; try (intros []).
  destruct (isNaN (parseFloat a)) eqn:Ha; simpl; [intros []|].
  destruct (truthyS (Str.trim d)) eqn:Hd; simpl; [|intros []].
  intros [<-|[]]. simpl. split; [exact Ha|].
  intros E. rewrite E in Hd. discriminate.
Qed.

Lemma contributions_good_rows (rt : Builtins) (profile : FinancialProfile.t)
  (freshId : nat -> string) (lines : list string) :
  forall (i : nat) (e : Expense.t),
    In e (ImportSpec.contributions profile freshId i lines) ->
    isNaN (Expense.amount e) = false /\ Expense.date e <> EmptyString.
Proof.
  induction lines as [|l rest IH]; intros i e; simpl; [intros []|].
  intros H. apply in_app_or in H. destruct H as [H|H].
  - eapply contribution_good_row; eauto.
  - eapply IH; eauto.
Qed.

(** C9. On every text the import completes without an exception.  The
    rows it prepends to the transactions are the contributions of the
    data lines, in order; a line whose amount field does not parse as a
    number, or whose date field is empty, contributes none, and every row
    kept has a parsed amount and a date.  The only report is the alert:
    none for an empty text, a fixed message when no row was kept, and
    otherwise the count of the rows kept. *)
Theorem handleImport_total (rt : Builtins) (now : Clock)
  (freshId : nat -> string) (text : string) (st : ExpensesSheet.State) :
  let rows := ImportSpec.contributions (ExpensesSheet.profile st) freshId
                (fst (ImportSpec.dataLines text)) (snd (ImportSpec.dataLines text)) in
  (exists st',
      ExpensesSheet.handleImport now freshId text st = Normal st'
      /\ ((text = EmptyString /\ st' = st)
          \/ (rows = []
              /\ FinancialProfile.expenses (ExpensesSheet.profile st')
                 = FinancialProfile.expenses (ExpensesSheet.profile st)
              /\ ExpensesSheet.alert st'
                 = Some "No valid transactions found in file."%string)
          \/ (rows <> []
              /\ FinancialProfile.expenses (ExpensesSheet.profile st')
                 = (rows ++ FinancialProfile.expenses (ExpensesSheet.profile st))%list
              /\ ExpensesSheet.alert st'
                 = Some ("Successfully imported "
                           ++ Str.ofLength (List.length rows)
                           ++ " transactions.")%string)))
  /\ (forall e, In e rows ->
        isNaN (Expense.amount e) = false /\ Expense.date e <> EmptyString)
  /\ (forall id rawLine d n c a rest,
        Str.splitCsv (Str.trim rawLine) = d :: n :: c :: a :: rest ->
        isNaN (parseFloat a) = true \/ Str.trim d = EmptyString ->
        ImportSpec.contribution (ExpensesSheet.profile st) id rawLine = []).
Proof.
  intros rows. split; [|split].
  - unfold ExpensesSheet.handleImport. rewrite parseCsv_contributions.
    fold rows. cbn [bind].
    destruct text as [|c0 t0].
    + eexists. split; [reflexivity|]. left. now split.
    + change (negb (truthyS (String c0 t0))) with false. cbv iota.
      clearbody rows. destruct rows as [|r0 rs].
      * eexists. split; [reflexivity|]. right. left. auto.
      * eexists. split; [reflexivity|].
        right. right. split; [discriminate|]. split; reflexivity.
  - intros e. apply contributions_good_rows.
  - intros id rawLine d n c a rest. apply contribution_bad_row.
Qed.

(** ** Strings *)

Section StringFacts.
Import Str RoundTrip.
Local Open Scope string_scope.

Lemma append_assoc (a b c : string) : (a ++ b) ++ c = a ++ (b ++ c).
Proof. induction a as [|x a IH]; simpl; [reflexivity|now rewrite IH]. Qed.

Lemma allChars_app (p : ascii -> bool) (a b : string) :
  allChars p (a ++ b) = allChars p a && allChars p b.
Proof.
  induction a as [|x a IH]; simpl; [reflexivity|].
  now rewrite IH, andb_assoc.
Qed.

(** *** Lines *)

Lemma split_oneLine (s : string) : oneLine s = true -> split LF s = [s].
Proof.
  induction s as [|c r IH]; simpl; [reflexivity|].
  unfold oneLine in *. simpl. intros H. apply andb_prop in H as [Hc Hr].
  apply negb_true_iff in Hc. rewrite Hc, (IH Hr). reflexivity.
Qed.

Lemma split_app_LF (s t : string) :
  oneLine s = true -> split LF (s ++ String LF t) = s :: split LF t.
Proof.
  induction s as [|c r IH]; simpl.
  - intros _. reflexivity.
  - unfold oneLine in *. simpl. intros H. apply andb_prop in H as [Hc Hr].
    apply negb_true_iff in Hc. rewrite Hc, (IH Hr). reflexivity.
Qed.

Lemma split_join (ls : list string) :
  ls <> [] ->
  forallb oneLine ls = true ->
  split LF (join (String LF "") ls) = ls.
Proof.
  induction ls as [|x rest IH]; [congruence|]. intros _ H.
  simpl in H. apply andb_prop in H as [Hx Hrest].
  destruct rest as [|y rest'].
  - simpl. now apply split_oneLine.
  - change (join (String LF "") (x :: y :: rest'))
      with (x ++ String LF (join (String LF "") (y :: rest'))).
    rewrite (split_app_LF _ _ Hx), IH; [reflexivity|discriminate|exact Hrest].
Qed.

(** *** Fields *)

Lemma countQuotes_app (a b : string) :
  countQuotes (a ++ b) = (countQuotes a + countQuotes b)%nat.
Proof.
  induction a as [|x a IH]; simpl; [reflexivity|].
  destruct (Ascii.eqb x quote); simpl; now rewrite IH.
Qed.

Lemma countQuotes_noQuote (s : string) : noQuote s = true -> countQuotes s = 0%nat.
Proof.
  induction s as [|c r IH]; simpl; [reflexivity|].
  unfold noQuote in *. simpl. intros H. apply andb_prop in H as [Hc Hr].
  apply negb_true_iff in Hc. rewrite Hc. auto.
Qed.

Lemma countQuotes_escape_even (s : string) :
  Nat.even (countQuotes (escapeQuotes s)) = true.
Proof.
  induction s as [|c r IH]; simpl; [reflexivity|].
  destruct (Ascii.eqb c quote) eqn:E; simpl.
  - exact IH.
  - rewrite E. exact IH.
Qed.

(** A character that is not a cutting comma joins the field that
    follows it. *)
Lemma splitCsv_keep (c : ascii) (r h : string) (t : list string) :
  Ascii.eqb c comma && Nat.even (countQuotes r) = false ->
  splitCsv r = h :: t ->
  splitCsv (String c r) = String c h :: t.
Proof. intros Hc Hr. simpl. now rewrite Hc, Hr. Qed.

Lemma splitCsv_noComma (s : string) : noComma s = true -> splitCsv s = [s].
Proof.
  induction s as [|c r IH]; simpl; [reflexivity|].
  unfold noComma in *. simpl. intros H. apply andb_prop in H as [Hc Hr].
  apply negb_true_iff in Hc. rewrite Hc, (IH Hr). reflexivity.
Qed.

(** A field without commas ends at the first comma that has an even
    number of quotes after it. *)
Lemma splitCsv_field (f rest : string) :
  noComma f = true ->
  Nat.even (countQuotes rest) = true ->
  splitCsv (f ++ String comma rest) = f :: splitCsv rest.
Proof.
  intros Hf Hrest. induction f as [|c r IH]; simpl.
  - now rewrite Hrest.
  - unfold noComma in *. simpl in Hf. apply andb_prop in Hf as [Hc Hr].
    apply negb_true_iff in Hc. rewrite Hc, (IH Hr). reflexivity.
Qed.

(** Inside an escaped description, with an odd number of quotes still to
    come, no comma cuts. *)
Lemma splitCsv_escaped (name t h : string) (tl : list string) :
  splitCsv t = h :: tl ->
  Nat.even (countQuotes t) = false ->
  splitCsv (escapeQuotes name ++ t) = (escapeQuotes name ++ h) :: tl.
Proof.
  intros Ht Hodd. induction name as [|c r IH]; simpl; [exact Ht|].
  destruct (Ascii.eqb c quote) eqn:E.
  - simpl.
    replace (Ascii.eqb quote comma) with false by reflexivity. simpl.
    now rewrite IH.
  - cbn [append].
    apply splitCsv_keep; [|exact IH].
    rewrite countQuotes_app, Nat.even_add, countQuotes_escape_even, Hodd.
    apply andb_false_r.
Qed.

(** The quoted description is one field, commas and quotes included. *)
Lemma splitCsv_quoted (name rest : string) :
  Nat.even (countQuotes rest) = true ->
  splitCsv (String quote (escapeQuotes name ++ String quote (String comma rest)))
  = String quote (escapeQuotes name ++ String quote "") :: splitCsv rest.
Proof.
  intros Hrest.
  assert (Ht : splitCsv (String quote (String comma rest))
               = String quote "" :: splitCsv rest).
  { apply splitCsv_keep; [reflexivity|].
    simpl. now rewrite Hrest. }
  apply splitCsv_keep; [reflexivity|].
  apply splitCsv_escaped; [exact Ht|].
  change (countQuotes (String quote (String comma rest)))
    with (S (countQuotes rest)).
  rewrite Nat.even_succ, <- Nat.negb_even, Hrest. reflexivity.
Qed.

(** *** Quotes *)

Lemma stripTrailingQuote_app (s : string) :
  stripTrailingQuote (s ++ String quote "") = s.
Proof.
  induction s as [|c r IH]; [reflexivity|].
  cbn [append]. destruct r as [|c' r'].
  - reflexivity.
  - cbn [append] in *. cbn [stripTrailingQuote]. cbn [stripTrailingQuote] in IH.
    now rewrite IH.
Qed.

Lemma unquote_quoted (s : string) :
  unquote (String quote (s ++ String quote "")) = s.
Proof.
  unfold unquote.
  change (stripLeadingQuote (String quote (s ++ String quote "")))
    with (s ++ String quote "").
  apply stripTrailingQuote_app.
Qed.

Lemma unescapeQuotes_other (c : ascii) (s : string) :
  Ascii.eqb c quote = false ->
  unescapeQuotes (String c s) = String c (unescapeQuotes s).
Proof.
  intros Hc. destruct s as [|c2 r2]; simpl; [reflexivity|].
  now rewrite Hc.
Qed.

Lemma unescape_escape (s : string) : unescapeQuotes (escapeQuotes s) = s.
Proof.
  induction s as [|c r IH]; [reflexivity|].
  cbn [escapeQuotes]. destruct (Ascii.eqb_spec c quote) as [->|Hne].
  - cbn [unescapeQuotes]. rewrite Ascii.eqb_refl. cbn [andb]. now rewrite IH.
  - rewrite unescapeQuotes_other, IH; [reflexivity|].
    now apply Ascii.eqb_neq.
Qed.

End StringFacts.

Section TrimFacts.
Import Str RoundTrip.
Local Open Scope string_scope.

Lemma trimStart_length (s : string) :
  (String.length (trimStart s) <= String.length s)%nat.
Proof.
  induction s as [|c r IH]; simpl; [lia|].
  destruct (isWhiteSpace c); simpl; lia.
Qed.

Lemma trimmed_first (c : ascii) (r : string) :
  trimmed (String c r) = true -> isWhiteSpace c = false.
Proof.
  unfold trimmed. intros H. apply andb_prop in H as [H _].
  apply String.eqb_eq in H. simpl in H.
  destruct (isWhiteSpace c); [|reflexivity].
  pose proof (trimStart_length r) as L. rewrite H in L. simpl in L. lia.
Qed.

Lemma trimmed_trim (s : string) : trimmed s = true -> trim s = s.
Proof.
  unfold trimmed, trim. intros H. apply andb_prop in H as [Hs He].
  apply String.eqb_eq in Hs, He. now rewrite Hs, He.
Qed.

Lemma trimmed_trimEnd (s : string) : trimmed s = true -> trimEnd s = s.
Proof.
  unfold trimmed. intros H. apply andb_prop in H as [_ He].
  now apply String.eqb_eq in He.
Qed.

Lemma trimEnd_keep (c : ascii) (r : string) :
  isWhiteSpace c = false -> trimEnd (String c r) = String c (trimEnd r).
Proof. intros H. simpl. now rewrite H. Qed.

Lemma isEmpty_app_r (s t : string) : isEmpty t = false -> isEmpty (s ++ t) = false.
Proof. destruct s; simpl; auto. Qed.

Lemma trimEnd_app_keep (s t : string) :
  isEmpty (trimEnd t) = false -> trimEnd (s ++ t) = s ++ trimEnd t.
Proof.
  intros Ht. induction s as [|c r IH]; [reflexivity|].
  cbn [append trimEnd]. rewrite IH, (isEmpty_app_r _ _ Ht), andb_false_r.
  reflexivity.
Qed.

(** What follows a comma is never trimmed away with it. *)
Lemma trimEnd_comma (s t : string) :
  trimEnd (s ++ String comma t) = s ++ String comma (trimEnd t).
Proof.
  rewrite trimEnd_app_keep; now rewrite trimEnd_keep.
Qed.

Lemma trimStart_app (s t : string) :
  trimmed s = true -> isEmpty s = false -> trimStart (s ++ t) = s ++ t.
Proof.
  destruct s as [|c r]; [discriminate|]. intros H _.
  cbn [append trimStart]. now rewrite (trimmed_first _ _ H).
Qed.

End TrimFacts.

(** ** CSV export followed by import *)

Section RoundTripFacts.
Import Str RoundTrip.
Local Open Scope string_scope.
Context (rt : Builtins).

Lemma splitCsv_quoted_field (name rest : string) :
  Nat.even (countQuotes rest) = true ->
  splitCsv (quoted name ++ String comma rest) = quoted name :: splitCsv rest.
Proof.
  intros H. unfold quoted. cbn [append]. rewrite append_assoc. cbn [append].
  now apply splitCsv_quoted.
Qed.

Lemma countQuotes_comma (s : string) :
  countQuotes (String comma s) = countQuotes s.
Proof. reflexivity. Qed.

Lemma countQuotes_quoted_even (name rest : string) :
  Nat.even (countQuotes (quoted name ++ rest)) = Nat.even (countQuotes rest).
Proof.
  rewrite countQuotes_app, Nat.even_add.
  assert (E : Nat.even (countQuotes (quoted name)) = true).
  { unfold quoted.
    change (countQuotes (String quote (escapeQuotes name ++ String quote "")))
      with (S (countQuotes (escapeQuotes name ++ String quote ""))).
    rewrite countQuotes_app.
    change (countQuotes (String quote "")) with 1%nat.
    rewrite Nat.add_1_r. cbn [Nat.even]. apply countQuotes_escape_even. }
  rewrite E. now destruct (Nat.even (countQuotes rest)).
Qed.

Lemma countQuotes_field (f rest : string) :
  noQuote f = true -> countQuotes (f ++ String comma rest) = countQuotes rest.
Proof.
  intros H. rewrite countQuotes_app, (countQuotes_noQuote _ H). reflexivity.
Qed.

Lemma plain_parts (s : string) :
  plain s = true -> noComma s = true /\ noQuote s = true /\ oneLine s = true.
Proof.
  unfold plain. intros H. apply andb_prop in H as [H Hl].
  apply andb_prop in H as [Hc Hq]. auto.
Qed.

Lemma oneLine_escape (s : string) : oneLine s = true -> oneLine (escapeQuotes s) = true.
Proof.
  unfold oneLine. induction s as [|c r IH]; simpl; [reflexivity|].
  intros H. apply andb_prop in H as [Hc Hr].
  destruct (Ascii.eqb c quote); simpl; [now apply IH|].
  now rewrite Hc, IH.
Qed.

(** The text of a row, field by field. *)
Lemma exportRow_text (profile : FinancialProfile.t) (e : Expense.t) :
  join "," (ExpensesSheet.exportRow profile e)
  = Expense.date e ++ String comma
      (quoted (Expense.name e) ++ String comma
         (Expense.category e ++ String comma
            (Number_toString (Expense.amount e) ++ String comma
               (orStr (Expense.currency e) (FinancialProfile.currency profile))))).
Proof. reflexivity. Qed.

Lemma exportable_parts (profile : FinancialProfile.t) (e : Expense.t) :
  exportable profile e = true ->
  let cur := orStr (Expense.currency e) (FinancialProfile.currency profile) in
  let txt := Number_toString (Expense.amount e) in
  (plain (Expense.date e) = true /\ trimmed (Expense.date e) = true
   /\ isEmpty (Expense.date e) = false)
  /\ (oneLine (Expense.name e) = true /\ trimmed (Expense.name e) = true)
  /\ (plain (Expense.category e) = true /\ trimmed (Expense.category e) = true
      /\ isEmpty (Expense.category e) = false)
  /\ (plain txt = true /\ parseFloat txt = Expense.amount e
      /\ isNaN (Expense.amount e) = false)
  /\ (plain cur = true /\ trimmed cur = true).
Proof.
  unfold exportable. intros H.
  repeat match type of H with
         | (_ && _) = true => apply andb_prop in H as [H ?]
         end.
  repeat match goal with
         | [ N : negb _ = true |- _ ] => apply negb_true_iff in N
         | [ L : Leibniz.eqb _ _ = true |- _ ] => apply Leibniz.eqb_spec in L
         end.
  cbv zeta. tauto.
Qed.

Lemma exportRow_oneLine (profile : FinancialProfile.t) (e : Expense.t) :
  exportable profile e = true ->
  oneLine (join "," (ExpensesSheet.exportRow profile e)) = true.
Proof.
  intros H. rewrite exportRow_text.
  destruct (exportable_parts profile e H)
    as ((Hdate_p & _) & (Hname_l & _) & (Hcat_p & _) & (Htxt_p & _) & (Hcur_p & _)).
  apply plain_parts in Hdate_p as (_ & _ & Ld), Hcat_p as (_ & _ & Lc),
    Htxt_p as (_ & _ & La), Hcur_p as (_ & _ & Lu).
  unfold oneLine, quoted in *.
  repeat (rewrite allChars_app || cbn [allChars append]).
  fold (oneLine (escapeQuotes (Expense.name e))).
  rewrite (oneLine_escape _ Hname_l), Ld, Lc, La, Lu. reflexivity.
Qed.

(** The loop body reads the row written for an exportable transaction
    back as that transaction, with the identifier it is given. *)
Lemma importLine_exportRow (profile : FinancialProfile.t) (id : string)
  (e : Expense.t) :
  exportable profile e = true ->
  ExpensesSheet.importLine profile id (join "," (ExpensesSheet.exportRow profile e))
  = Normal (Some (readBack profile id e)).
Proof.
  intros H. rewrite exportRow_text.
  destruct (exportable_parts profile e H)
    as ((Hdate_p & Hdate_t & Hdate_ne) & (Hname_l & Hname_t)
        & (Hcat_p & Hcat_t & Hcat_ne) & (Htxt_p & Hrt & Hnan)
        & (Hcur_p & Hcur_t)).
  apply plain_parts in Hdate_p as (Cd & Qd & _), Hcat_p as (Cc & Qc & _),
    Htxt_p as (Ca & Qa & _), Hcur_p as (Cu & Qu & _).
  set (d := Expense.date e) in *. set (c := Expense.category e) in *.
  set (a := Number_toString (Expense.amount e)) in *.
  set (u := orStr (Expense.currency e) (FinancialProfile.currency profile)) in *.
  set (line := d ++ String comma (quoted (Expense.name e) ++ String comma
                 (c ++ String comma (a ++ String comma u)))).
  assert (Htrim : trim line = line).
  { unfold trim, line. rewrite (trimStart_app _ _ Hdate_t Hdate_ne).
    rewrite !trimEnd_comma, (trimmed_trimEnd _ Hcur_t). reflexivity. }
  assert (Hsplit : splitCsv line = [d; quoted (Expense.name e); c; a; u]).
  { unfold line.
    assert (E3 : countQuotes (a ++ String comma u) = 0%nat)
      by (rewrite (countQuotes_field _ _ Qa); now apply countQuotes_noQuote).
    assert (E2 : countQuotes (c ++ String comma (a ++ String comma u)) = 0%nat)
      by (now rewrite (countQuotes_field _ _ Qc)).
    rewrite splitCsv_field; [|exact Cd|].
    2:{ now rewrite countQuotes_quoted_even, countQuotes_comma, E2. }
    rewrite splitCsv_quoted_field by now rewrite E2.
    rewrite splitCsv_field by (auto; now rewrite E3).
    rewrite splitCsv_field
      by (auto; now rewrite (countQuotes_noQuote _ Qu)).
    now rewrite (splitCsv_noComma _ Cu). }
  rewrite (importLine_fields rt profile id line d (quoted (Expense.name e)) c a [u]);
    [| rewrite Htrim; unfold line; destruct d; [discriminate|discriminate]
     | now rewrite Htrim ].
  rewrite Hrt, Hnan, (trimmed_trim _ Hdate_t), (trimmed_trim _ Hcat_t).
  unfold quoted. rewrite unquote_quoted, unescape_escape, (trimmed_trim _ Hname_t).
  rewrite truthyS_isEmpty, Hdate_ne. cbn [negb andb].
  unfold readBack. fold d c u. do 3 f_equal.
  - unfold orStr. now rewrite truthyS_isEmpty, Hcat_ne.
  - cbn [at_ nth_error optCall option_map]. rewrite (trimmed_trim _ Hcur_t).
    f_equal. unfold orStr at 1. rewrite truthyS_isEmpty.
    destruct u as [|x u'] eqn:Eu; [|reflexivity].
    cbn [isEmpty negb]. unfold u in Eu. unfold orStr in Eu.
    destruct (Expense.currency e) as [v|]; [|now rewrite Eu].
    destruct (truthyS v) eqn:Tv; [|now rewrite Eu].
    subst v. discriminate.
Qed.

End RoundTripFacts.

Section RoundTripTheorems.
Import Str RoundTrip.
Local Open Scope string_scope.

Lemma trimStart_same_length (s : string) :
  String.length (trimStart s) = String.length s -> trimStart s = s.
Proof.
  destruct s as [|c r]; simpl; [reflexivity|].
  destruct (isWhiteSpace c); [|reflexivity].
  intros H. pose proof (trimStart_length r). lia.
Qed.

Lemma trimEnd_length (s : string) :
  (String.length (trimEnd s) <= String.length s)%nat.
Proof.
  induction s as [|c r IH]; simpl; [lia|].
  destruct (isWhiteSpace c && isEmpty (trimEnd r)); simpl; lia.
Qed.

(** [trimmed] says that [trim] changes nothing. *)
Lemma trimmed_iff (s : string) : trimmed s = true <-> trim s = s.
Proof.
  split; [apply trimmed_trim|].
  intros H. unfold trim in H.
  assert (Hs : trimStart s = s).
  { apply trimStart_same_length.
    pose proof (trimEnd_length (trimStart s)) as L1.
    pose proof (trimStart_length s) as L2. rewrite H in L1. lia. }
  unfold trimmed. rewrite Hs in H. rewrite Hs, H, !String.eqb_refl. reflexivity.
Qed.

Lemma contributions_exported (rt : Builtins) (profile : FinancialProfile.t)
  (freshId : nat -> string) (es : list Expense.t) :
  forallb (exportable profile) es = true ->
  forall i,
    ImportSpec.contributions profile freshId i
      (map (fun e => join "," (ExpensesSheet.exportRow profile e)) es)
    = readBackAll profile freshId i es.
Proof.
  induction es as [|e rest IH]; intros H i; [reflexivity|].
  simpl in H. apply andb_prop in H as [He Hrest].
  cbn [map ImportSpec.contributions readBackAll].
  unfold ImportSpec.contribution.
  rewrite (importLine_exportRow rt profile (freshId i) e He), (IH Hrest).
  reflexivity.
Qed.

Lemma dataLines_csvContent (rt : Builtins) (profile : FinancialProfile.t) :
  forallb (exportable profile) (FinancialProfile.expenses profile) = true ->
  ImportSpec.dataLines (ExpensesSheet.csvContent profile)
  = (1%nat, map (fun e => join "," (ExpensesSheet.exportRow profile e))
              (FinancialProfile.expenses profile)).
Proof.
  intros H. unfold ImportSpec.dataLines, ExpensesSheet.csvContent.
  rewrite map_map, split_join; [reflexivity|discriminate|].
  cbn [forallb]. apply andb_true_intro. split; [reflexivity|].
  rewrite forallb_forall in *. intros l Hl.
  apply in_map_iff in Hl as (e & <- & He).
  apply exportRow_oneLine, H, He.
Qed.

Lemma kept_readBackAll (profile : FinancialProfile.t) (freshId : nat -> string)
  (es : list Expense.t) :
  forall i,
    map (Spec.kept profile) (readBackAll profile freshId i es)
    = map (Spec.kept profile) es.
Proof.
  induction es as [|e rest IH]; intros i; [reflexivity|].
  cbn [readBackAll map]. rewrite IH. f_equal.
  unfold Spec.kept, readBack. cbn. f_equal.
  unfold orStr.
  destruct (Expense.currency e) as [v|]; cbn.
  - destruct (truthyS v) eqn:T; cbn; [now rewrite T|].
    destruct (truthyS (FinancialProfile.currency profile)); reflexivity.
  - destruct (truthyS (FinancialProfile.currency profile)); reflexivity.
Qed.

(** C4, for the export and the import of the sheet, on the transactions
    the file format can carry.  When every transaction of the profile
    has a plain, trimmed, non-empty date and category, a description on
    one line without white space around it (commas and double quotes
    inside it are allowed), a plain and trimmed currency, and an amount
    other than NaN whose decimal text reads back as the same number, the
    exported text is read back, row for row, as transactions with the
    same description, category, amount and date, and with the currency of
    the original, which is the profile's currency for a transaction
    without one. *)
Theorem csv_round_trip (rt : Builtins) (profile : FinancialProfile.t)
  (freshId : nat -> string) :
  forallb (exportable profile) (FinancialProfile.expenses profile) = true ->
  ExpensesSheet.parseCsv profile freshId (ExpensesSheet.csvContent profile)
  = Normal (readBackAll profile freshId 1 (FinancialProfile.expenses profile))
  /\ roundTrips profile freshId.
Proof.
  intros H.
  assert (E : ExpensesSheet.parseCsv profile freshId (ExpensesSheet.csvContent profile)
              = Normal (readBackAll profile freshId 1
                          (FinancialProfile.expenses profile))).
  { rewrite parseCsv_contributions, (dataLines_csvContent rt profile H).
    cbn [fst snd]. now rewrite contributions_exported. }
  split; [exact E|].
  eexists. split; [exact E|]. apply kept_readBackAll.
Qed.

Lemma csv_round_trip_witness :
  ExpensesSheet.parseCsv (H := Runtime.builtins) Ledger.quotedProfile Sample.freshId
    (ExpensesSheet.csvContent (H := Runtime.builtins) Ledger.quotedProfile)
  = Normal (readBackAll Ledger.quotedProfile Sample.freshId 1
              (FinancialProfile.expenses Ledger.quotedProfile))
  /\ roundTrips (H := Runtime.builtins) Ledger.quotedProfile Sample.freshId.
Proof.
  apply (csv_round_trip Runtime.builtins Ledger.quotedProfile Sample.freshId).
  vm_compute. reflexivity.
Defined.

(** C4 as stated fails already on the sheet's own export and import: the
    description typed with a space after it comes back without it. *)
Lemma csv_round_trip_trims_description :
  ~ (forall (rt : Builtins) (profile : FinancialProfile.t) (freshId : nat -> string),
        roundTrips profile freshId).
Proof.
  intros H.
  destruct (H Runtime.builtins Ledger.paddedProfile Sample.freshId)
    as (rows & Hrows & Hkept).
  vm_compute in Hrows. injection Hrows as <-.
  vm_compute in Hkept. discriminate Hkept.
Qed.

End RoundTripTheorems.

Lemma handleImport_total_witness :
  (exists st',
      ExpensesSheet.handleImport (H := Runtime.builtins) Scenario.november2026
        Sample.freshId Sample.csvText Sample.sheet = Normal st'
      /\ ExpensesSheet.alert st' = Some "Successfully imported 2 transactions."%string
      /\ List.length (FinancialProfile.expenses (ExpensesSheet.profile st')) = 6%nat)
  /\ ImportSpec.contribution (H := Runtime.builtins) App.defaultProfile "row-2"
       "2024-01-06,Lunch,Food,abc,USD" = []
  /\ ImportSpec.contribution (H := Runtime.builtins) App.defaultProfile "row-3"
       ",Parking,Transport,3,USD" = [].
Proof.
  destruct (handleImport_total Runtime.builtins Scenario.november2026
              Sample.freshId Sample.csvText Sample.sheet)
    as ((st' & Hst & Hcases) & _ & Hbad).
  split; [|split].
  - exists st'. split; [exact Hst|].
    destruct Hcases as [[Ht _]|[[Hr _]|(_ & He & Ha)]].
    + vm_compute in Ht. discriminate Ht.
    + vm_compute in Hr. discriminate Hr.
    + rewrite Ha, He. split; vm_compute; reflexivity.
  - eapply Hbad; [vm_compute; reflexivity|]. left. vm_compute. reflexivity.
  - eapply Hbad; [vm_compute; reflexivity|]. right. vm_compute. reflexivity.
Defined.

(** The export of the settings menu writes no currency column, and its
    import reads none: a purchase in euros comes back without a currency
    of its own, hence in the currency of the profile. *)
Example app_round_trip_drops_currency :
  exists e,
    App.parseCsv (H := Runtime.builtins) Sample.freshId
      (App.csvContent (H := Runtime.builtins) Scenario.travelProfile)
    = Normal [e]
    /\ Expense.currency e = None
    /\ Spec.kept Scenario.travelProfile e
       <> Spec.kept Scenario.travelProfile
            (Expense.mk "5" "Dinner in Lyon" 100 "Food" "2023-10-20" (Some "EUR"%string)).
Proof.
  eexists. split; [vm_compute; reflexivity|]. split; [reflexivity|].
  vm_compute. discriminate.
Qed.

Section Handlers.
Import Str RoundTrip.
Local Open Scope string_scope.

Lemma csvContent_nonempty (rt : Builtins) (profile : FinancialProfile.t) :
  truthyS (ExpensesSheet.csvContent profile) = true.
Proof.
  unfold ExpensesSheet.csvContent.
  destruct (map (join ",") (map (ExpensesSheet.exportRow profile)
                              (FinancialProfile.expenses profile)));
    reflexivity.
Qed.

(** Export through the handler, then import of the text it produced into
    the state it left: the transactions read back are put in front of
    the ones already there, and the export and the import are both
    recorded in the audit log. *)
Corollary export_then_import (rt : Builtins) (now later : Clock)
  (freshId : nat -> string) (st : ExpensesSheet.State) :
  let es := FinancialProfile.expenses (ExpensesSheet.profile st) in
  let exported := ExpensesSheet.handleExport now st in
  forallb (exportable (ExpensesSheet.profile st)) es = true ->
  exists st',
    ExpensesSheet.handleImport later freshId (fst exported) (snd exported) = Normal st'
    /\ FinancialProfile.expenses (ExpensesSheet.profile st')
       = (readBackAll (ExpensesSheet.profile st) freshId 1 es ++ es)%list.
Proof.
  intros es exported H. unfold exported, ExpensesSheet.handleExport.
  cbn [fst snd]. unfold ExpensesSheet.handleImport.
  rewrite (csvContent_nonempty rt). cbn [negb ExpensesSheet.profile].
  rewrite parseCsv_contributions, (dataLines_csvContent rt _ H).
  cbn [fst snd bind]. rewrite contributions_exported by exact H.
  subst es.
  destruct (FinancialProfile.expenses (ExpensesSheet.profile st)) as [|e rest] eqn:E;
    eexists; (split; [reflexivity|]); cbn; now rewrite ?E.
Qed.

End Handlers.

(** ** Worked examples *)

(** The month difference does not look at the day of the month. *)
Example monthlyNeed_ignores_day :
  PlanningTools.monthlyNeed (H := Runtime.builtins)
    Scenario.november2026 (Scenario.trip "2027-07-02")
  = PlanningTools.monthlyNeed (H := Runtime.builtins)
      Scenario.november2026 (Scenario.trip "2027-07-30").
Proof. vm_compute. reflexivity. Qed.

(** A deadline on the first of a month is midnight UTC of that day, which
    west of UTC is still the last day of the month before: the trip due
    on 1 January 2027 has two months left in a runtime on UTC and one
    month left eight hours west of it. *)
Example monthlyNeed_first_of_month :
  PlanningTools.monthlyNeed (H := Runtime.builtins)
    Scenario.november2026 (Scenario.trip "2027-01-01") = 4000 / 2
  /\ PlanningTools.monthlyNeed (H := Runtime.builtinsAt (-480))
       Scenario.november2026 (Scenario.trip "2027-01-01") = 4000 / 1.
Proof. vm_compute. split; reflexivity. Qed.

(** A deadline that is no date makes the need NaN, and the card then
    shows no monthly figure. *)
Example monthlyNeed_invalid_date :
  isNaN (PlanningTools.monthlyNeed (H := Runtime.builtins)
           Scenario.november2026 (Scenario.trip "soon")) = true.
Proof. vm_compute. reflexivity. Qed.

Example mock_expenses_scenario :
  Dashboard.totalMonthlyExpenses App.defaultProfile = 2265
  /\ Dashboard.monthlyGross App.defaultProfile = 5000
  /\ Dashboard.monthlySavings App.defaultProfile = 2735.
Proof. vm_compute. repeat split; reflexivity. Qed.

Example parseFloat_prefix :
  Runtime.parseFloat "12abc" = 12
  /\ isNaN (Runtime.parseFloat "abc") = true
  /\ Runtime.parseFloat " 4.50" = 4.5
  /\ Runtime.Number_toString 89.99 = "89.99"%string
  /\ Runtime.Number_toString (100 * 1.08 / 1.27) = "85.03937007874016"%string.
Proof. vm_compute. repeat split; reflexivity. Qed.

(* ================================================================== *)
(** * Further properties of the code *)

(** ** The order and the signs of numbers *)

Lemma cmpFin_Lt (e1 e2 : Z) (m1 m2 : positive) :
  match (e1 ?= e2)%Z with
  | Lt => Lt | Gt => Gt | Eq => Pos.compare_cont Eq m1 m2
  end = Lt
  <-> (e1 < e2 \/ e1 = e2 /\ (m1 < m2)%positive)%Z.
Proof.
  change (Pos.compare_cont Eq m1 m2) with (m1 ?= m2)%positive.
  destruct (Z.compare_spec e1 e2) as [E|E|E].
  - rewrite Pos.compare_lt_iff. split; [auto|]. intros [H|[_ H]]; [lia|auto].
  - split; auto.
  - split; [discriminate|]. lia.
Qed.

Lemma cmpFin_Gt (e1 e2 : Z) (m1 m2 : positive) :
  match (e1 ?= e2)%Z with
  | Lt => Lt | Gt => Gt | Eq => Pos.compare_cont Eq m1 m2
  end = Gt
  <-> (e2 < e1 \/ e1 = e2 /\ (m2 < m1)%positive)%Z.
Proof.
  change (Pos.compare_cont Eq m1 m2) with (m1 ?= m2)%positive.
  destruct (Z.compare_spec e1 e2) as [E|E|E].
  - rewrite Pos.compare_gt_iff. split; [auto|]. intros [H|[_ H]]; [lia|auto].
  - split; [discriminate|]. lia.
  - split; auto.
Qed.

(** The comparison of two finite numbers of the same sign. *)
Lemma SFltb_finite (s : bool) (m1 m2 : positive) (e1 e2 : Z) :
  SFltb (S754_finite s m1 e1) (S754_finite s m2 e2) = true
  <-> if s then (e2 < e1 \/ e1 = e2 /\ (m2 < m1)%positive)%Z
      else (e1 < e2 \/ e1 = e2 /\ (m1 < m2)%positive)%Z.
Proof.
  unfold SFltb, SFcompare. destruct s.
  - rewrite <- cmpFin_Gt.
    destruct (e1 ?= e2)%Z; [|split; intros; discriminate|split; reflexivity].
    destruct (Pos.compare_cont Eq m1 m2); simpl; split; intros; (discriminate || reflexivity).
  - rewrite <- cmpFin_Lt.
    destruct (e1 ?= e2)%Z; [|split; reflexivity|split; intros; discriminate].
    destruct (Pos.compare_cont Eq m1 m2); simpl; split; intros; (discriminate || reflexivity).
Qed.

Lemma SFltb_asym (x y : spec_float) : SFltb x y = true -> SFltb y x = false.
Proof.
  destruct x as [sx|sx| |sx mx ex], y as [sy|sy| |sy my ey];
    try (destruct sx); try (destruct sy); try (simpl; (discriminate || reflexivity)).
  - intros H. apply SFltb_finite in H. apply not_true_is_false. intros H'.
    apply SFltb_finite in H'. lia.
  - intros H. apply SFltb_finite in H. apply not_true_is_false. intros H'.
    apply SFltb_finite in H'. lia.
Qed.

Lemma SFltb_trans (x y z : spec_float) :
  SFltb x y = true -> SFltb y z = true -> SFltb x z = true.
Proof.
  destruct x as [sx|sx| |sx mx ex], y as [sy|sy| |sy my ey],
    z as [sz|sz| |sz mz ez];
    try (destruct sx); try (destruct sy); try (destruct sz);
    try (simpl; (discriminate || reflexivity || (intros; discriminate))).
  - intros H1 H2. apply SFltb_finite in H1, H2. apply SFltb_finite. lia.
  - intros H1 H2. apply SFltb_finite in H1, H2. apply SFltb_finite. lia.
Qed.

Lemma ltb_asym (a b : number) : (a <? b) = true -> (b <? a) = false.
Proof. rewrite !ltb_spec. apply SFltb_asym. Qed.

Lemma ltb_trans (a b c : number) :
  (a <? b) = true -> (b <? c) = true -> (a <? c) = true.
Proof. rewrite !ltb_spec. apply SFltb_trans. Qed.

(** *** Signs *)

(** Rounding keeps the sign it is given. *)
Lemma binary_round_aux_sign (s : bool) (m e : Z) (l : location) :
  match binary_round_aux prec emax s m e l with
  | S754_zero s' | S754_infinity s' | S754_finite s' _ _ => s' = s
  | S754_nan => True
  end.
Proof.
  unfold binary_round_aux.
  destruct (shr_fexp prec emax m e l) as [mrs e'].
  destruct (shr_fexp prec emax _ e' loc_Exact) as [mrs' e''].
  destruct (shr_m mrs'); [reflexivity| |exact I].
  destruct (e'' <=? emax - prec)%Z; reflexivity.
Qed.

(** [notNegative x] below is [(x <? 0) = false]: zero, positive, or NaN. *)
Lemma SFltb_zero_sign (f : spec_float) :
  SFltb f (S754_zero false) = false
  <-> match f with
      | S754_infinity s | S754_finite s _ _ => s = false
      | _ => True
      end.
Proof.
  destruct f as [s|s| |s m e]; simpl; try tauto; destruct s; simpl; split; auto; discriminate.
Qed.

Lemma mul_notNegative (x y : number) :
  (x <? 0) = false -> (y <? 0) = false -> (x * y <? 0) = false.
Proof.
  rewrite !ltb_spec, mul_spec. change (Prim2SF 0) with (S754_zero false).
  rewrite !SFltb_zero_sign. unfold SF64mul.
  destruct (Prim2SF x) as [sx|sx| |sx mx ex], (Prim2SF y) as [sy|sy| |sy my ey];
    simpl; intros Hx Hy; subst; simpl; try exact I; try reflexivity.
  pose proof (binary_round_aux_sign false (Z.pos (mx * my)) (ex + ey) loc_Exact) as H.
  destruct (binary_round_aux prec emax false (Z.pos (mx * my)) (ex + ey) loc_Exact); auto.
Qed.

Lemma SFleb_zero_false (f : spec_float) :
  SFleb f (S754_zero false) = false
  <-> match f with
      | S754_infinity s | S754_finite s _ _ => s = false
      | S754_zero _ => False
      | S754_nan => True
      end.
Proof.
  destruct f as [s|s| |s m e]; simpl; try tauto; try (destruct s; simpl; split; auto; discriminate).
  split; [discriminate|tauto].
Qed.

(** A quotient of a number that is not negative by one that is not at or
    below zero. *)
Lemma div_notNegative (x y : number) :
  (x <? 0) = false -> (y <=? 0) = false -> (x / y <? 0) = false.
Proof.
  rewrite !ltb_spec, leb_spec, div_spec. change (Prim2SF 0) with (S754_zero false).
  rewrite !SFltb_zero_sign, SFleb_zero_false. unfold SF64div.
  destruct (Prim2SF x) as [sx|sx| |sx mx ex], (Prim2SF y) as [sy|sy| |sy my ey];
    simpl; intros Hx Hy; subst; simpl; try exact I; try reflexivity; try contradiction.
  destruct (SFdiv_core_binary prec emax (Z.pos mx) ex (Z.pos my) ey) as [[mz ez] lz].
  pose proof (binary_round_aux_sign false mz ez lz) as H.
  destruct (binary_round_aux prec emax false mz ez lz); auto.
Qed.

(** Zero divided by a number above zero is zero. *)
Lemma zero_div (y : number) : (0 <? y) = true -> 0 / y = 0.
Proof.
  intros H. apply Prim2SF_inj. rewrite div_spec.
  rewrite ltb_spec in H. change (Prim2SF 0) with (S754_zero false) in *.
  unfold SF64div. destruct (Prim2SF y) as [s|s| |s m e]; simpl in *;
    try discriminate; destruct s; simpl in *; (discriminate || reflexivity).
Qed.

(** The difference of two numbers is above zero one way round at most. *)
Lemma binary_normalize_sign (m e : Z) :
  match binary_normalize prec emax m e false with
  | S754_infinity s | S754_finite s _ _ => s = (m <? 0)%Z
  | _ => True
  end.
Proof.
  destruct m as [|p|p]; simpl; [exact I| |].
  - unfold binary_round.
    destruct (shl_align p e _) as [mz ez].
    pose proof (binary_round_aux_sign false (Z.pos mz) ez loc_Exact) as H.
    destruct (binary_round_aux prec emax false (Z.pos mz) ez loc_Exact); auto.
  - unfold binary_round.
    destruct (shl_align p e _) as [mz ez].
    pose proof (binary_round_aux_sign true (Z.pos mz) ez loc_Exact) as H.
    destruct (binary_round_aux prec emax true (Z.pos mz) ez loc_Exact); auto.
Qed.

Lemma SFltb_zero_pos (f : spec_float) :
  SFltb (S754_zero false) f = true
  <-> match f with
      | S754_infinity s | S754_finite s _ _ => s = false
      | _ => False
      end.
Proof.
  destruct f as [s|s| |s m e]; simpl; try (split; [discriminate|tauto]);
    destruct s; simpl; split; auto; discriminate.
Qed.

Lemma sub_pos_asym (a b : number) : (0 <? a - b) = true -> (0 <? b - a) = false.
Proof.
  intros H. apply not_true_is_false. intros H'. revert H H'.
  rewrite !ltb_spec, !sub_spec. change (Prim2SF 0) with (S754_zero false).
  rewrite !SFltb_zero_pos. unfold SF64sub, SFsub.
  destruct (Prim2SF a) as [sa|sa| |sa ma ea], (Prim2SF b) as [sb|sb| |sb mb eb];
    simpl; try tauto;
    try (destruct sa, sb; simpl; intros; congruence || tauto).
  rewrite (Z.min_comm eb ea).
  set (ez := Z.min ea eb).
  set (u := cond_Zopp sa (Z.pos (fst (shl_align ma ea ez)))).
  set (v := cond_Zopp sb (Z.pos (fst (shl_align mb eb ez)))).
  intros P Q.
  destruct (Z.lt_trichotomy u v) as [L|[E|G]].
  - pose proof (binary_normalize_sign (u - v) ez) as S1.
    assert (N : ((u - v <? 0) = true)%Z) by (apply Z.ltb_lt; lia).
    rewrite N in S1.
    destruct (binary_normalize prec emax (u - v) ez false); try tauto; congruence.
  - rewrite E, Z.sub_diag in P. exact P.
  - pose proof (binary_normalize_sign (v - u) ez) as S2.
    assert (N : ((v - u <? 0) = true)%Z) by (apply Z.ltb_lt; lia).
    rewrite N in S2.
    destruct (binary_normalize prec emax (v - u) ez false); try tauto; congruence.
Qed.

(** [Math.max(0, y)] is never below zero. *)
Lemma Math_max_0_notNegative (y : number) : (Math_max 0 y <? 0) = false.
Proof.
  unfold Math_max. change (is_nan 0) with false. change (is_zero 0) with true.
  cbn [orb andb]. destruct (is_nan y); [reflexivity|].
  destruct (is_zero y).
  - change (get_sign 0) with false. reflexivity.
  - destruct (0 <? y) eqn:E; [now apply ltb_asym|reflexivity].
Qed.

(** [Math.max(0, y)] is zero for a [y] that is a number not above zero. *)
Lemma Math_max_0_floor (y : number) :
  is_nan y = false -> (0 <? y) = false -> Math_max 0 y = 0.
Proof.
  intros N L. unfold Math_max. change (is_nan 0) with false.
  change (is_zero 0) with true. change (get_sign 0) with false.
  rewrite N, L. cbn [orb andb]. now destruct (is_zero y).
Qed.

(** ** The audit log as a history *)

Lemma replay_firstn (init : AuditService.Storage) (cs : list AuditTrail.Insertion) :
  AuditService.working init ->
  firstn 100 (AuditService.getAuditLogs (AuditTrail.replay cs init))
  = firstn 100 (rev (map AuditTrail.entryOf cs) ++ AuditService.getAuditLogs init).
Proof.
  intros W. induction cs as [|c cs IH] using rev_ind; [reflexivity|].
  rewrite replay_snoc, (insert_logs _ _ (replay_working cs init W)),
    map_app, rev_app_distr.
  cbn [map rev app].
  rewrite !firstn_cons. f_equal.
  rewrite firstn_firstn. cbn [Nat.min].
  apply (f_equal (firstn 99)) in IH. rewrite !firstn_firstn in IH. exact IH.
Qed.

Lemma clearAuditLogs_working (store : AuditService.Storage) :
  AuditService.denied store = false ->
  (forall logs, AuditService.rejects store logs = false) ->
  AuditService.working (AuditService.clearAuditLogs store)
  /\ AuditService.getAuditLogs (AuditService.clearAuditLogs store) = [].
Proof.
  destruct store as [it dn rj]. cbn. intros -> Hr.
  split; [|reflexivity]. split; [reflexivity|]. split; [discriminate|exact Hr].
Qed.

(** X1. On a storage that allows access, holds no log or an array of
    entries and accepts the writes, after at least one call of
    [logAction] the stored log is exactly the 100 most recent entries of
    the whole history, newest first: the entries of the calls in reverse
    order, followed by what was stored before. *)
Theorem auditLog_recent_history (init : AuditService.Storage)
  (c : AuditTrail.Insertion) (cs : list AuditTrail.Insertion) :
  AuditService.working init ->
  AuditService.getAuditLogs (AuditTrail.replay (c :: cs) init)
  = firstn 100 (rev (map AuditTrail.entryOf (c :: cs))
                ++ AuditService.getAuditLogs init).
Proof.
  intros W. rewrite <- (replay_firstn _ _ W). symmetry. apply firstn_all2.
  apply auditLog_capped_all; [exact W|discriminate].
Qed.

Lemma auditLog_recent_history_witness :
  let old := AuditService.Build_AuditLogEntry "2026-01-01T00:00:00.000Z"
               "LOGIN_SUCCESS" None in
  let a := AuditTrail.Build_Insertion Scenario.november2026 "DATA_EXPORT" None in
  let b := AuditTrail.Build_Insertion Scenario.november2026 "LOGOUT"
             (Some "User logged out"%string) in
  AuditService.getAuditLogs
    (AuditTrail.replay [a; b] (AuditService.holding (repeat old 99)))
  = AuditTrail.entryOf b :: AuditTrail.entryOf a :: repeat old 98.
Proof.
  intros old a b.
  rewrite (auditLog_recent_history (AuditService.holding (repeat old 99)) a [b]).
  - reflexivity.
  - split; [reflexivity|]. split; [discriminate|reflexivity].
Defined.

(** X2. After [clearAuditLogs] the log read is empty, whatever the
    storage.  On a storage that allows access and accepts the writes, up
    to 100 calls of [logAction] after the clearing are then all kept,
    newest first, whatever was stored before the clearing, a text that
    does not parse included. *)
Theorem auditLog_after_clear (store : AuditService.Storage)
  (cs : list AuditTrail.Insertion) :
  AuditService.getAuditLogs (AuditService.clearAuditLogs store) = []
  /\ (AuditService.denied store = false ->
      (forall logs, AuditService.rejects store logs = false) ->
      (List.length cs <= 100)%nat ->
      AuditService.getAuditLogs
        (AuditTrail.replay cs (AuditService.clearAuditLogs store))
      = rev (map AuditTrail.entryOf cs)).
Proof.
  split.
  - destruct store as [it [|] rj]; reflexivity.
  - intros Hd Hr Hlen.
    destruct (clearAuditLogs_working store Hd Hr) as [W E].
    destruct cs as [|c cs]; [exact E|].
    rewrite <- (firstn_all2 (n := 100)
                  (AuditService.getAuditLogs
                     (AuditTrail.replay (c :: cs) (AuditService.clearAuditLogs store))))
      by (apply auditLog_capped_all; [exact W|discriminate]).
    rewrite (replay_firstn _ _ W), E.
    rewrite app_nil_r. apply firstn_all2.
    now rewrite length_rev, length_map.
Qed.

Lemma auditLog_after_clear_witness :
  let garbled := {| AuditService.item := AuditService.Unparsable;
                    AuditService.denied := false;
                    AuditService.rejects := fun _ => false |} in
  let a := AuditTrail.Build_Insertion Scenario.november2026 "DATA_EXPORT" None in
  let b := AuditTrail.Build_Insertion Scenario.november2026 "LOGOUT"
             (Some "User logged out"%string) in
  AuditService.getAuditLogs (AuditTrail.replay [a; b] garbled) = []
  /\ AuditService.getAuditLogs
       (AuditTrail.replay [a; b] (AuditService.clearAuditLogs garbled))
     = [AuditTrail.entryOf b; AuditTrail.entryOf a].
Proof.
  intros garbled a b. split; [reflexivity|].
  apply (auditLog_after_clear garbled [a; b]); [reflexivity|reflexivity|].
  cbn. lia.
Defined.

(** ** Conversions *)

Lemma rateOf_values (code : string) :
  In (Spec.rateOf code) (1 :: map snd EXCHANGE_RATES_TO_USD).
Proof.
  unfold Spec.rateOf.
  destruct (prop EXCHANGE_RATES_TO_USD code) as [r|] eqn:E; [|now left].
  right. apply prop_In in E. now apply (in_map snd) in E.
Qed.

Lemma convertCurrency_cases (amount : number) (fromCurrency toCurrency : string) :
  ownName fromCurrency = true ->
  ownName toCurrency = true ->
  convertCurrency amount fromCurrency toCurrency = amount
  \/ convertCurrency amount fromCurrency toCurrency
     = amount * Spec.rateOf fromCurrency / Spec.rateOf toCurrency.
Proof.
  intros Hf Ht. unfold convertCurrency.
  destruct (fromCurrency =? toCurrency)%string; [now left|right].
  now rewrite (memberOr_rate _ Hf), (memberOr_rate _ Ht).
Qed.

(** X3. A zero amount converts to zero between any two currency codes,
    in the rate table or not (the names that an object inherits
    apart). *)
Theorem convertCurrency_zero (fromCurrency toCurrency : string) :
  ownName fromCurrency = true ->
  ownName toCurrency = true ->
  convertCurrency 0 fromCurrency toCurrency = 0.
Proof.
  intros Own_f Own_t.
  destruct (convertCurrency_cases 0 fromCurrency toCurrency Own_f Own_t) as [E|E];
    rewrite E; [reflexivity|].
  pose proof (rateOf_values fromCurrency) as Hf.
  pose proof (rateOf_values toCurrency) as Ht.
  assert (A : forallb (fun r1 =>
                forallb (fun r2 => Leibniz.eqb (0 * r1 / r2) 0)
                        (1 :: map snd EXCHANGE_RATES_TO_USD))
              (1 :: map snd EXCHANGE_RATES_TO_USD) = true)
    by (vm_compute; reflexivity).
  rewrite forallb_forall in A. specialize (A _ Hf).
  rewrite forallb_forall in A. specialize (A _ Ht).
  now apply Leibniz.eqb_spec in A.
Qed.

Lemma convertCurrency_zero_witness :
  convertCurrency 0 "JPY" "XBT" = 0.
Proof.
  apply convertCurrency_zero; reflexivity.
Defined.

(** X4. A code that the rate table does not hold, and that is not a
    name that an object inherits, is converted as US dollars are. *)
Theorem convertCurrency_unknown_as_USD (amount : number) (code toCurrency : string) :
  ownName code = true ->
  prop EXCHANGE_RATES_TO_USD code = None ->
  toCurrency <> code ->
  toCurrency <> "USD"%string ->
  convertCurrency amount code toCurrency
  = convertCurrency amount "USD" toCurrency.
Proof.
  intros Own_c Hc H1 H2. unfold convertCurrency.
  destruct (String.eqb_spec code toCurrency) as [E|_]; [congruence|].
  destruct (String.eqb_spec "USD" toCurrency) as [E|_]; [congruence|].
  unfold get at 1. now rewrite Hc, Own_c.
Qed.

Lemma convertCurrency_unknown_as_USD_witness :
  convertCurrency 250 "XBT" "EUR" = convertCurrency 250 "USD" "EUR".
Proof.
  apply convertCurrency_unknown_as_USD;
    [reflexivity|reflexivity|discriminate|discriminate].
Defined.

(** ** The brackets of the tax estimate *)

Lemma not_above_mono (a b x : number) :
  (a <? b) = true -> (a <? x) = false -> (b <? x) = false.
Proof.
  intros Hab Hax. destruct (b <? x) eqn:E; [|reflexivity].
  now rewrite (ltb_trans a b x Hab E) in Hax.
Qed.

(** X5. The estimate in closed form, bracket by bracket: nothing up to
    10000 (and for an income that is negative or NaN); 10% of what
    exceeds 10000 up to 40000; 20% of what exceeds 40000 plus 3000 up to
    80000; 30% of what exceeds 80000 plus 8000 plus 3000 above. *)
Theorem tax_brackets (income : number) :
  ((10000 <? income) = false -> PlanningTools.tax income = 0)
  /\ ((10000 <? income) = true -> (40000 <? income) = false ->
      PlanningTools.tax income = 0 + (income - 10000) * 0.10)
  /\ ((40000 <? income) = true -> (80000 <? income) = false ->
      PlanningTools.tax income = 0 + (income - 40000) * 0.20 + 3000)
  /\ ((80000 <? income) = true ->
      PlanningTools.tax income = 0 + (income - 80000) * 0.30 + 8000 + 3000).
Proof.
  unfold PlanningTools.tax. repeat split.
  - intros H1.
    assert (H4 : (40000 <? income) = false)
      by (apply (not_above_mono 10000); [reflexivity|exact H1]).
    assert (H8 : (80000 <? income) = false)
      by (apply (not_above_mono 10000); [reflexivity|exact H1]).
    now rewrite H8, H4, H1.
  - intros H1 H4.
    assert (H8 : (80000 <? income) = false)
      by (apply (not_above_mono 40000); [reflexivity|exact H4]).
    now rewrite H8, H4, H1.
  - intros H4 H8. rewrite H8, H4. reflexivity.
  - intros H8. rewrite H8. reflexivity.
Qed.

Lemma tax_brackets_witness :
  PlanningTools.tax (-500) = 0
  /\ PlanningTools.tax 25000 = 0 + (25000 - 10000) * 0.10
  /\ PlanningTools.tax 60000 = 0 + (60000 - 40000) * 0.20 + 3000
  /\ PlanningTools.tax 120000 = 0 + (120000 - 80000) * 0.30 + 8000 + 3000.
Proof.
  refine (conj _ (conj _ (conj _ _))).
  - apply (tax_brackets (-500)). reflexivity.
  - apply (tax_brackets 25000); reflexivity.
  - apply (tax_brackets 60000); reflexivity.
  - apply (tax_brackets 120000). reflexivity.
Defined.

(** ** The suggested investment *)

(** X6. Whatever the income and the expenses, the monthly savings of
    the planner, the suggested contribution and the amount invested over
    the ten years are never negative; when the income leaves no surplus
    over the expenses, all three are exactly zero. *)
Theorem sip_never_negative (profile : FinancialProfile.t) :
  let surplus := PlanningTools.monthlyGross profile
                 - PlanningTools.totalMonthlyExpenses profile in
  ((PlanningTools.monthlySavings profile <? 0) = false
   /\ (PlanningTools.sipAmount profile <? 0) = false
   /\ (PlanningTools.investedAmount profile <? 0) = false)
  /\ (is_nan surplus = false -> (0 <? surplus) = false ->
      PlanningTools.monthlySavings profile = 0
      /\ PlanningTools.sipAmount profile = 0
      /\ PlanningTools.investedAmount profile = 0).
Proof.
  intros surplus.
  assert (S : (PlanningTools.monthlySavings profile <? 0) = false)
    by apply Math_max_0_notNegative.
  assert (P : (PlanningTools.sipAmount profile <? 0) = false)
    by (apply mul_notNegative; [exact S|reflexivity]).
  split.
  - split; [exact S|split; [exact P|]].
    apply mul_notNegative; [exact P|reflexivity].
  - intros N L.
    unfold PlanningTools.investedAmount, PlanningTools.sipAmount,
      PlanningTools.monthlySavings.
    fold surplus. rewrite (Math_max_0_floor surplus N L).
    repeat split; reflexivity.
Qed.

Lemma sip_never_negative_witness :
  let broke :=
    FinancialProfile.mk {| grossAnnualSalary := 12000; otherIncome := 0 |}
      MOCK_EXPENSES "USD" "en-US" [] EXPENSE_CATEGORIES [] in
  PlanningTools.monthlySavings broke = 0
  /\ PlanningTools.sipAmount broke = 0
  /\ PlanningTools.investedAmount broke = 0.
Proof.
  intros broke. apply (sip_never_negative broke); reflexivity.
Defined.

(** ** The monthly need of a goal *)

Lemma above_zero_not_below (y : number) : (0 <? y) = true -> (y <=? 0) = false.
Proof.
  rewrite ltb_spec, leb_spec. change (Prim2SF 0) with (S754_zero false).
  rewrite SFltb_zero_pos, SFleb_zero_false.
  destruct (Prim2SF y); tauto.
Qed.




(** X7. The monthly need shown for a goal is never negative, whatever
    the goal and the date; for a goal with a deadline in a later month
    whose target is already reached, it is exactly zero. *)
Theorem monthlyNeed_never_negative (rt : Builtins) (now : Clock)
  (goal : SavingsGoal.t) :
  (PlanningTools.monthlyNeed now goal <? 0) = false
  /\ (SavingsGoal.deadline goal <> EmptyString ->
      (0 <? Spec.monthsRemaining (today now) (newDate (SavingsGoal.deadline goal))) = true ->
      is_nan (SavingsGoal.targetAmount goal - SavingsGoal.savedAmount goal) = false ->
      (0 <? SavingsGoal.targetAmount goal - SavingsGoal.savedAmount goal) = false ->
      PlanningTools.monthlyNeed now goal = 0).
Proof.
  unfold PlanningTools.monthlyNeed, PlanningTools.calculateMonthlyNeed.
  fold (Spec.monthsRemaining (today now) (newDate (SavingsGoal.deadline goal))).
  set (months := Spec.monthsRemaining (today now) (newDate (SavingsGoal.deadline goal))).
  split.
  - destruct (negb (truthyS (SavingsGoal.deadline goal))); [reflexivity|].
    destruct (months <=? 0) eqn:M; [reflexivity|].
    apply div_notNegative; [apply Math_max_0_notNegative|exact M].
  - intros Hd Hm N L. rewrite (truthyS_nonempty _ Hd). cbn [negb].
    rewrite (above_zero_not_below _ Hm), (Math_max_0_floor _ N L).
    now apply zero_div.
Qed.

Lemma monthlyNeed_never_negative_witness :
  let funded := SavingsGoal.mk "g3" "Laptop" 1000 1200 "2027-03-01" "Gadget"
                  "Gadget" "bg-purple-500" in
  PlanningTools.monthlyNeed (H := Runtime.builtins) Scenario.november2026 funded = 0.
Proof.
  intros funded.
  apply (monthlyNeed_never_negative Runtime.builtins Scenario.november2026 funded).
  - discriminate.
  - vm_compute. reflexivity.
  - vm_compute. reflexivity.
  - vm_compute. reflexivity.
Defined.

(** ** Deleting and updating goals *)

Lemma filter_all {A : Type} (p : A -> bool) (l : list A) :
  (forall x, In x l -> p x = true) -> filter p l = l.
Proof.
  induction l as [|x l IH]; intros H; [reflexivity|]. cbn [filter].
  rewrite (H x (or_introl eq_refl)), IH; [reflexivity|].
  intros y Hy. apply H. now right.
Qed.

Lemma filter_none {A : Type} (p : A -> bool) (l : list A) :
  (forall x, In x l -> p x = false) -> filter p l = [].
Proof.
  induction l as [|x l IH]; intros H; [reflexivity|]. cbn [filter].
  rewrite (H x (or_introl eq_refl)), IH; [reflexivity|].
  intros y Hy. apply H. now right.
Qed.



(** X9. [handleUpdateGoalProgress] changes nothing but the saved amount
    of the goals that carry the given identifier: the list keeps its
    length, every goal keeps its identifier, name, target, deadline and
    category, the goals with another identifier are left as they are,
    and the ones with the identifier hold the new amount. *)
Theorem handleUpdateGoalProgress_only_saved (id : string) (amount : number)
  (st : PlanningTools.State) :
  let before := FinancialProfile.goals (PlanningTools.profile st) in
  let after :=
    FinancialProfile.goals
      (PlanningTools.profile (PlanningTools.handleUpdateGoalProgress true id amount st)) in
  List.length after = List.length before
  /\ forall i g,
       nth_error before i = Some g ->
       exists g',
         nth_error after i = Some g'
         /\ SavingsGoal.id g' = SavingsGoal.id g
         /\ SavingsGoal.name g' = SavingsGoal.name g
         /\ SavingsGoal.targetAmount g' = SavingsGoal.targetAmount g
         /\ SavingsGoal.deadline g' = SavingsGoal.deadline g
         /\ SavingsGoal.category g' = SavingsGoal.category g
         /\ (SavingsGoal.id g <> id -> g' = g)
         /\ (SavingsGoal.id g = id -> SavingsGoal.savedAmount g' = amount).
Proof.
  intros before after. unfold after, PlanningTools.handleUpdateGoalProgress.
  cbn. fold before. split; [apply length_map|].
  intros i g Hi. rewrite nth_error_map, Hi. cbn.
  destruct (String.eqb_spec (SavingsGoal.id g) id) as [E|N];
    eexists; (split; [reflexivity|]); cbn; repeat split; auto; try congruence.
Qed.

Lemma handleUpdateGoalProgress_only_saved_witness :
  let g1 := Scenario.trip "2027-07-15" in
  let g2 := SavingsGoal.mk "g9" "Laptop" 1000 950 "" "Gadget" "Gadget" "bg-purple-500" in
  let st := {| PlanningTools.profile :=
                 PlanningTools.setGoals [g1; g2] App.defaultProfile;
               PlanningTools.newGoal := PlanningTools.emptyGoal;
               PlanningTools.isAddingGoal := false;
               PlanningTools.auditLog := AuditService.emptyStorage |} in
  exists g',
    nth_error (FinancialProfile.goals
                 (PlanningTools.profile
                    (PlanningTools.handleUpdateGoalProgress true "g9" 1450 st))) 0
    = Some g' /\ g' = g1.
Proof.
  intros g1 g2 st.
  destruct (handleUpdateGoalProgress_only_saved "g9" 1450 st) as [_ H].
  destruct (H 0%nat g1 eq_refl) as (g' & Hn & _ & _ & _ & _ & _ & Hsame & _).
  exists g'. split; [exact Hn|]. apply Hsame. discriminate.
Defined.

(** ** Budget limits *)

Lemma prop_setProp_same {V : Type} (o : list (string * V)) (k : string) (v : V) :
  prop (JSObj.setProp o k v) k = Some v.
Proof.
  induction o as [|[k' v'] o IH]; cbn.
  - now rewrite String.eqb_refl.
  - destruct (String.eqb_spec k' k) as [E|N]; cbn.
    + now rewrite String.eqb_refl.
    + destruct (String.eqb_spec k' k); [contradiction|exact IH].
Qed.

Lemma prop_setProp_other {V : Type} (o : list (string * V)) (k k0 : string) (v : V) :
  k0 <> k -> prop (JSObj.setProp o k v) k0 = prop o k0.
Proof.
  intros Hne. induction o as [|[k' v'] o IH]; cbn.
  - destruct (String.eqb_spec k k0); [congruence|reflexivity].
  - destruct (String.eqb_spec k' k) as [E|N]; cbn.
    + subst k'. destruct (String.eqb_spec k k0); [congruence|reflexivity].
    + destruct (String.eqb_spec k' k0); [reflexivity|exact IH].
Qed.

Lemma orNum_not_nan (x : number) : is_nan (orNum (Some x) 0) = false.
Proof.
  unfold orNum. destruct (truthy x) eqn:T; [|reflexivity].
  now apply truthy_nonzero in T.
Qed.

(** X10. After [handleBudgetChange] the limit of the category is the
    number typed, and 0 when the text is blank or no number; it is never
    NaN; the limit of every other category and all spend figures are as
    before. *)
Theorem handleBudgetChange_sets_limit (rt : Builtins) (category value : string)
  (prev : FinancialProfile.t) :
  let next := DashboardView.handleBudgetChange category value prev in
  Dashboard.budget next category = orNum (Some (parseFloat value)) 0
  /\ is_nan (Dashboard.budget next category) = false
  /\ (forall other, other <> category ->
        Dashboard.budget next other = Dashboard.budget prev other
        /\ Dashboard.percentage next other = Dashboard.percentage prev other)
  /\ (forall c, Dashboard.spent next c = Dashboard.spent prev c).
Proof.
  intros next.
  assert (B : Dashboard.budget next category = orNum (Some (parseFloat value)) 0).
  { unfold next, Dashboard.budget, DashboardView.handleBudgetChange. cbn.
    rewrite prop_setProp_same. unfold isNaN, orNum, truthy.
    destruct (is_nan (parseFloat value)) eqn:N; cbn; rewrite ?N; reflexivity. }
  split; [exact B|]. split; [rewrite B; apply orNum_not_nan|].
  split; [|reflexivity].
  intros other Hne.
  assert (E : Dashboard.budget next other = Dashboard.budget prev other).
  { unfold next, Dashboard.budget, DashboardView.handleBudgetChange. cbn.
    now rewrite prop_setProp_other. }
  split; [exact E|]. unfold Dashboard.percentage. now rewrite E.
Qed.

Lemma handleBudgetChange_sets_limit_witness :
  let next := DashboardView.handleBudgetChange (H := Runtime.builtins)
                "Housing" "" Scenario.budgetedProfile in
  Dashboard.budget next "Food" = 500
  /\ Dashboard.budget next "Housing" = 0.
Proof.
  intros next.
  destruct (handleBudgetChange_sets_limit Runtime.builtins "Housing" ""
              Scenario.budgetedProfile) as (B & _ & O & _).
  split.
  - destruct (O "Food"%string) as [E _]; [discriminate|]. fold next in E.
    rewrite E. reflexivity.
  - fold next in B. rewrite B. reflexivity.
Defined.

(** ** Sets and the categories of the chart *)

Lemma Set_has_In (s : list string) (x : string) :
  JSObj.Set_has s x = true <-> In x s.
Proof.
  unfold JSObj.Set_has. rewrite existsb_exists. split.
  - intros (y & Hy & E). apply String.eqb_eq in E. now subst.
  - intros H. exists x. split; [exact H|apply String.eqb_refl].
Qed.

Lemma Set_add_In (s : list string) (x y : string) :
  In y (JSObj.Set_add s x) <-> In y s \/ y = x.
Proof.
  unfold JSObj.Set_add. destruct (JSObj.Set_has s x) eqn:E.
  - apply Set_has_In in E. split; [auto|]. intros [H| ->]; assumption.
  - rewrite in_app_iff. cbn. intuition congruence.
Qed.

Lemma Set_add_NoDup (s : list string) (x : string) :
  NoDup s -> NoDup (JSObj.Set_add s x).
Proof.
  intros H. unfold JSObj.Set_add. destruct (JSObj.Set_has s x) eqn:E; [exact H|].
  apply NoDup_app; [exact H|repeat constructor; intros []|].
  intros y Hy [<-|[]].
  apply Set_has_In in Hy. congruence.
Qed.

Lemma Set_fold_spec (xs acc : list string) :
  NoDup acc ->
  NoDup (fold_left JSObj.Set_add xs acc)
  /\ forall y, In y (fold_left JSObj.Set_add xs acc) <-> In y acc \/ In y xs.
Proof.
  revert acc. induction xs as [|x xs IH]; intros acc H; cbn.
  - split; [exact H|]. intros y. tauto.
  - destruct (IH (JSObj.Set_add acc x) (Set_add_NoDup acc x H)) as [N I].
    split; [exact N|]. intros y. rewrite I, Set_add_In. intuition congruence.
Qed.

Lemma Set_of_spec (xs : list string) :
  NoDup (JSObj.Set_of xs) /\ forall y, In y (JSObj.Set_of xs) <-> In y xs.
Proof.
  destruct (Set_fold_spec xs [] (NoDup_nil _)) as [N I].
  split; [exact N|]. intros y. rewrite (I y). cbn. tauto.
Qed.

Lemma allCategories_members (profile : FinancialProfile.t) :
  NoDup (DashboardView.allCategories profile)
  /\ forall c,
       In c (DashboardView.allCategories profile)
       <-> In c (FinancialProfile.categories profile)
           \/ exists e, In e (FinancialProfile.expenses profile)
                        /\ Expense.category e = c.
Proof.
  unfold DashboardView.allCategories, DashboardView.usedCategories.
  destruct (Set_of_spec (FinancialProfile.categories profile
                         ++ JSObj.Set_of (map Expense.category
                                            (FinancialProfile.expenses profile))))
    as [N I].
  split; [exact N|]. intros c. rewrite I, in_app_iff.
  destruct (Set_of_spec (map Expense.category (FinancialProfile.expenses profile)))
    as [_ I']. rewrite I', in_map_iff.
  split; (intros [H|(e & H1 & H2)]; [now left|right; exists e; tauto]).
Qed.

(** X11. The categories of the chart are the categories that the
    profile declares together with the categories that some expense
    uses, each of them once. *)
Theorem allCategories_declared_or_used (profile : FinancialProfile.t) :
  NoDup (DashboardView.allCategories profile)
  /\ forall c,
       In c (DashboardView.allCategories profile)
       <-> In c (FinancialProfile.categories profile)
           \/ exists e, In e (FinancialProfile.expenses profile)
                        /\ Expense.category e = c.
Proof. exact (allCategories_members profile). Qed.

(** ** Sorting *)

Section SortFacts.
Context {A : Type} (cmp : A -> A -> number).

Lemma insertSorted_perm (x : A) (l : list A) :
  Permutation (JSObj.insertSorted cmp x l) (x :: l).
Proof.
  induction l as [|y r IH]; cbn; [reflexivity|].
  destruct (0 <? cmp x y); [|reflexivity].
  rewrite IH. apply perm_swap.
Qed.

Lemma sort_perm (l : list A) : Permutation (JSObj.sort cmp l) l.
Proof.
  induction l as [|x r IH]; cbn; [reflexivity|].
  rewrite insertSorted_perm. now constructor.
Qed.

Hypothesis cmp_asym : forall a b, (0 <? cmp a b) = true -> (0 <? cmp b a) = false.

Lemma insertSorted_HdRel (a x : A) (l : list A) :
  JSObj.inOrder cmp a x -> HdRel (JSObj.inOrder cmp) a l -> HdRel (JSObj.inOrder cmp) a (JSObj.insertSorted cmp x l).
Proof.
  intros Hax Hl. destruct l as [|y r]; cbn; [now constructor|].
  destruct (0 <? cmp x y); constructor; [now inversion Hl|exact Hax].
Qed.

Lemma insertSorted_Sorted (x : A) (l : list A) :
  Sorted (JSObj.inOrder cmp) l -> Sorted (JSObj.inOrder cmp) (JSObj.insertSorted cmp x l).
Proof.
  induction l as [|y r IH]; intros Hs; cbn; [repeat constructor|].
  destruct (0 <? cmp x y) eqn:E.
  - inversion Hs as [|? ? Hr Hhd]; subst. constructor; [now apply IH|].
    apply insertSorted_HdRel; [now apply cmp_asym|exact Hhd].
  - constructor; [exact Hs|]. constructor. exact E.
Qed.

Lemma sort_Sorted (l : list A) : Sorted (JSObj.inOrder cmp) (JSObj.sort cmp l).
Proof.
  induction l as [|x r IH]; cbn; [constructor|]. now apply insertSorted_Sorted.
Qed.

End SortFacts.

(** ** The data of the chart *)

Lemma filter_keeps_distinct_keys {Item Key : Type} (key : Item -> Key)
  (keep : Item -> bool) (items : list Item)
  (distinct : NoDup (map key items)) :
  NoDup (map key (filter keep items)).
Proof.
  induction items as [|x items IH]; cbn in *; [exact distinct|].
  inversion distinct as [|? ? Hx Hrest]; subst.
  destruct (keep x); cbn; [|now apply IH].
  constructor; [|now apply IH].
  intros Hin. apply Hx. apply in_map_iff in Hin as (y & E & Hy).
  apply filter_In in Hy as [Hy _]. rewrite <- E. now apply in_map.
Qed.

(** X12. The data of the pie chart are sorted by the comparator of the
    source, no entry being followed by one with a greater value; they
    hold each category at most once, and hold a category exactly when it
    is declared or used and its normalized spend is above zero, with
    that spend as its value. *)
Theorem allChartData_sorted_positive (profile : FinancialProfile.t) :
  let chart := DashboardView.allChartData profile in
  Sorted (JSObj.inOrder
            (fun a b => DashboardView.value b - DashboardView.value a)) chart
  /\ NoDup (map DashboardView.name chart)
  /\ forall item,
       In item chart
       <-> In (DashboardView.name item) (DashboardView.allCategories profile)
           /\ DashboardView.value item
              = Dashboard.spent profile (DashboardView.name item)
           /\ (0 <? DashboardView.value item) = true.
Proof.
  intros chart. unfold chart, DashboardView.allChartData.
  set (cmp := fun a b => DashboardView.value b - DashboardView.value a).
  set (mk := fun cat => {| DashboardView.name := cat;
                           DashboardView.value := Dashboard.spent profile cat |}).
  set (pos := fun item => 0 <? DashboardView.value item).
  set (cats := DashboardView.allCategories profile).
  pose proof (sort_perm cmp (filter pos (map mk cats))) as P.
  split; [|split].
  - apply sort_Sorted. intros a b. unfold cmp. apply sub_pos_asym.
  - apply (Permutation_NoDup (l := map DashboardView.name (filter pos (map mk cats)))).
    + symmetry. now apply Permutation_map.
    + apply filter_keeps_distinct_keys. rewrite map_map. cbn. rewrite map_id.
      apply allCategories_members.
  - intros item. split.
    + intros H. apply (Permutation_in _ P) in H.
      apply filter_In in H as [H Hp]. apply in_map_iff in H as (c & <- & Hc).
      cbn. auto.
    + intros (Hc & Hv & Hp). apply (Permutation_in _ (Permutation_sym P)).
      apply filter_In. split; [|exact Hp].
      apply in_map_iff. exists (DashboardView.name item). split; [|exact Hc].
      unfold mk. rewrite <- Hv. now destruct item.
Qed.

Lemma Set_has_add (s : list string) (x y : string) :
  JSObj.Set_has (JSObj.Set_add s x) y = JSObj.Set_has s y || String.eqb y x.
Proof.
  apply eq_true_iff_eq. rewrite orb_true_iff, !Set_has_In, Set_add_In, String.eqb_eq.
  reflexivity.
Qed.

Lemma Set_has_delete (s : list string) (x y : string) :
  JSObj.Set_has (JSObj.Set_delete s x) y = JSObj.Set_has s y && negb (String.eqb y x).
Proof.
  apply eq_true_iff_eq. unfold JSObj.Set_delete.
  rewrite andb_true_iff, !Set_has_In, filter_In, !negb_true_iff, !String.eqb_neq.
  intuition congruence.
Qed.

Lemma toggle_twice_has (s : list string) (n y : string) :
  let t := fun s => if JSObj.Set_has s n then JSObj.Set_delete s n
                    else JSObj.Set_add s n in
  JSObj.Set_has (t (t s)) y = JSObj.Set_has s y.
Proof.
  cbv zeta beta. destruct (JSObj.Set_has s n) eqn:E.
  - rewrite Set_has_delete, String.eqb_refl, andb_false_r.
    rewrite Set_has_add, Set_has_delete.
    destruct (String.eqb_spec y n) as [->|N]; cbn.
    + now rewrite E.
    + now rewrite andb_true_r, orb_false_r.
  - rewrite Set_has_add, String.eqb_refl, orb_true_r.
    rewrite Set_has_delete, Set_has_add.
    destruct (String.eqb_spec y n) as [->|N]; cbn.
    + now rewrite E.
    + now rewrite andb_true_r, orb_false_r.
Qed.

(** X13. Clicking a legend entry that is on display takes exactly that
    category out of the visible chart data and resets the active slice;
    clicking it a second time brings the visible data back as they
    were. *)
Theorem toggleCategory_hides_and_restores (profile : FinancialProfile.t)
  (name : string) (st : DashboardView.ChartState) :
  let once := DashboardView.toggleCategory name st in
  let twice := DashboardView.toggleCategory name once in
  DashboardView.activeIndex once = 0%nat
  /\ DashboardView.visibleChartData profile twice
     = DashboardView.visibleChartData profile st
  /\ (JSObj.Set_has (DashboardView.hiddenCategories st) name = false ->
      DashboardView.visibleChartData profile once
      = filter (fun item => negb (String.eqb (DashboardView.name item) name))
               (DashboardView.visibleChartData profile st)).
Proof.
  intros once twice. split; [reflexivity|]. split.
  - unfold DashboardView.visibleChartData. apply filter_ext. intros item.
    unfold twice, once, DashboardView.toggleCategory.
    cbn [DashboardView.hiddenCategories].
    now rewrite (toggle_twice_has (DashboardView.hiddenCategories st) name).
  - intros Hv. unfold DashboardView.visibleChartData, once,
      DashboardView.toggleCategory. cbn [DashboardView.hiddenCategories].
    rewrite Hv. induction (DashboardView.allChartData profile) as [|item l IH];
      [reflexivity|].
    cbn [filter]. rewrite Set_has_add, negb_orb.
    destruct (JSObj.Set_has (DashboardView.hiddenCategories st)
                (DashboardView.name item)); cbn [negb andb filter].
    + exact IH.
    + destruct (String.eqb (DashboardView.name item) name); cbn [negb];
        [exact IH|now rewrite IH].
Qed.

Lemma toggleCategory_hides_and_restores_witness :
  let st := {| DashboardView.activeIndex := 2%nat;
               DashboardView.hiddenCategories := ["Debt"%string] |} in
  map DashboardView.name
    (DashboardView.visibleChartData App.defaultProfile
       (DashboardView.toggleCategory "Food" st))
  = ["Housing"; "Entertainment"]%string.
Proof.
  intros st.
  destruct (toggleCategory_hides_and_restores App.defaultProfile "Food" st)
    as (_ & _ & H).
  rewrite H by reflexivity. vm_compute. reflexivity.
Defined.

(** ** Financial health *)

(** X14. With a monthly income that is zero, negative or NaN, the
    expense ratio is 0 and the health label is the best one, whatever
    the expenses are. *)
Theorem healthLabel_without_income (profile : FinancialProfile.t) :
  (0 <? Dashboard.monthlyGross profile) = false ->
  DashboardView.expenseRatio profile = 0
  /\ DashboardView.healthLabel profile = "Excellent"%string.
Proof.
  intros H. unfold DashboardView.healthLabel, DashboardView.expenseRatio.
  rewrite H. split; reflexivity.
Qed.

Lemma healthLabel_without_income_witness :
  let idle :=
    FinancialProfile.mk {| grossAnnualSalary := 0; otherIncome := 0 |}
      MOCK_EXPENSES "USD" "en-US" [] EXPENSE_CATEGORIES [] in
  Dashboard.totalMonthlyExpenses idle = 2265
  /\ DashboardView.healthLabel idle = "Excellent"%string.
Proof.
  intros idle. split; [reflexivity|].
  apply (healthLabel_without_income idle). reflexivity.
Defined.

(** ** The six months of the trend *)

Section CalendarFacts.
Import Calendar.
Local Open Scope Z_scope.

Lemma daysInMonth_min (y m : Z) : 28 <= daysInMonth y m.
Proof.
  unfold daysInMonth.
  destruct (m =? 1); [destruct (isLeapYear y); lia|].
  destruct ((m =? 3) || (m =? 5) || (m =? 8) || (m =? 10))%bool; lia.
Qed.

Lemma setMonth_early_day (d : LocalDate) (k : Z) :
  day d <= 28 -> setMonth d (month d - k) = monthsBefore d k.
Proof.
  intros Hd. unfold setMonth, monthsBefore.
  pose proof (daysInMonth_min (year d + (month d - k) / 12) ((month d - k) mod 12)) as L.
  destruct (Z.leb_spec (day d)
              (daysInMonth (year d + (month d - k) / 12) ((month d - k) mod 12)));
    [|lia].
  replace (year d * 12 + month d - k) with (year d * 12 + (month d - k)) by lia.
  rewrite Z.div_add_l by lia.
  replace (year d * 12 + (month d - k)) with ((month d - k) + year d * 12) by lia.
  now rewrite Z.mod_add by lia.
Qed.

(** X15. On a day of the month up to the 28th, the six months of the
    trend charts are the current month and the five before it, in order
    and without a gap. *)
Theorem last6Months_consecutive (today : LocalDate) :
  day today <= 28 ->
  last6Dates today = map (monthsBefore today) [5; 4; 3; 2; 1; 0]
  /\ last6Months today
     = map (fun k => monthKey (monthsBefore today k)) [5; 4; 3; 2; 1; 0].
Proof.
  intros Hd.
  assert (E : last6Dates today = map (monthsBefore today) [5; 4; 3; 2; 1; 0]).
  { unfold last6Dates. cbn [map].
    repeat match goal with
           | |- context [setMonth today (month today - ?k)] =>
               rewrite (setMonth_early_day today k Hd)
           end.
    reflexivity. }
  split; [exact E|]. unfold last6Months. rewrite E, map_map. reflexivity.
Qed.

Lemma last6Months_consecutive_witness :
  last6Months {| year := 2026; month := 1; day := 3 |}
  = ["2025-09"; "2025-10"; "2025-11"; "2025-12"; "2026-01"; "2026-02"]%string.
Proof.
  destruct (last6Months_consecutive {| year := 2026; month := 1; day := 3 |}) as [_ H].
  - cbn. lia.
  - rewrite H. vm_compute. reflexivity.
Defined.

(** On the 31st the months without a 31st are missed and their
    neighbours come twice. *)
Example last6Months_on_the_31st :
  last6Months {| year := 2026; month := 2; day := 31 |}
  = ["2025-10"; "2025-12"; "2025-12"; "2026-01"; "2026-03"; "2026-03"]%string.
Proof. vm_compute. reflexivity. Qed.

End CalendarFacts.

(** ** The category manager of the sheet *)

Lemma Array_includes_In (xs : list string) (x : string) :
  SheetView.Array_includes xs x = true <-> In x xs.
Proof.
  unfold SheetView.Array_includes. rewrite existsb_exists. split.
  - intros (y & Hy & E). apply String.eqb_eq in E. now subst.
  - intros H. exists x. split; [exact H|apply String.eqb_refl].
Qed.

Lemma everyChar_trimStart (p : ascii -> bool) (s : string) :
  SheetView.everyChar p s = true -> SheetView.everyChar p (Str.trimStart s) = true.
Proof.
  induction s as [|c r IH]; [auto|]. intros H. cbn [Str.trimStart].
  destruct (Str.isWhiteSpace c); [|exact H].
  apply IH. cbn in H. now apply andb_prop in H.
Qed.

Lemma everyChar_trimEnd (p : ascii -> bool) (s : string) :
  SheetView.everyChar p s = true -> SheetView.everyChar p (Str.trimEnd s) = true.
Proof.
  induction s as [|c r IH]; [auto|]. intros H. cbn in H.
  apply andb_prop in H as [Hc Hr]. cbn [Str.trimEnd].
  destruct (Str.isWhiteSpace c && Str.isEmpty (Str.trimEnd r)); [reflexivity|].
  cbn. now rewrite Hc, IH.
Qed.

(** What [validateCategory] lets through. *)
Lemma validateCategory_accepts (profile : FinancialProfile.t) (name : string) :
  SheetView.validateCategory profile name = EmptyString
  <-> Str.trim name <> EmptyString
      /\ SheetView.testCategoryName name = true
      /\ ~ In (Str.trim name) (FinancialProfile.categories profile).
Proof.
  unfold SheetView.validateCategory.
  rewrite <- Array_includes_In.
  unfold truthyS at 1.
  destruct (String.eqb_spec (Str.trim name) "") as [E|E]; cbn [negb].
  - split; [discriminate|]. intros [H _]. now elim H.
  - destruct (SheetView.testCategoryName name); cbn [negb].
    + destruct (SheetView.Array_includes _ _).
      * split; [discriminate|]. intros (_ & _ & H). now elim H.
      * split; [|reflexivity]. intros _. split; [exact E|]. split; [reflexivity|discriminate].
    + split; [discriminate|]. intros (_ & H & _). discriminate.
Qed.

Lemma trim_empty_of_empty (s : string) :
  truthyS s = false -> Str.trim s = EmptyString.
Proof.
  unfold truthyS. destruct (String.eqb_spec s ""); [now subst|discriminate].
Qed.

Lemma addCategory_rejected (now : Clock) (st : SheetView.State) :
  let error := SheetView.validateCategory (SheetView.profile st)
                 (SheetView.newCategory st) in
  error <> EmptyString ->
  SheetView.addCategory now st = SheetView.setCategoryError error st.
Proof.
  intros error H. unfold SheetView.addCategory. fold error.
  now rewrite (truthyS_nonempty _ H).
Qed.

Lemma addCategory_accepted (now : Clock) (st : SheetView.State) :
  let typed := SheetView.newCategory st in
  let before := FinancialProfile.categories (SheetView.profile st) in
  let st' := SheetView.addCategory now st in
  SheetView.validateCategory (SheetView.profile st) typed = EmptyString ->
  FinancialProfile.categories (SheetView.profile st')
  = (before ++ [Str.trim typed])%list
  /\ ~ In (Str.trim typed) before
  /\ Str.trim typed <> EmptyString
  /\ SheetView.everyChar SheetView.isCategoryChar (Str.trim typed) = true
  /\ SheetView.newCategory st' = EmptyString
  /\ SheetView.categoryError st' = EmptyString.
Proof.
  intros typed before st' H. pose proof H as V.
  apply validateCategory_accepts in V as (Hne & Ht & Hnew).
  assert (Hty : truthyS typed = true).
  { destruct (truthyS typed) eqn:E; [reflexivity|].
    now apply trim_empty_of_empty in E. }
  unfold st', SheetView.addCategory. fold typed.
  rewrite H, Hty. cbn.
  repeat split; auto.
  unfold Str.trim. apply everyChar_trimEnd, everyChar_trimStart.
  unfold SheetView.testCategoryName in Ht. now apply andb_prop in Ht.
Qed.

Lemma addCategory_NoDup (now : Clock) (st : SheetView.State) :
  NoDup (FinancialProfile.categories (SheetView.profile st)) ->
  NoDup (FinancialProfile.categories
           (SheetView.profile (SheetView.addCategory now st))).
Proof.
  intros N.
  destruct (String.eqb_spec
              (SheetView.validateCategory (SheetView.profile st)
                 (SheetView.newCategory st)) "") as [E|E].
  - destruct (addCategory_accepted now st E) as (-> & Hnew & _).
    apply NoDup_app; repeat split; auto.
    + constructor; [intros []|constructor].
    + intros x Hx [<-|[]]. contradiction.
  - now rewrite (addCategory_rejected now st E).
Qed.

(** X16. [addCategory] either rejects what was typed, showing a message
    and leaving the profile, the audit log and the input as they are, or
    appends the typed name without the white space around it; the name
    appended is not empty, is made of letters, digits and white space
    only, and was not among the categories, so categories that are
    distinct stay distinct. *)
Theorem addCategory_keeps_distinct (now : Clock) (st : SheetView.State) :
  let typed := SheetView.newCategory st in
  let error := SheetView.validateCategory (SheetView.profile st) typed in
  let before := FinancialProfile.categories (SheetView.profile st) in
  let st' := SheetView.addCategory now st in
  let after := FinancialProfile.categories (SheetView.profile st') in
  (error <> EmptyString ->
   st' = SheetView.setCategoryError error st)
  /\ (error = EmptyString ->
      after = (before ++ [Str.trim typed])%list
      /\ ~ In (Str.trim typed) before
      /\ Str.trim typed <> EmptyString
      /\ SheetView.everyChar SheetView.isCategoryChar (Str.trim typed) = true
      /\ SheetView.newCategory st' = EmptyString
      /\ SheetView.categoryError st' = EmptyString)
  /\ (NoDup before -> NoDup after).
Proof.
  intros typed error before st' after.
  split; [apply addCategory_rejected|]. split; [apply addCategory_accepted|].
  intros N. now apply addCategory_NoDup.
Qed.

Lemma addCategory_keeps_distinct_witness :
  let form :=
    SheetView.setNewCategory "  Pet care "
      (SheetView.initialState Scenario.november2026 App.defaultProfile AuditService.emptyStorage) in
  FinancialProfile.categories
    (SheetView.profile (SheetView.addCategory Scenario.november2026 form))
  = (EXPENSE_CATEGORIES ++ ["Pet care"%string])%list
  /\ NoDup (FinancialProfile.categories
              (SheetView.profile (SheetView.addCategory Scenario.november2026 form))).
Proof.
  intros form.
  pose proof (addCategory_keeps_distinct Scenario.november2026 form) as (_ & A & N).
  split.
  - apply A. reflexivity.
  - apply N. cbn. repeat constructor; cbn; intuition discriminate.
Defined.

(** X17. [removeCategory] takes the name out of the categories of the
    profile and keeps the others; the expenses that use the name are
    kept, so the name stays among the categories of the dashboard as long
    as an expense uses it.  Removing a name that [addCategory] has just
    appended gives the former categories back. *)
Theorem removeCategory_forgets_name (now later : Clock) (catToRemove : string)
  (st : SheetView.State) :
  let before := SheetView.profile st in
  let after := SheetView.profile (SheetView.removeCategory now catToRemove st) in
  (forall c, In c (FinancialProfile.categories after)
             <-> In c (FinancialProfile.categories before) /\ c <> catToRemove)
  /\ FinancialProfile.expenses after = FinancialProfile.expenses before
  /\ (forall c, In c (DashboardView.allCategories after)
                <-> (In c (FinancialProfile.categories before) /\ c <> catToRemove)
                    \/ exists e, In e (FinancialProfile.expenses before)
                                 /\ Expense.category e = c)
  /\ (SheetView.validateCategory before (SheetView.newCategory st) = EmptyString ->
      FinancialProfile.categories
        (SheetView.profile
           (SheetView.removeCategory later (Str.trim (SheetView.newCategory st))
              (SheetView.addCategory now st)))
      = FinancialProfile.categories before).
Proof.
  intros before after.
  assert (C : forall c, In c (FinancialProfile.categories after)
                        <-> In c (FinancialProfile.categories before)
                            /\ c <> catToRemove).
  { intros c. unfold after, before. cbn.
    rewrite filter_In, negb_true_iff, String.eqb_neq. tauto. }
  split; [exact C|]. split; [reflexivity|]. split.
  - intros c.
    destruct (allCategories_members after) as [_ I].
    rewrite I, C. reflexivity.
  - intros V.
    destruct (addCategory_accepted now st V) as (E & Hnew & _).
    cbn [SheetView.removeCategory SheetView.logged SheetView.setProfile
         SheetView.profile SheetView.withCategories FinancialProfile.categories].
    rewrite E, filter_app. cbn [filter]. rewrite String.eqb_refl. cbn [negb].
    rewrite app_nil_r. apply filter_all.
    intros c Hc. apply negb_true_iff, String.eqb_neq. intros ->. contradiction.
Qed.

Lemma removeCategory_forgets_name_witness :
  let st :=
    SheetView.setNewCategory "Pets"
      (SheetView.initialState Scenario.november2026 App.defaultProfile AuditService.emptyStorage) in
  SheetView.validateCategory App.defaultProfile "Pets" = EmptyString
  /\ FinancialProfile.categories
       (SheetView.profile
          (SheetView.removeCategory Scenario.november2026 (Str.trim "Pets")
             (SheetView.addCategory Scenario.november2026 st)))
     = EXPENSE_CATEGORIES.
Proof.
  intros st. split; [reflexivity|].
  apply (removeCategory_forgets_name Scenario.november2026 Scenario.november2026
           "Housing" st).
  reflexivity.
Defined.

(** ** Reordering the categories *)

Lemma spliceStart_index (i len : nat) :
  SheetView.spliceStart (Some (Z.of_nat i)) len = Nat.min i len.
Proof.
  unfold SheetView.spliceStart.
  destruct (Z.ltb_spec (Z.of_nat i) 0) as [H|_]; [lia|].
  now rewrite Nat2Z.id.
Qed.

Lemma remove_at_length {A : Type} (xs : list A) (i : nat) :
  (i < List.length xs)%nat ->
  List.length (firstn i xs ++ skipn (S i) xs) = (List.length xs - 1)%nat.
Proof.
  intros H. rewrite length_app, length_firstn, length_skipn. lia.
Qed.

Lemma remove_at_perm {A : Type} (xs : list A) (i : nat) (x : A) :
  nth_error xs i = Some x ->
  Permutation xs (x :: firstn i xs ++ skipn (S i) xs).
Proof.
  intros H. apply nth_error_split in H as (l1 & l2 & -> & <-).
  rewrite firstn_app, Nat.sub_diag, firstn_all, app_nil_r. cbn [firstn].
  replace (S (List.length l1)) with (List.length l1 + 1)%nat by lia.
  rewrite skipn_app, skipn_all2 by lia.
  replace (List.length l1 + 1 - List.length l1)%nat with 1%nat by lia.
  cbn [skipn app]. symmetry. apply Permutation_middle.
Qed.

Lemma insert_at_nth {A : Type} (xs : list A) (k : nat) (x : A) :
  (k <= List.length xs)%nat ->
  nth_error (firstn k xs ++ x :: skipn k xs) k = Some x
  /\ (firstn k (firstn k xs ++ x :: skipn k xs)
      ++ skipn (S k) (firstn k xs ++ x :: skipn k xs))%list = xs.
Proof.
  intros H.
  assert (L : List.length (firstn k xs) = k) by (rewrite length_firstn; lia).
  split.
  - rewrite nth_error_app2 by lia. now rewrite L, Nat.sub_diag.
  - rewrite firstn_app, L, Nat.sub_diag. cbn [firstn]. rewrite app_nil_r.
    rewrite firstn_firstn, Nat.min_id.
    replace (S k) with (List.length (firstn k xs) + 1)%nat at 1 by lia.
    rewrite skipn_app, skipn_all2 by lia.
    replace (List.length (firstn k xs) + 1 - List.length (firstn k xs))%nat
      with 1%nat by lia.
    cbn [skipn app]. apply firstn_skipn.
Qed.

(** The array stored for a drag from a position that holds [x]. *)
Lemma handleDrop_stored (cs : list string) (i j : nat) (x : string) :
  nth_error cs i = Some x -> i <> j ->
  let rest := (firstn i cs ++ skipn (S i) cs)%list in
  let k := Nat.min j (List.length cs - 1) in
  SheetView.handleDrop cs (Some (Z.of_nat i)) j
  = Some (map Some (firstn k rest ++ x :: skipn k rest)%list).
Proof.
  intros Hx Hij rest k. unfold SheetView.handleDrop.
  destruct (Z.eqb_spec (Z.of_nat i) (Z.of_nat j)) as [E|_]; [lia|].
  assert (Hi : (i < List.length cs)%nat) by (apply nth_error_Some; congruence).
  unfold SheetView.spliceOne. rewrite spliceStart_index, length_map.
  rewrite (Nat.min_l i) by lia.
  rewrite !skipn_map, !firstn_map, <- map_app. fold rest.
  assert (R : firstn 1 (skipn i cs) = [x]).
  { apply nth_error_split in Hx as (l1 & l2 & -> & <-).
    rewrite skipn_app, Nat.sub_diag, skipn_all2 by lia. reflexivity. }
  rewrite R. cbn [map].
  unfold SheetView.spliceInsert. rewrite spliceStart_index, length_map.
  replace (Nat.min j (List.length rest)) with k
    by (unfold k, rest; now rewrite remove_at_length by lia).
  now rewrite skipn_map, firstn_map, map_app.
Qed.

(** X18. A drop on the position the drag started from stores nothing.
    A drag from a position of the list to another one stores the same
    categories in a new order: the dragged one stands at the position of
    the drop, the others keep their order, and categories that are
    distinct stay distinct.  A drag index beyond the list stores a list
    with an [undefined] entry. *)
Theorem handleDrop_moves_one (cs : list string) (i j : nat) :
  SheetView.handleDrop cs (Some (Z.of_nat j)) j = None
  /\ (forall x, nth_error cs i = Some x -> i <> j -> (j < List.length cs)%nat ->
      exists cs',
        SheetView.handleDrop cs (Some (Z.of_nat i)) j = Some (map Some cs')
        /\ Permutation cs cs'
        /\ nth_error cs' j = Some x
        /\ (firstn j cs' ++ skipn (S j) cs')%list
           = (firstn i cs ++ skipn (S i) cs)%list
        /\ (NoDup cs -> NoDup cs'))
  /\ ((List.length cs <= i)%nat -> i <> j ->
      exists stored,
        SheetView.handleDrop cs (Some (Z.of_nat i)) j = Some stored
        /\ In None stored).
Proof.
  split; [|split].
  - unfold SheetView.handleDrop. now rewrite Z.eqb_refl.
  - intros x Hx Hij Hj.
    assert (Hi : (i < List.length cs)%nat) by (apply nth_error_Some; congruence).
    set (rest := (firstn i cs ++ skipn (S i) cs)%list).
    assert (Lr : List.length rest = (List.length cs - 1)%nat)
      by (apply remove_at_length; lia).
    exists (firstn j rest ++ x :: skipn j rest)%list.
    assert (P : Permutation cs (firstn j rest ++ x :: skipn j rest)%list).
    { rewrite (remove_at_perm cs i x Hx). fold rest.
      rewrite <- (firstn_skipn j rest) at 1. apply Permutation_middle. }
    destruct (insert_at_nth rest j x) as [N R]; [lia|].
    repeat split; auto.
    + rewrite (handleDrop_stored cs i j x Hx Hij). cbn zeta.
      now rewrite (Nat.min_l j) by lia.
    + intros D. eapply Permutation_NoDup; eauto.
  - intros Hi Hij. unfold SheetView.handleDrop.
    destruct (Z.eqb_spec (Z.of_nat i) (Z.of_nat j)) as [E|_]; [lia|].
    unfold SheetView.spliceOne. rewrite spliceStart_index, length_map.
    rewrite (Nat.min_r i) by lia.
    rewrite (skipn_all2 (n := List.length cs)) by (rewrite length_map; lia).
    cbn [firstn]. eexists. split; [reflexivity|].
    unfold SheetView.spliceInsert. apply in_or_app. right. now left.
Qed.

Lemma handleDrop_moves_one_witness :
  SheetView.handleDrop EXPENSE_CATEGORIES (Some 6%Z) 1
  = Some (map Some ["Housing"; "Debt"; "Food"; "Transport"; "Utilities";
                    "Entertainment"; "Health"; "Other"]%string)
  /\ exists stored,
       SheetView.handleDrop EXPENSE_CATEGORIES (Some 6%Z) 1 = Some (map Some stored)
       /\ Permutation EXPENSE_CATEGORIES stored.
Proof.
  split; [reflexivity|].
  destruct (handleDrop_moves_one EXPENSE_CATEGORIES 6 1) as (_ & M & _).
  destruct (M "Debt"%string) as (stored & E & P & _);
    [reflexivity|lia|cbn; lia|].
  exists stored. split; [exact E|exact P].
Defined.

(** ** What a session on the sheet keeps true *)

Lemma setProp_values {V : Type} (P : V -> Prop) (o : list (string * V))
  (k : string) (v : V) :
  P v -> (forall k' v', In (k', v') o -> P v') ->
  forall k' v', In (k', v') (JSObj.setProp o k v) -> P v'.
Proof.
  intros Hv. induction o as [|[k0 v0] o IH]; intros Ho k' v'; cbn.
  - intros [[= _ <-]|[]]. exact Hv.
  - destruct (String.eqb k0 k); cbn.
    + intros [[= _ <-]|H]; [exact Hv|]. eapply Ho. right. exact H.
    + intros [[= <- <-]|H]; [eapply Ho; now left|].
      eapply IH; [|exact H]. intros k1 v1 H1. eapply Ho. right. exact H1.
Qed.

Lemma contribution_category (rt : Builtins) (profile : FinancialProfile.t)
  (id rawLine : string) (e : Expense.t) :
  In e (ImportSpec.contribution profile id rawLine) ->
  Expense.category e <> EmptyString
  /\ exists c, Expense.currency e = Some c.
Proof.
  unfold ImportSpec.contribution, ExpensesSheet.importLine.
  destruct (negb (truthyS (Str.trim rawLine))); [intros []|].
  destruct (Str.splitCsv (Str.trim rawLine)) as [|d [|n [|c [|a rest]]]];
    simpl; try (intros []).
  destruct (negb (isNaN (parseFloat a)) && truthyS (Str.trim d)); [|intros []].
  intros [<-|[]]. cbn. split; [|eauto].
  unfold orStr. destruct (truthyS (Str.trim c)) eqn:T; [|discriminate].
  intros E. now rewrite E in T.
Qed.

Lemma contributions_category (rt : Builtins) (profile : FinancialProfile.t)
  (freshId : nat -> string) (lines : list string) :
  forall (i : nat) (e : Expense.t),
    In e (ImportSpec.contributions profile freshId i lines) ->
    Expense.category e <> EmptyString
    /\ exists c, Expense.currency e = Some c.
Proof.
  induction lines as [|l rest IH]; intros i e; simpl; [intros []|].
  intros H. apply in_app_or in H. destruct H as [H|H].
  - eapply contribution_category; eauto.
  - eapply IH; eauto.
Qed.

(** What the import leaves of a profile, and the rows it adds. *)
Lemma handleImport_profile (rt : Builtins) (now : Clock)
  (freshId : nat -> string) (text : string) (st st' : ExpensesSheet.State) :
  ExpensesSheet.handleImport now freshId text st = Normal st' ->
  let p := ExpensesSheet.profile st in
  let p' := ExpensesSheet.profile st' in
  FinancialProfile.categories p' = FinancialProfile.categories p
  /\ FinancialProfile.income p' = FinancialProfile.income p
  /\ FinancialProfile.budgets p' = FinancialProfile.budgets p
  /\ FinancialProfile.currency p' = FinancialProfile.currency p
  /\ forall e, In e (FinancialProfile.expenses p') ->
       In e (FinancialProfile.expenses p)
       \/ In e (ImportSpec.contributions p freshId
                  (fst (ImportSpec.dataLines text))
                  (snd (ImportSpec.dataLines text))).
Proof.
  unfold ExpensesSheet.handleImport. rewrite parseCsv_contributions. cbn [bind].
  destruct (negb (truthyS text)).
  - intros [= <-]. cbn. repeat split; auto.
  - destruct (0 <? List.length _)%nat; intros [= <-]; cbn; repeat split; auto.
    intros e H. apply in_app_or in H. tauto.
Qed.

Lemma step_wellFormed (rt : Builtins) (st st' : SheetView.State) :
  SheetSession.step st st' ->
  SheetSession.wellFormed (SheetView.profile st) ->
  SheetSession.wellFormed (SheetView.profile st').
Proof.
  intros S (N & E & I1 & I2 & B). unfold SheetSession.wellFormed.
  destruct S as [form st|field value st|now cur st|cat value st|now st|val st
                 |now st|now cat st|i j stored st Hi Hj Hd|k st
                 |now freshId text st st' Himp].
  - cbn. auto.
  - destruct field; cbn; refine (conj N (conj E (conj _ (conj _ B))));
      auto; apply orNum_not_nan.
  - cbn. auto.
  - cbn. refine (conj N (conj E (conj I1 (conj I2 _)))).
    apply setProp_values; [|exact B].
    unfold isNaN. now destruct (is_nan (parseFloat value)) eqn:Hn.
  - unfold SheetView.addExpense.
    destruct (negb (truthyS _) || negb (truthy _)) eqn:G; [now auto|].
    apply orb_false_elim in G as [_ G]. apply negb_false_iff in G.
    cbn. refine (conj N (conj _ (conj I1 (conj I2 B)))).
    intros e [<-|H]; [|now apply E]. cbn. split.
    + now apply truthy_nonzero in G.
    + unfold orStr. destruct (truthyS (NewExpense.category _)) eqn:T;
        [|discriminate].
      intros Q. now rewrite Q in T.
  - cbn. auto.
  - split; [now apply addCategory_NoDup|].
    unfold SheetView.addCategory.
    destruct (truthyS (SheetView.validateCategory _ _)); [now auto|].
    destruct (truthyS (SheetView.newCategory st)); now auto.
  - cbn. refine (conj _ (conj E (conj I1 (conj I2 B)))). now apply NoDup_filter.
  - cbn. refine (conj _ (conj E (conj I1 (conj I2 B)))).
    destruct (nth_error (FinancialProfile.categories (SheetView.profile st)) i)
      as [x|] eqn:Hx; [|apply nth_error_None in Hx; lia].
    destruct (Nat.eq_dec i j) as [->|Hij].
    + unfold SheetView.handleDrop in Hd. rewrite Z.eqb_refl in Hd. discriminate.
    + rewrite (handleDrop_stored _ i j x Hx Hij) in Hd. cbv zeta in Hd.
      injection Hd as Hd.
      apply (f_equal (map (fun o => match o with Some c => c | None => x end)))
        in Hd.
      rewrite !map_map, !map_id in Hd. rewrite <- Hd.
      eapply Permutation_NoDup; [|exact N].
      rewrite (remove_at_perm _ i x Hx) at 1.
      set (rest := (firstn i _ ++ skipn (S i) _)%list).
      rewrite <- (firstn_skipn
                    (Nat.min j (List.length
                                  (FinancialProfile.categories (SheetView.profile st)) - 1))
                    rest) at 1.
      apply Permutation_middle.
  - cbn. auto.
  - unfold SheetSession.handleImport in Himp.
    destruct (ExpensesSheet.handleImport _ _ _ _) as [r|] eqn:R; [|discriminate].
    cbn in Himp. injection Himp as <-. cbn.
    apply handleImport_profile in R. cbn in R.
    destruct R as (-> & -> & -> & _ & Hrows).
    refine (conj N (conj _ (conj I1 (conj I2 B)))).
    intros e H. destruct (Hrows e H) as [Ho|Hn]; [now apply E|]. split.
    + now apply contributions_good_rows in Hn.
    + now apply contributions_category in Hn.
Qed.

(** X19. In every state that a session on the sheet reaches from a
    well-formed profile, the profile is well formed: its categories are
    distinct, each expense has a number for its amount and a category
    that is not empty, and the incomes and the budget limits are
    numbers, whatever was typed, dragged or imported. *)
Theorem session_keeps_wellFormed (rt : Builtins) (init st : SheetView.State) :
  SheetSession.wellFormed (SheetView.profile init) ->
  SheetSession.reachable init st ->
  SheetSession.wellFormed (SheetView.profile st).
Proof.
  intros W R. induction R as [|st st' _ IH S]; [exact W|].
  now apply (step_wellFormed rt st st').
Qed.

Lemma session_keeps_wellFormed_witness :
  let now := Scenario.november2026 in
  let init := SheetView.initialState now App.defaultProfile AuditService.emptyStorage in
  let typed :=
    SheetView.setNewExpense (fun _ => NewExpense.mk "Vet" nan "" "" "EUR") init in
  let st :=
    SheetView.setProfile
      (DashboardView.handleBudgetChange (H := Runtime.builtins) "Food" "a lot")
      (SheetView.addExpense now typed) in
  SheetSession.wellFormed (SheetView.profile st).
Proof.
  intros now init typed st.
  apply (session_keeps_wellFormed Runtime.builtins init st).
  - refine (conj _ (conj _ (conj _ (conj _ _)))).
    + cbn. repeat constructor; cbn; intuition discriminate.
    + intros e H. cbn in H.
      repeat (destruct H as [<-|H]; [split; [reflexivity|discriminate]|]).
      destruct H.
    + reflexivity.
    + reflexivity.
    + intros c l [].
  - eapply SheetSession.reach_step.
    + eapply SheetSession.reach_step.
      * eapply SheetSession.reach_step; [apply SheetSession.reach_init|].
        apply (SheetSession.step_form (NewExpense.mk "Vet" nan "" "" "EUR")).
      * apply (SheetSession.step_addExpense now).
    + apply (SheetSession.step_budget "Food" "a lot").
Defined.

(** ** The form for a new expense *)

(** X20. [addExpense] changes nothing when the form has an empty
    description or an amount that is 0 or NaN.  Otherwise it puts one
    expense before the others, with the description and the amount of
    the form, the clock reading as identifier, the category and the date
    of the form unless they are empty, and the currency of the form or,
    when that is empty, of the profile; then it blanks the form. *)
Theorem addExpense_guard (now : Clock) (st : SheetView.State) :
  let form := SheetView.newExpense st in
  let st' := SheetView.addExpense now st in
  (NewExpense.name form = EmptyString \/ truthy (NewExpense.amount form) = false ->
   st' = st)
  /\ (NewExpense.name form <> EmptyString ->
      truthy (NewExpense.amount form) = true ->
      exists e,
        FinancialProfile.expenses (SheetView.profile st')
        = e :: FinancialProfile.expenses (SheetView.profile st)
        /\ Expense.id e = Date_now now
        /\ Expense.name e = NewExpense.name form
        /\ Expense.amount e = NewExpense.amount form
        /\ Expense.category e <> EmptyString
        /\ (NewExpense.category form <> EmptyString ->
            Expense.category e = NewExpense.category form)
        /\ (NewExpense.date form <> EmptyString ->
            Expense.date e = NewExpense.date form)
        /\ Expense.currency e
           = Some (if truthyS (NewExpense.currency form)
                   then NewExpense.currency form
                   else FinancialProfile.currency (SheetView.profile st))
        /\ SheetView.newExpense st'
           = SheetView.blankExpense now (SheetView.profile st)
        /\ FinancialProfile.categories (SheetView.profile st')
           = FinancialProfile.categories (SheetView.profile st)).
Proof.
  intros form st'. split.
  - intros H. unfold st', SheetView.addExpense. fold form.
    destruct H as [-> | ->]; [reflexivity|]. now rewrite orb_true_r.
  - intros Hn Ha. unfold st', SheetView.addExpense. fold form.
    rewrite (truthyS_nonempty _ Hn), Ha. cbn [negb orb].
    eexists. split; [reflexivity|]. cbn.
    repeat split.
    + unfold orStr. destruct (truthyS (NewExpense.category form)) eqn:T;
        [|discriminate].
      intros Q. now rewrite Q in T.
    + intros H. unfold orStr. now rewrite (truthyS_nonempty _ H).
    + intros H. unfold orStr. now rewrite (truthyS_nonempty _ H).
Qed.

Lemma addExpense_guard_witness :
  let now := Scenario.november2026 in
  let init := SheetView.initialState now App.defaultProfile AuditService.emptyStorage in
  let filled :=
    SheetView.setNewExpense (fun _ => NewExpense.mk "Vet" 80 "" "" "") init in
  SheetView.addExpense now init = init
  /\ exists e,
       FinancialProfile.expenses (SheetView.profile (SheetView.addExpense now filled))
       = e :: MOCK_EXPENSES
       /\ Expense.amount e = 80
       /\ Expense.currency e = Some "USD"%string.
Proof.
  intros now init filled. split.
  - apply (addExpense_guard now init). left. reflexivity.
  - destruct (addExpense_guard now filled) as [_ A].
    destruct A as (e & E & _ & _ & Ha & _ & _ & _ & Hc & _);
      [discriminate|reflexivity|].
    exists e. split; [exact E|]. split; [exact Ha|exact Hc].
Defined.

(** ** The two importers *)

Section Importers.
Import Str RoundTrip.
Local Open Scope string_scope.
Context (rt : Builtins).

Lemma App_importLine_sheet (profile : FinancialProfile.t) (id rawLine : string) :
  App.importLine id rawLine
  = (r <- ExpensesSheet.importLine profile id rawLine ;;
     Normal (option_map Backup.withoutCurrency r)).
Proof.
  unfold App.importLine, ExpensesSheet.importLine.
  destruct (negb (truthyS (trim rawLine))); [reflexivity|].
  destruct (splitCsv (trim rawLine)) as [|d [|n [|c [|a rest]]]];
    try reflexivity.
  cbn. destruct (negb (isNaN (parseFloat a)) && truthyS (trim d)); reflexivity.
Qed.

Lemma App_importLoop_contributions (profile : FinancialProfile.t)
  (freshId : nat -> string) (lines : list string) :
  forall (i : nat) (acc : list Expense.t),
    App.importLoop freshId i lines acc
    = Normal (acc ++ map Backup.withoutCurrency
                       (ImportSpec.contributions profile freshId i lines))%list.
Proof.
  induction lines as [|l rest IH]; intros i acc; cbn [App.importLoop].
  - cbn. now rewrite app_nil_r.
  - rewrite (App_importLine_sheet profile).
    cbn [ImportSpec.contributions]. unfold ImportSpec.contribution.
    destruct (importLine_normal rt profile (freshId i) l) as [r ->].
    cbn [bind]. rewrite IH. destruct r as [e|]; cbn; [|reflexivity].
    now rewrite <- app_assoc.
Qed.

Lemma App_parseCsv_contributions (profile : FinancialProfile.t)
  (freshId : nat -> string) (text : string) :
  App.parseCsv freshId text
  = Normal (map Backup.withoutCurrency
              (ImportSpec.contributions profile freshId
                 (fst (ImportSpec.dataLines text))
                 (snd (ImportSpec.dataLines text)))).
Proof.
  unfold App.parseCsv, ImportSpec.dataLines.
  destruct (split_cons LF text) as (h & t & ->).
  cbn [at_ nth_error optCall option_map].
  destruct (includes "date" (toLowerCase h)); cbn [skipn fst snd];
    now rewrite (App_importLoop_contributions profile).
Qed.

(** X21. On every text the import of the settings menu and the import of
    the sheet keep the same lines and read the same identifier, date,
    description, category and amount from them.  The rows of the sheet
    always carry a currency; the rows of the menu never do. *)
Theorem importers_agree (profile : FinancialProfile.t)
  (freshId : nat -> string) (text : string) :
  exists rows,
    ExpensesSheet.parseCsv profile freshId text = Normal rows
    /\ App.parseCsv freshId text = Normal (map Backup.withoutCurrency rows)
    /\ forall e, In e rows -> exists c, Expense.currency e = Some c.
Proof.
  eexists. split; [apply parseCsv_contributions|].
  split; [apply App_parseCsv_contributions|].
  intros e H. now apply contributions_category in H.
Qed.

(** The text of a row of the menu's export, field by field. *)
Lemma App_exportRow_text (e : Expense.t) :
  join "," (App.exportRow e)
  = Expense.date e ++ String comma
      (quoted (Expense.name e) ++ String comma
         (Expense.category e ++ String comma
            (Number_toString (Expense.amount e)))).
Proof. reflexivity. Qed.

Lemma Backup_exportable_parts (e : Expense.t) :
  Backup.exportable e = true ->
  let txt := Number_toString (Expense.amount e) in
  (plain (Expense.date e) = true /\ trimmed (Expense.date e) = true
   /\ isEmpty (Expense.date e) = false)
  /\ (oneLine (Expense.name e) = true /\ trimmed (Expense.name e) = true)
  /\ (plain (Expense.category e) = true /\ trimmed (Expense.category e) = true
      /\ isEmpty (Expense.category e) = false)
  /\ (plain txt = true /\ trimmed txt = true
      /\ parseFloat txt = Expense.amount e
      /\ isNaN (Expense.amount e) = false).
Proof.
  unfold Backup.exportable. intros H.
  repeat match type of H with
         | (_ && _) = true => apply andb_prop in H as [H ?]
         end.
  repeat match goal with
         | [ N : negb _ = true |- _ ] => apply negb_true_iff in N
         | [ L : Leibniz.eqb _ _ = true |- _ ] => apply Leibniz.eqb_spec in L
         end.
  cbv zeta. tauto.
Qed.

Lemma App_exportRow_oneLine (e : Expense.t) :
  Backup.exportable e = true ->
  oneLine (join "," (App.exportRow e)) = true.
Proof.
  intros H. rewrite App_exportRow_text.
  destruct (Backup_exportable_parts e H)
    as ((Hdate_p & _) & (Hname_l & _) & (Hcat_p & _) & (Htxt_p & _)).
  apply plain_parts in Hdate_p as (_ & _ & Ld), Hcat_p as (_ & _ & Lc),
    Htxt_p as (_ & _ & La).
  unfold oneLine, quoted in *.
  repeat (rewrite allChars_app || cbn [allChars append]).
  fold (oneLine (escapeQuotes (Expense.name e))).
  rewrite (oneLine_escape _ Hname_l), Ld, Lc, La. reflexivity.
Qed.

(** The sheet reads a row of the menu's export back with the currency of
    the profile. *)
Lemma importLine_App_exportRow (profile : FinancialProfile.t) (id : string)
  (e : Expense.t) :
  Backup.exportable e = true ->
  ExpensesSheet.importLine profile id (join "," (App.exportRow e))
  = Normal (Some (Backup.reread profile id e)).
Proof.
  intros H. rewrite App_exportRow_text.
  destruct (Backup_exportable_parts e H)
    as ((Hdate_p & Hdate_t & Hdate_ne) & (Hname_l & Hname_t)
        & (Hcat_p & Hcat_t & Hcat_ne) & (Htxt_p & Htxt_t & Hrt & Hnan)).
  apply plain_parts in Hdate_p as (Cd & Qd & _), Hcat_p as (Cc & Qc & _),
    Htxt_p as (Ca & Qa & _).
  set (d := Expense.date e) in *. set (c := Expense.category e) in *.
  set (a := Number_toString (Expense.amount e)) in *.
  set (line := d ++ String comma (quoted (Expense.name e) ++ String comma
                 (c ++ String comma a))).
  assert (Htrim : trim line = line).
  { unfold trim, line. rewrite (trimStart_app _ _ Hdate_t Hdate_ne).
    rewrite !trimEnd_comma, (trimmed_trimEnd _ Htxt_t). reflexivity. }
  assert (Hsplit : splitCsv line = [d; quoted (Expense.name e); c; a]).
  { unfold line.
    assert (E3 : countQuotes a = 0%nat) by now apply countQuotes_noQuote.
    assert (E2 : countQuotes (c ++ String comma a) = 0%nat)
      by (now rewrite (countQuotes_field _ _ Qc)).
    rewrite splitCsv_field; [|exact Cd|].
    2:{ now rewrite countQuotes_quoted_even, countQuotes_comma, E2. }
    rewrite splitCsv_quoted_field by now rewrite E2.
    rewrite splitCsv_field by (auto; now rewrite E3).
    now rewrite (splitCsv_noComma _ Ca). }
  rewrite (importLine_fields rt profile id line d (quoted (Expense.name e)) c a []);
    [| rewrite Htrim; unfold line; destruct d; [discriminate|discriminate]
     | now rewrite Htrim ].
  rewrite Hrt, Hnan, (trimmed_trim _ Hdate_t), (trimmed_trim _ Hcat_t).
  unfold quoted. rewrite unquote_quoted, unescape_escape, (trimmed_trim _ Hname_t).
  rewrite truthyS_isEmpty, Hdate_ne. cbn [negb andb].
  unfold Backup.reread. fold d c. do 3 f_equal.
  unfold orStr. now rewrite truthyS_isEmpty, Hcat_ne.
Qed.

Lemma contributions_App_exported (profile : FinancialProfile.t)
  (freshId : nat -> string) (es : list Expense.t) :
  forallb Backup.exportable es = true ->
  forall i,
    ImportSpec.contributions profile freshId i
      (map (fun e => join "," (App.exportRow e)) es)
    = Backup.rereadAll profile freshId i es.
Proof.
  induction es as [|e rest IH]; intros H i; [reflexivity|].
  simpl in H. apply andb_prop in H as [He Hrest].
  cbn [map ImportSpec.contributions Backup.rereadAll].
  unfold ImportSpec.contribution.
  rewrite (importLine_App_exportRow profile (freshId i) e He), (IH Hrest).
  reflexivity.
Qed.

Lemma dataLines_App_csvContent (profile : FinancialProfile.t) :
  forallb Backup.exportable (FinancialProfile.expenses profile) = true ->
  ImportSpec.dataLines (App.csvContent profile)
  = (1%nat, map (fun e => join "," (App.exportRow e))
              (FinancialProfile.expenses profile)).
Proof.
  intros H. unfold ImportSpec.dataLines, App.csvContent.
  rewrite map_map, split_join; [reflexivity|discriminate|].
  cbn [forallb]. apply andb_true_intro. split; [reflexivity|].
  rewrite forallb_forall in *. intros l Hl.
  apply in_map_iff in Hl as (e & <- & He).
  apply App_exportRow_oneLine, H, He.
Qed.

(** X22. The export of the settings menu writes no currency.  For
    transactions that its four columns can carry, the sheet reads the
    exported text back row for row with the same date, description,
    category and amount, and with the currency of the profile, whatever
    currency the transaction had; the import of the menu reads the same
    rows back without a currency. *)
Theorem menu_export_drops_currency (profile : FinancialProfile.t)
  (freshId : nat -> string) :
  forallb Backup.exportable (FinancialProfile.expenses profile) = true ->
  ExpensesSheet.parseCsv profile freshId (App.csvContent profile)
  = Normal (Backup.rereadAll profile freshId 1 (FinancialProfile.expenses profile))
  /\ App.parseCsv freshId (App.csvContent profile)
     = Normal (map Backup.withoutCurrency
                 (Backup.rereadAll profile freshId 1
                    (FinancialProfile.expenses profile))).
Proof.
  intros H. split.
  - rewrite parseCsv_contributions, (dataLines_App_csvContent profile H).
    cbn [fst snd]. now rewrite contributions_App_exported.
  - rewrite (App_parseCsv_contributions profile),
      (dataLines_App_csvContent profile H).
    cbn [fst snd]. now rewrite contributions_App_exported.
Qed.

End Importers.

Lemma menu_export_drops_currency_witness :
  ExpensesSheet.parseCsv (H := Runtime.builtins) Ledger.quotedProfile Sample.freshId
    (App.csvContent (H := Runtime.builtins) Ledger.quotedProfile)
  = Normal (Backup.rereadAll Ledger.quotedProfile Sample.freshId 1
              (FinancialProfile.expenses Ledger.quotedProfile))
  /\ App.parseCsv (H := Runtime.builtins) Sample.freshId
       (App.csvContent (H := Runtime.builtins) Ledger.quotedProfile)
     = Normal (map Backup.withoutCurrency
                 (Backup.rereadAll Ledger.quotedProfile Sample.freshId 1
                    (FinancialProfile.expenses Ledger.quotedProfile))).
Proof.
  apply (menu_export_drops_currency Runtime.builtins Ledger.quotedProfile
           Sample.freshId).
  vm_compute. reflexivity.
Defined.

(** The coffee paid in euros comes back from the menu's export as a
    coffee paid in dollars. *)
Example menu_export_coffee :
  option_map (fun rows => map Expense.currency rows)
    (match ExpensesSheet.parseCsv (H := Runtime.builtins) Ledger.quotedProfile
             Sample.freshId
             (App.csvContent (H := Runtime.builtins) Ledger.quotedProfile) with
     | Normal rows => Some rows
     | Throw _ => None
     end)
  = Some [Some "USD"; Some "USD"; Some "USD"]%string.
Proof. vm_compute. reflexivity. Qed.

(** ** The order of the table *)

Lemma String_ltb_asym (a b : string) :
  String.ltb a b = true -> String.ltb b a = false.
Proof.
  unfold String.ltb. rewrite (String.compare_antisym b a).
  destruct (String.compare a b); cbn; congruence.
Qed.

Lemma fieldLt_asym (k : SheetView.SortKey) (a b : Expense.t) :
  SheetView.fieldLt k a b = true -> SheetView.fieldLt k b a = false.
Proof.
  destruct k; cbn; try apply String_ltb_asym; [apply ltb_asym|].
  destruct (Expense.currency a), (Expense.currency b);
    try discriminate; try reflexivity.
  apply String_ltb_asym.
Qed.

(** When the comparator asks for [a] to go after [b]. *)
Lemma compareRows_positive (cfg : SheetView.SortConfig) (a b : Expense.t) :
  (0 <? SheetView.compareRows cfg a b) = true
  <-> match SheetView.direction cfg with
      | SheetView.asc => SheetView.fieldLt (SheetView.key cfg) b a = true
      | SheetView.desc => SheetView.fieldLt (SheetView.key cfg) a b = true
      end.
Proof.
  unfold SheetView.compareRows.
  destruct (SheetView.fieldLt (SheetView.key cfg) a b) eqn:Eab.
  - rewrite (fieldLt_asym _ _ _ Eab).
    destruct (SheetView.direction cfg); cbn; split; auto; discriminate.
  - destruct (SheetView.fieldLt (SheetView.key cfg) b a) eqn:Eba;
      destruct (SheetView.direction cfg); cbn; split; auto; discriminate.
Qed.

Lemma compareRows_asym (cfg : SheetView.SortConfig) (a b : Expense.t) :
  (0 <? SheetView.compareRows cfg a b) = true ->
  (0 <? SheetView.compareRows cfg b a) = false.
Proof.
  intros H. apply compareRows_positive in H.
  destruct (0 <? SheetView.compareRows cfg b a) eqn:E; [|reflexivity].
  apply compareRows_positive in E. revert H E.
  destruct (SheetView.direction cfg); intros H E;
    apply fieldLt_asym in H; congruence.
Qed.

(** X23. Sorting rows with the comparator of the table keeps the rows,
    each as often as before, and leaves no row right before a row that
    is lower in the chosen column when the direction is ascending, or
    higher when it is descending.  A click on the header of the column
    that the table is sorted by in ascending order turns the direction;
    any other click sorts by the clicked column in ascending order. *)
Theorem table_sorted_by_column (cfg : SheetView.SortConfig)
  (rows : list Expense.t) (k : SheetView.SortKey) (st : SheetView.State) :
  forallb (SheetView.hasKey (SheetView.key cfg)) rows = true ->
  let shown := JSObj.sort (SheetView.compareRows cfg) rows in
  Permutation shown rows
  /\ Sorted (fun a b =>
               match SheetView.direction cfg with
               | SheetView.asc => SheetView.fieldLt (SheetView.key cfg) b a = false
               | SheetView.desc => SheetView.fieldLt (SheetView.key cfg) a b = false
               end) shown
  /\ SheetView.key (SheetView.sortConfig (SheetView.handleSort k st)) = k
  /\ (SheetView.direction (SheetView.sortConfig (SheetView.handleSort k st))
      = SheetView.desc
      <-> SheetView.sortConfig st
          = {| SheetView.key := k; SheetView.direction := SheetView.asc |}).
Proof.
  intros _ shown. split; [apply sort_perm|]. split; [|split].
  - pose proof (sort_Sorted (SheetView.compareRows cfg) (compareRows_asym cfg) rows)
      as S.
    fold shown in S. clearbody shown.
    induction S as [|a l _ IH Hd]; constructor; [exact IH|].
    destruct Hd as [|b l Hab]; constructor.
    unfold JSObj.inOrder in Hab.
    destruct (SheetView.direction cfg) eqn:D.
    + destruct (SheetView.fieldLt (SheetView.key cfg) b a) eqn:E; [|reflexivity].
      assert (P : (0 <? SheetView.compareRows cfg a b) = true)
        by (apply compareRows_positive; now rewrite D).
      congruence.
    + destruct (SheetView.fieldLt (SheetView.key cfg) a b) eqn:E; [|reflexivity].
      assert (P : (0 <? SheetView.compareRows cfg a b) = true)
        by (apply compareRows_positive; now rewrite D).
      congruence.
  - reflexivity.
  - cbn. destruct (SheetView.sortConfig st) as [k' [|]]; cbn.
    + destruct k, k'; cbn; split; intros H; try reflexivity; discriminate.
    + rewrite andb_false_r. split; intros H; discriminate.
Qed.

Lemma table_sorted_by_column_witness :
  let cfg := {| SheetView.key := SheetView.Key_amount;
                SheetView.direction := SheetView.asc |} in
  map Expense.name (JSObj.sort (SheetView.compareRows cfg) MOCK_EXPENSES)
  = ["Netflix"; "Car Loan"; "Groceries"; "Rent"]%string
  /\ Permutation (JSObj.sort (SheetView.compareRows cfg) MOCK_EXPENSES)
       MOCK_EXPENSES.
Proof.
  intros cfg. split; [reflexivity|].
  apply (table_sorted_by_column cfg MOCK_EXPENSES SheetView.Key_date
           (SheetView.initialState Scenario.november2026 App.defaultProfile AuditService.emptyStorage)).
  reflexivity.
Defined.

(** ** One currency *)

Lemma reduce_same {A : Type} (f g : number -> A -> number) (xs : list A) :
  (forall x, In x xs -> forall acc, f acc x = g acc x) ->
  forall init, reduce f init xs = reduce g init xs.
Proof.
  unfold reduce. induction xs as [|x xs IH]; intros H init; [reflexivity|].
  cbn [fold_left]. rewrite (H x (or_introl eq_refl)).
  apply IH. intros y Hy. apply H. now right.
Qed.

Lemma convertCurrency_same (amount : number) (code : string) :
  convertCurrency amount code code = amount.
Proof. unfold convertCurrency. now rewrite String.eqb_refl. Qed.

(** X24. When every expense is in the currency of the profile, or has
    none, the figures of the four views agree: the spend and the usage
    of each category in the budget manager of the sheet are those of the
    dashboard, and the monthly total of the planner and of the advisor,
    and the savings rate of the advisor, are those of the dashboard. *)
Theorem one_currency_figures_agree (profile : FinancialProfile.t) :
  (forall e, In e (FinancialProfile.expenses profile) ->
             orStr (Expense.currency e) (FinancialProfile.currency profile)
             = FinancialProfile.currency profile) ->
  (forall category,
      ExpensesSheet.spent profile category = Dashboard.spent profile category
      /\ ExpensesSheet.percentage profile category
         = Dashboard.percentage profile category)
  /\ PlanningTools.totalMonthlyExpenses profile
     = Dashboard.totalMonthlyExpenses profile
  /\ GeminiService.totalMonthlyExpenses profile
     = Dashboard.totalMonthlyExpenses profile
  /\ GeminiService.savingsRate profile = Dashboard.savingsRate profile.
Proof.
  intros H.
  assert (S : forall category,
             ExpensesSheet.spent profile category = Dashboard.spent profile category).
  { intros category. unfold ExpensesSheet.spent, Dashboard.spent.
    apply reduce_same. intros e He acc. apply filter_In in He as [He _].
    now rewrite (H e He), convertCurrency_same. }
  assert (T : GeminiService.totalMonthlyExpenses profile
              = Dashboard.totalMonthlyExpenses profile).
  { unfold GeminiService.totalMonthlyExpenses, Dashboard.totalMonthlyExpenses.
    apply reduce_same. intros e He acc.
    now rewrite (H e He), convertCurrency_same. }
  split; [|split; [exact T|split; [exact T|]]].
  - intros category. split; [apply S|].
    unfold ExpensesSheet.percentage, Dashboard.percentage,
      ExpensesSheet.budget, Dashboard.budget.
    now rewrite S.
  - unfold GeminiService.savingsRate, Dashboard.savingsRate,
      GeminiService.netSavings, Dashboard.monthlySavings.
    now rewrite T.
Qed.

Lemma one_currency_figures_agree_witness :
  PlanningTools.totalMonthlyExpenses App.defaultProfile
  = Dashboard.totalMonthlyExpenses App.defaultProfile
  /\ GeminiService.savingsRate App.defaultProfile
     = Dashboard.savingsRate App.defaultProfile.
Proof.
  destruct (one_currency_figures_agree App.defaultProfile) as (_ & P & _ & R).
  - intros e H. cbn in H.
    repeat (destruct H as [<-|H]; [reflexivity|]). destruct H.
  - split; [exact P|exact R].
Defined.


